(** * Robotidy: transformer loading and the command-line front end

    A shallow embedding of [robotidy/transformers/__init__.py] and of the
    parts of [robotidy/cli.py] that decide how transformers are selected,
    configured, described and run.

    Python strings are [string]; an insertion-ordered [dict] is an
    association list updated in place; the [config] mapping, which the loader
    only looks up, is a [gmap]; exceptions and standard output are threaded
    through a small monad whose state is the trace of observable events. *)

From Stdlib Require Import ZArith Ascii String List Bool DecimalString Lia.
From stdpp Require Import base strings list gmap.

(** ** Python string methods used by the code *)

Module PyStr.

(** [s.split(sep, maxsplit=1)] for a one-character separator: one element
    when [sep] does not occur, otherwise the text before the first [sep]
    and everything after it. *)
Fixpoint split_maxsplit1 (sep : ascii) (s : string) : list string :=
  match s with
  | EmptyString => [EmptyString]
  | String c s' =>
      if Ascii.eqb c sep then [EmptyString; s']
      else match split_maxsplit1 sep s' with
           | hd :: tl => String c hd :: tl
           | [] => [String c EmptyString]
           end
  end.

(** [s.split(sep)] for a one-character separator. *)
Fixpoint split (sep : ascii) (s : string) : list string :=
  match s with
  | EmptyString => [EmptyString]
  | String c s' =>
      if Ascii.eqb c sep then EmptyString :: split sep s'
      else match split sep s' with
           | hd :: tl => String c hd :: tl
           | [] => [String c EmptyString]
           end
  end.

(** [l[-1]] on the result of a split (never empty). *)
Definition last_item (l : list string) : string := List.last l EmptyString.

(** [sub in s]. *)
Fixpoint contains (sub s : string) : bool :=
  if String.prefix sub s then true
  else match s with
       | EmptyString => false
       | String _ s' => contains sub s'
       end.

(** [c in s] for one character. *)
Fixpoint has_char (c : ascii) (s : string) : bool :=
  match s with
  | EmptyString => false
  | String d s' => Ascii.eqb d c || has_char c s'
  end.

(** [s.replace(old, new)] for a non-empty [old] (both call sites pass a
    literal): a left-to-right scan over non-overlapping occurrences.
    [skip] counts the characters of a matched occurrence still to drop. *)
Fixpoint replace_from (old new : string) (skip : nat) (s : string) : string :=
  match s with
  | EmptyString => EmptyString
  | String c s' =>
      match skip with
      | S k => replace_from old new k s'
      | O =>
          if String.prefix old s
          then new +:+ replace_from old new (String.length old - 1) s'
          else String c (replace_from old new 0 s')
      end
  end.

Definition replace (old new s : string) : string := replace_from old new 0 s.

End PyStr.

(** ** Python's insertion-ordered [dict] with string keys *)

Module PyDict.

Definition dict (V : Type) : Type := list (string * V).

(** [d[k] = v]: an existing key keeps its position and takes the new value,
    a new key goes to the end. *)
Fixpoint set {V} (d : dict V) (k : string) (v : V) : dict V :=
  match d with
  | [] => [(k, v)]
  | (k', v') :: d' =>
      if String.eqb k' k then (k', v) :: d' else (k', v') :: set d' k v
  end.

(** [d.get(k)]. *)
Fixpoint get {V} (d : dict V) (k : string) : option V :=
  match d with
  | [] => None
  | (k', v') :: d' => if String.eqb k' k then Some v' else get d' k
  end.

(** [d.keys()], in insertion order. *)
Definition keys {V} (d : dict V) : list string := map fst d.

(** [{key(x): val(x) for x in xs}]. *)
Definition comprehension {X V} (key : X -> string) (val : X -> V)
    (xs : list X) : dict V :=
  fold_left (fun d x => set d (key x) (val x)) xs [].

End PyDict.

(** ** Exceptions and effects *)

Inductive exn : Type :=
  | ValueError (msg : string)
  | TypeError (msg : string)
  | AttributeError (msg : string)
  | DataError (msg : string)
  | ImportTransformerError (msg : string)
  | TomlDecodeError (msg : string)
  | OSError (msg : string)
  | FileError (filename hint : string)
  | Exit (code : Z).

Inductive outcome (A : Type) : Type :=
  | Return (a : A)
  | Raise (e : exn).
Arguments Return {A} a.
Arguments Raise {A} e.

(** What a run leaves behind, in order: a line written to standard output
    ([click.echo], [print]) or a call of Robot Framework's [Importer]. *)
Inductive event : Type :=
  | Echo (line : string)
  | ImportCall (name : string) (args : list string).

Definition trace : Type := list event.

(** The importer calls recorded in a trace. *)
Definition imports_of (t : trace) : list (string * list string) :=
  flat_map (fun ev => match ev with
                      | ImportCall name args => [(name, args)]
                      | Echo _ => []
                      end) t.

Definition M (A : Type) : Type := trace -> outcome A * trace.

Definition ret {A} (a : A) : M A := fun t => (Return a, t).
Definition raise {A} (e : exn) : M A := fun t => (Raise e, t).
Definition bind {A B} (m : M A) (k : A -> M B) : M B :=
  fun t => match m t with
           | (Return a, t') => k a t'
           | (Raise e, t') => (Raise e, t')
           end.
Definition emit (ev : event) : M unit := fun t => (Return tt, t ++ [ev]).
Definition lift {A} (o : outcome A) : M A := fun t => (o, t).

Notation "x <- m ;; k" := (bind m (fun x => k))
  (at level 100, m at next level, right associativity).
Notation "m ;;; k" := (bind m (fun _ => k))
  (at level 100, right associativity).

(** [click.echo(line)] and [print(line)]. *)
Definition echo (line : string) : M unit := emit (Echo line).

(** [ctx.exit(code)]. *)
Definition ctx_exit {A} (code : Z) : M A := raise (Exit code).

(** The result of a computation started from the empty trace. *)
Definition outcome_of {A} (m : M A) : outcome A := fst (m []).

(** A computation whose result does not depend on what happened before. *)
Definition steady {A} (m : M A) : Prop := forall t, fst (m t) = outcome_of m.

(** ** [robotidy/transformers/__init__.py] *)

Module Transformers.

(** An imported and instantiated transformer, as far as the loader and the
    command line look at it: [__class__.__name__], the [ENABLED] class
    attribute when the class has one, and [__doc__] ([None] without a
    docstring). *)
Record Transformer : Type := {
  class_name : string;
  ENABLED : option bool;
  doc : option string
}.

(** An attempt that yields the transformer [c]. *)
Definition resolves (m : M (option Transformer)) (c : Transformer) : Prop :=
  outcome_of m = Return (Some c).

(** [getattr(imported_class, 'ENABLED', True)]. *)
Definition getattr_ENABLED (t : Transformer) : bool :=
  match ENABLED t with Some b => b | None => true end.

Definition TRANSFORMERS : list string := [
  "NormalizeSeparators";
  "DiscardEmptySections";
  "MergeAndOrderSections";
  "RemoveEmptySettings";
  "NormalizeAssignments";
  "OrderSettings";
  "OrderSettingsSection";
  "AlignSettingsSection";
  "AlignVariablesSection";
  "NormalizeNewLines";
  "NormalizeSectionHeaderName";
  "NormalizeSettingName";
  "ReplaceRunKeywordIf";
  "SplitTooLongLine";
  "SmartSortKeywords"
].

Definition unpack_got_1 : string :=
  "not enough values to unpack (expected 2, got 1)".

(** [param, value = arg.split('=', maxsplit=1)]: unpacking anything but two
    items is a [ValueError] of the interpreter. *)
Definition unpack2 (l : list string) : outcome (string * string) :=
  match l with
  | [a; b] => Return (a, b)
  | [] => Raise (ValueError "not enough values to unpack (expected 2, got 0)")
  | [_] => Raise (ValueError unpack_got_1)
  | _ => Raise (ValueError "too many values to unpack (expected 2)")
  end.

(** Lines 62-64: the loop over [chain(args, config.get(name, ()))] that
    fills [temp_args]. *)
Fixpoint fill_temp_args (toks : list string) (temp_args : PyDict.dict string)
    : outcome (PyDict.dict string) :=
  match toks with
  | [] => Return temp_args
  | arg :: rest =>
      match unpack2 (PyStr.split_maxsplit1 "="%char arg) with
      | Return (param, value) =>
          fill_temp_args rest (PyDict.set temp_args param value)
      | Raise e => Raise e
      end
  end.

(** [f'{key}={value}']. *)
Definition format_arg (kv : string * string) : string :=
  fst kv +:+ "=" +:+ snd kv.

(** The parameter a raw token sets: its text before the first ['=']. *)
Definition token_param (arg : string) : string :=
  hd EmptyString (PyStr.split_maxsplit1 "="%char arg).

(** [config.get(name, ())]. *)
Definition config_get (config : gmap string (list string)) (name : string)
    : list string :=
  default [] (config !! name).

(** Lines 61-65: the arguments of an explicitly selected transformer joined
    with its configuration. *)
Definition join_args (name : string) (args : list string)
    (config : gmap string (list string)) : outcome (list string) :=
  match fill_temp_args (args ++ config_get config name) [] with
  | Return temp_args => Return (map format_arg temp_args)
  | Raise e => Raise e
  end.

(** Line 66. *)
Definition import_name_of (name : string) : string :=
  if decide (name ∈ TRANSFORMERS) then "robotidy.transformers." +:+ name
  else name.

Definition instance_failed_marker : string := "Creating instance failed".

Definition import_failed_message (short_name similar : string) : string :=
  "Importing transformer '" +:+ short_name +:+ "' failed. "
  +:+ "Verify if correct name or configuration was provided." +:+ similar.

(** What Robot Framework's [Importer().import_class_or_module(name,
    instantiate_with_args=args)] does for a name and its arguments: it
    returns the imported object, or raises [DataError] with a message. *)
Inductive import_result : Type :=
  | Imported (imported : option Transformer)
  | ImportDataError (message : string).

Section Loader.

(** The external importer. *)
Variable import_class_or_module : string -> list string -> import_result.

(** [RecommendationFinder().find_similar(name, candidates)] of
    [robotidy.utils]: the suggestion text appended to a message. *)
Variable find_similar : string -> list string -> string.

Definition import_transformer (name : string) (args : list string)
    : M (option Transformer) :=
  emit (ImportCall name args) ;;;
  match import_class_or_module name args with
  | Imported imported => ret imported
  | ImportDataError err =>
      if PyStr.contains instance_failed_marker err
      then raise (DataError err)
      else
        let short_name := PyStr.last_item (PyStr.split "."%char name) in
        let similar := find_similar short_name TRANSFORMERS in
        raise (ImportTransformerError
                 (import_failed_message short_name similar))
  end.

(** Lines 61-67: one explicitly selected transformer. *)
Definition import_selected (config : gmap string (list string))
    (item : string * list string) : M (option Transformer) :=
  args <- lift (join_args (fst item) (snd item) config) ;;
  import_transformer (import_name_of (fst item)) args.

(** Line 73: one transformer of the catalog. *)
Definition import_default (config : gmap string (list string))
    (name : string) : M (option Transformer) :=
  import_transformer ("robotidy.transformers." +:+ name)
                     (config_get config name).

(** The loop [for name, args in allowed_transformers], with
    [loaded_transformers] as the accumulator. *)
Fixpoint load_selected (config : gmap string (list string))
    (allowed : list (string * list string))
    (loaded_transformers : list Transformer) : M (list Transformer) :=
  match allowed with
  | [] => ret loaded_transformers
  | item :: rest =>
      imported_class <- import_selected config item ;;
      match imported_class with
      | None => ret []
      | Some c => load_selected config rest (loaded_transformers ++ [c])
      end
  end.

(** The loop [for name in TRANSFORMERS]. *)
Fixpoint load_default (config : gmap string (list string))
    (allow_disabled : bool) (names : list string)
    (loaded_transformers : list Transformer) : M (list Transformer) :=
  match names with
  | [] => ret loaded_transformers
  | name :: rest =>
      imported_class <- import_default config name ;;
      match imported_class with
      | None => ret []
      | Some c =>
          if allow_disabled || getattr_ENABLED c
          then load_default config allow_disabled rest
                 (loaded_transformers ++ [c])
          else load_default config allow_disabled rest loaded_transformers
      end
  end.

(** [allowed_transformers] is [None] or a sequence of [(name, args)] pairs;
    [None] and the empty sequence are both falsy. *)
Definition load_transformers
    (allowed_transformers : option (list (string * list string)))
    (config : gmap string (list string)) (allow_disabled : bool)
    : M (list Transformer) :=
  match allowed_transformers with
  | Some ((_ :: _) as allowed) => load_selected config allowed []
  | _ => load_default config allow_disabled TRANSFORMERS []
  end.

(** The resolution attempts of one call, in the order the loops make
    them. *)
Definition attempts
    (allowed_transformers : option (list (string * list string)))
    (config : gmap string (list string)) : list (M (option Transformer)) :=
  match allowed_transformers with
  | Some ((_ :: _) as allowed) => map (import_selected config) allowed
  | _ => map (import_default config) TRANSFORMERS
  end.

(** Whether a loaded transformer is appended to the result. *)
Definition appended
    (allowed_transformers : option (list (string * list string)))
    (allow_disabled : bool) (c : Transformer) : bool :=
  match allowed_transformers with
  | Some (_ :: _) => true
  | _ => allow_disabled || getattr_ENABLED c
  end.

(** Both loops at once: run the attempts in order, stop with [[]] at the
    first [None], append what [keep] accepts. *)
Fixpoint run_attempts (keep : Transformer -> bool)
    (ms : list (M (option Transformer)))
    (loaded_transformers : list Transformer) : M (list Transformer) :=
  match ms with
  | [] => ret loaded_transformers
  | m :: rest =>
      imported_class <- m ;;
      match imported_class with
      | None => ret []
      | Some c =>
          if keep c
          then run_attempts keep rest (loaded_transformers ++ [c])
          else run_attempts keep rest loaded_transformers
      end
  end.

End Loader.

End Transformers.

Import Transformers.

(** ** Robot Framework's importer, stage by stage *)

Module RobotImporter.

(** [robot.utils.importer.Importer] is a library outside this repository.
    What [import_class_or_module(name, instantiate_with_args=args)] does is
    described here by the three things that can go wrong, in the order the
    library tries them: the name cannot be imported; the name is found but
    the arguments do not fit the signature of the class, which is settled
    before the constructor is called; the constructor is called and
    raises. The library reports each as a [DataError] whose message starts
    with [Importing 'name' failed: ], and only the last one has
    [Creating instance failed: ] next. *)
Record stages : Type := {
  (** the error of importing the name, when it cannot be imported *)
  import_error : string -> option string;
  (** the error of fitting the arguments to the signature *)
  argument_error : string -> list string -> option string;
  (** the details of the exception the constructor raised, or the
      instance *)
  instantiate : string -> list string -> string + option Transformer
}.

Definition import_failed (name message : string) : string :=
  "Importing '" +:+ name +:+ "' failed: " +:+ message.

Definition import_class_or_module (s : stages) (name : string)
    (args : list string) : import_result :=
  match import_error s name with
  | Some message => ImportDataError (import_failed name message)
  | None =>
      match argument_error s name args with
      | Some message => ImportDataError (import_failed name message)
      | None =>
          match instantiate s name args with
          | inl details =>
              ImportDataError
                (import_failed name
                   ("Creating instance failed: " +:+ details))
          | inr imported => Imported imported
          end
      end
  end.

(** The name is found and the class rejects the arguments, before or
    while it is constructed. *)
Definition found_but_rejected (s : stages) (name : string)
    (args : list string) : Prop :=
  import_error s name = None /\
  ((exists message, argument_error s name args = Some message) \/
   (argument_error s name args = None /\
    exists details, instantiate s name args = inl details)).

End RobotImporter.

(** ** [robotidy/cli.py] *)

Module Cli.

Set Warnings "-register-all".

(** A value of a parsed TOML document. *)
Inductive toml : Type :=
  | TString (s : string)
  | TInteger (z : Z)
  | TBoolean (b : bool)
  | TArray (items : list toml)
  | TTable (entries : list (string * toml)).

(** [type(v).__name__]. *)
Definition type_name (v : toml) : string :=
  match v with
  | TString _ => "str"
  | TInteger _ => "int"
  | TBoolean _ => "bool"
  | TArray _ => "list"
  | TTable _ => "dict"
  end.

Definition no_attribute (v : toml) (attr : string) : exn :=
  AttributeError
    ("'" +:+ type_name v +:+ "' object has no attribute '" +:+ attr +:+ "'").

(** [v.get(key, {})]. *)
Definition get_or_empty (v : toml) (key : string) : outcome toml :=
  match v with
  | TTable entries => Return (default (TTable []) (PyDict.get entries key))
  | _ => Raise (no_attribute v "get")
  end.

(** [v.items()]. *)
Definition items (v : toml) : outcome (list (string * toml)) :=
  match v with
  | TTable entries => Return entries
  | _ => Raise (no_attribute v "items")
  end.

(** [k.replace('--', '').replace('-', '_')]. *)
Definition normalize_key (k : string) : string :=
  PyStr.replace "-" "_" (PyStr.replace "--" "" k).

(** [{k.replace('--', '').replace('-', '_'): v for k, v in config.items()}]. *)
Definition normalize_keys (entries : list (string * toml))
    : PyDict.dict toml :=
  PyDict.comprehension (fun kv => normalize_key (fst kv)) snd entries.

(** Every dash written as an underscore, character by character: the
    normalisation as the specification words it. *)
Fixpoint spec_dashes_to_underscores (k : string) : string :=
  match k with
  | EmptyString => EmptyString
  | String c k' =>
      String (if Ascii.eqb c "-"%char then "_"%char else c)
             (spec_dashes_to_underscores k')
  end.

(** Every [--] dropped, from the left and without overlaps, character by
    character: the first step of the normalisation in the words of the
    amended claim. *)
Fixpoint spec_remove_double_dashes (k : string) : string :=
  match k with
  | EmptyString => EmptyString
  | String c k' =>
      match k' with
      | EmptyString => String c EmptyString
      | String d rest =>
          if Ascii.eqb c "-"%char && Ascii.eqb d "-"%char
          then spec_remove_double_dashes rest
          else String c (spec_remove_double_dashes k')
      end
  end.

Definition invalid_configuration (name : string) : string :=
  "Invalid " +:+ name +:+ " transformer configuration. "
  +:+ "Parameters should be provided in format name=value, delimited by :".

(** The options and arguments [click] hands to [cli]. *)
Record cli_args : Type := {
  transform : list (string * list string);
  configure : list (string * list string);
  src : list string;
  overwrite : bool;
  diff : bool;
  check : bool;
  spacecount : Z;
  lineseparator : string;
  verbose : bool;
  config : option string;
  startline : option Z;
  endline : option Z;
  list_flag : bool;
  desc : option string;
  output : option string;
  list_transformers : bool;
  describe_transformer : option string
}.

(** Truth value of an [Optional[str]]. *)
Definition truthy (s : option string) : bool :=
  match s with
  | None | Some EmptyString => false
  | Some _ => true
  end.

Definition no_source_hint : string :=
  "No source path provided. Run robotidy --help to see how to use robotidy".

Section CommandLine.

Variable import_class_or_module : string -> list string -> import_result.
Variable find_similar : string -> list string -> string.

(** [remove_rst_formatting] of [robotidy.utils], applied to a [__doc__]. *)
Variable remove_rst_formatting : option string -> outcome string.

(** [split_args_from_name_or_path] of [robotidy.utils]. *)
Variable split_args_from_name_or_path :
  string -> outcome (string * list string).

(** [toml.load(path)]. *)
Variable toml_load : string -> outcome toml.

(** [Robotidy(...).transform_files()] of [robotidy.app], given everything
    [cli] passes on. *)
Variable transform_files : cli_args -> M Z.

(** [TransformType.convert]: [name] is still [''] when the [except] clause
    formats its message. *)
Definition convert (value : string) : outcome (string * list string) :=
  let name := EmptyString in
  match split_args_from_name_or_path value with
  | Return (name, args) => Return (name, args)
  | Raise (ValueError _) => Raise (ValueError (invalid_configuration name))
  | Raise e => Raise e
  end.

Definition load_toml_file (path : string) : M toml :=
  match toml_load path with
  | Return config =>
      echo ("Loaded configuration from " +:+ path) ;;;
      ret config
  | Raise (TomlDecodeError e) | Raise (OSError e) =>
      raise (FileError path ("Error reading configuration file: " +:+ e))
  | Raise e => raise e
  end.

Definition read_pyproject_config (path : string) : M (PyDict.dict toml) :=
  echo "Reading pyproject.toml" ;;;
  config <- load_toml_file path ;;
  tool <- lift (get_or_empty config "tool") ;;
  config <- lift (get_or_empty tool "robotidy") ;;
  entries <- lift (items config) ;;
  ret (normalize_keys entries).

Definition read_robotidy_config (path : string) : M (PyDict.dict toml) :=
  config <- load_toml_file path ;;
  entries <- lift (items config) ;;
  ret (normalize_keys entries).

(** The loop of the ['all'] branch of [print_description]. *)
Fixpoint describe_each (entries : list (string * Transformer)) : M unit :=
  match entries with
  | [] => ret tt
  | (tr_name, transformer) :: rest =>
      echo ("Transformer " +:+ tr_name +:+ ":") ;;;
      text <- lift (remove_rst_formatting (doc transformer)) ;;
      echo text ;;;
      describe_each rest
  end.

Definition does_not_exist (name similar : string) : string :=
  "Transformer with the name '" +:+ name +:+ "' does not exist." +:+ similar.

Definition print_description (name : string) : M Z :=
  transformers <-
    load_transformers import_class_or_module find_similar None ∅ true ;;
  let transformer_by_names :=
    PyDict.comprehension class_name (fun transformer => transformer)
                         transformers in
  if String.eqb name "all" then
    describe_each transformer_by_names ;;;
    ret 0%Z
  else
    match PyDict.get transformer_by_names name with
    | Some transformer =>
        echo ("Transformer " +:+ name +:+ ":") ;;;
        text <- lift (remove_rst_formatting (doc transformer)) ;;
        echo text ;;;
        ret 0%Z
    | None =>
        let similar :=
          find_similar name (PyDict.keys transformer_by_names) in
        echo (does_not_exist name similar) ;;;
        ret 1%Z
    end.

(** The loop of [print_transformers_list]. *)
Fixpoint list_each (transformers : list Transformer) : M unit :=
  match transformers with
  | [] => ret tt
  | transformer :: rest =>
      let disabled :=
        if negb (getattr_ENABLED transformer) then " (disabled)" else "" in
      echo (class_name transformer +:+ disabled) ;;;
      list_each rest
  end.

Definition list_header : string :=
  "To see detailed docs run --desc <transformer_name> or --desc all. "
  +:+ "Transformers with (disabled) tag " +:+ String "010"%char
  "are executed only when selected explictly with --transform. "
  +:+ "Available transformers:" +:+ String "010"%char "".

Definition print_transformers_list : M unit :=
  transformers <-
    load_transformers import_class_or_module find_similar None ∅ true ;;
  echo list_header ;;;
  list_each transformers.

(** [if cond: body], where [body] may leave through an exception. *)
Definition when (cond : bool) (body : M unit) : M unit :=
  if cond then body else ret tt.

Definition cli (a : cli_args) : M unit :=
  when (list_transformers a)
    (echo "--list-transformers is deprecated in 1.3.0. Use --list instead" ;;;
     ctx_exit 0) ;;;
  when (truthy (describe_transformer a))
    (echo "--describe-transformer is deprecated in 1.3.0. Use --desc NAME instead" ;;;
     ctx_exit 0) ;;;
  when (list_flag a)
    (print_transformers_list ;;;
     ctx_exit 0) ;;;
  match desc a with
  | Some name =>
      return_code <- print_description name ;;
      ctx_exit return_code
  | None => ret tt
  end ;;;
  when (match src a with [] => true | _ => false end)
    (echo no_source_hint ;;;
     ctx_exit 0) ;;;
  when (truthy (config a) && verbose a)
    (echo ("Loaded " +:+ default "" (config a) +:+ " configuration file")) ;;;
  status <- transform_files a ;;
  ctx_exit status.

End CommandLine.

(** What [describe_each] writes when the documentation of every entry
    renders to the text at the same position. *)
Definition description_lines (entries : list (string * Transformer))
    (texts : list string) : trace :=
  flat_map (fun et : (string * Transformer) * string =>
              [Echo ("Transformer " +:+ fst (fst et) +:+ ":"); Echo (snd et)])
           (combine entries texts).

End Cli.

Import Cli.

(** ** [pathlib] paths as [robotidy/cli.py] uses them *)

Module PyPath.

(** A resolved absolute path: its components below the root. *)
Definition path : Type := list string.

(** [Path("/")]. *)
Definition root : path := [].

(** [p / name]. *)
Definition child (p : path) (name : string) : path := p ++ [name].

(** The root, then every longer prefix of [p], [p] itself last. *)
Fixpoint prefixes (p : path) : list path :=
  match p with
  | [] => [[]]
  | x :: p' => [] :: map (cons x) (prefixes p')
  end.

(** [list(p.parents)]: from the parent of [p] up to the root. *)
Definition parents (p : path) : list path := rev (removelast (prefixes p)).

(** [str(p)]. *)
Definition to_str (p : path) : string := "/" +:+ String.concat "/" p.

(** [q] is [p] or one of its parents. *)
Definition is_prefix (q p : path) : Prop := exists rest, p = q ++ rest.

(** [a.parts < b.parts]: tuples of strings compare item by item, a proper
    prefix being smaller; all paths share the root as first part. *)
Fixpoint parts_ltb (a b : path) : bool :=
  match a, b with
  | _, [] => false
  | [], _ :: _ => true
  | x :: a', y :: b' =>
      if String.ltb x y then true
      else if String.eqb x y then parts_ltb a' b' else false
  end.

(** [max(paths, key=lambda path: path.parts)]: the first item no later
    item exceeds. *)
Definition max_by_parts (paths : list path) : outcome path :=
  match paths with
  | [] => Raise (ValueError "max() arg is an empty sequence")
  | first :: others =>
      Return (fold_left (fun best p => if parts_ltb best p then p else best)
                        others first)
  end.

(** [set.intersection] of at least one set: the items of the first that
    are in all the others. *)
Definition intersection (sets : list (list path)) : list path :=
  match sets with
  | [] => []
  | first :: others =>
      List.filter (fun p => forallb (fun s => bool_decide (p ∈ s)) others)
                  first
  end.

End PyPath.

(** ** [robotidy/cli.py]: finding and reading the configuration *)

Module CliConfig.

(** [str(v)] for a value that is neither a list nor a dict. *)
Definition str (v : toml) : string :=
  match v with
  | TString s => s
  | TInteger z => NilZero.string_of_int (Z.to_int z)
  | TBoolean true => "True"
  | TBoolean false => "False"
  | TArray _ => "[...]"
  | TTable _ => "{...}"
  end.

(** [str(v) if not isinstance(v, (list, dict)) else v]. *)
Definition sanitize (v : toml) : toml :=
  match v with
  | TArray _ | TTable _ => v
  | _ => TString (str v)
  end.

(** [d.update(other)]. *)
Definition update {V} (d other : PyDict.dict V) : PyDict.dict V :=
  fold_left (fun d kv => PyDict.set d (fst kv) (snd kv)) other d.

(** What [read_config] reads and writes of the [click] context:
    [ctx.params.get("src")] and [ctx.default_map]. *)
Record context : Type := {
  params_src : option (list string);
  default_map : option (PyDict.dict toml)
}.

Section Files.

(** [Path(Path.cwd(), src).resolve()]. *)
Variable resolve : string -> PyPath.path.

(** [path.is_dir()], [path.exists()] and [path.is_file()]. *)
Variable is_dir : PyPath.path -> bool.
Variable exists_ : PyPath.path -> bool.
Variable is_file : PyPath.path -> bool.

Variable toml_load : string -> outcome toml.

(** The loop [for directory in (common_base, *common_base.parents)] and the
    [return directory] after it; [directory] is the last directory the
    loop went through. *)
Fixpoint first_marked (directories : list PyPath.path)
    (directory : PyPath.path) : PyPath.path :=
  match directories with
  | [] => directory
  | directory :: rest =>
      if exists_ (PyPath.child directory ".git") then directory
      else if is_file (PyPath.child directory "robotidy.toml") then directory
      else if is_file (PyPath.child directory "pyproject.toml")
           then directory
      else first_marked rest directory
  end.

(** The directory holds [.git], or the file [robotidy.toml], or the file
    [pyproject.toml]: one of the three tests of the loop succeeds. *)
Definition marked (directory : PyPath.path) : Prop :=
  exists_ (PyPath.child directory ".git") = true \/
  is_file (PyPath.child directory "robotidy.toml") = true \/
  is_file (PyPath.child directory "pyproject.toml") = true.

(** [list(path.parents) + ([path] if path.is_dir() else [])]. *)
Definition parents_of_src (path : PyPath.path) : list PyPath.path :=
  PyPath.parents path ++ (if is_dir path then [path] else []).

Definition find_project_root (srcs : list string) : outcome PyPath.path :=
  match srcs with
  | [] => Return PyPath.root
  | _ =>
      let path_srcs := map resolve srcs in
      let src_parents := map parents_of_src path_srcs in
      match PyPath.max_by_parts (PyPath.intersection src_parents) with
      | Return common_base =>
          Return (first_marked (common_base :: PyPath.parents common_base)
                               common_base)
      | Raise e => Raise e
      end
  end.

Definition find_and_read_config (src_paths : list string)
    : M (PyDict.dict toml) :=
  project_root <- lift (find_project_root src_paths) ;;
  let config_path := PyPath.child project_root "robotidy.toml" in
  if is_file config_path
  then read_robotidy_config toml_load (PyPath.to_str config_path)
  else
    let pyproject_path := PyPath.child project_root "pyproject.toml" in
    if is_file pyproject_path
    then read_pyproject_config toml_load (PyPath.to_str pyproject_path)
    else ret [].

(** [read_config(ctx, param, value)]: the callback returns [None] on every
    path; what it does is to [ctx], which is passed in and handed back. *)
Definition read_config (ctx : context) (value : option string) : M context :=
  config <-
    (if truthy value
     then read_robotidy_config toml_load (default "" value)
     else find_and_read_config (default [] (params_src ctx))) ;;
  match config with
  | [] => ret ctx
  | _ :: _ =>
      let config := PyDict.comprehension fst (fun kv => sanitize (snd kv))
                                         config in
      let default_map :=
        match default_map ctx with
        | Some ((_ :: _) as old) => update [] old
        | _ => []
        end in
      let default_map := update default_map config in
      ret {| params_src := params_src ctx; default_map := Some default_map |}
  end.

End Files.

End CliConfig.

(** ** [robotidy/cli.py]: the raw help text *)

Module CliHelp.

(** What a method asks of the [click] help formatter. *)
Inductive formatter_call : Type :=
  | write_paragraph
  | write_text (line : string).

(** The common body of [RawHelp.format_help_text] and
    [RawHelp.format_epilog]. *)
Definition write_raw (text : option string) : list formatter_call :=
  if truthy text
  then write_paragraph
       :: map write_text (PyStr.split "010"%char (default "" text))
  else [].

Definition format_help_text (help : option string) : list formatter_call :=
  write_raw help.

Definition format_epilog (epilog : option string) : list formatter_call :=
  write_raw epilog.

(** The lines handed to [write_text], in order. *)
Definition written_lines (calls : list formatter_call) : list string :=
  flat_map (fun call => match call with
                        | write_text line => [line]
                        | write_paragraph => []
                        end) calls.

End CliHelp.

(** ** Sample collaborators and inputs *)

Module Demo.

Definition transformer_named (name : string) : Transformer :=
  {| class_name := name;
     ENABLED := if String.eqb name "SmartSortKeywords" then Some false
                else None;
     doc := Some ("Documentation of " +:+ name +:+ ".") |}.

(** An importer that knows the modules under [robotidy.transformers] and
    nothing else, and reports a failed instantiation for the argument
    [unknown=1]. *)
Definition importer (name : string) (args : list string) : import_result :=
  if String.prefix "robotidy.transformers." name then
    if existsb (String.eqb "unknown=1") args then
      ImportDataError
        ("Importing '" +:+ name +:+ "' failed: Creating instance failed: "
         +:+ "TypeError: __init__() got an unexpected keyword argument "
         +:+ "'unknown'")
    else
      Imported (Some (transformer_named
                        (PyStr.last_item (PyStr.split "."%char name))))
  else
    ImportDataError
      ("Importing '" +:+ name +:+ "' failed: ModuleNotFoundError: "
       +:+ "No module named '" +:+ name +:+ "'").

Definition find_similar (name : string) (candidates : list string) : string :=
  if existsb (String.prefix name) candidates
  then " Did you mean a transformer starting with " +:+ name +:+ "?"
  else "".

Definition remove_rst_formatting (d : option string) : outcome string :=
  match d with
  | Some text => Return text
  | None => Raise (TypeError "expected string or bytes-like object")
  end.

Definition transform_files (a : cli_args) : M Z :=
  transformers <-
    load_transformers importer find_similar (Some (transform a)) ∅ false ;;
  ret (if check a then 1%Z else 0%Z).

Definition args_with (sources : list string) (description : option string)
    : cli_args :=
  {| transform := []; configure := []; src := sources; overwrite := true;
     diff := false; check := false; spacecount := 4;
     lineseparator := "native"; verbose := false; config := None;
     startline := None; endline := None; list_flag := false;
     desc := description; output := None; list_transformers := false;
     describe_transformer := None |}.

Definition catalog : list Transformer := map transformer_named TRANSFORMERS.

(** A library with the catalog modules and a user's own [custom.Strict].
    [SplitTooLongLine] takes an integer [line_length], so the text [abc]
    does not fit its signature; the constructor of [custom.Strict] raises
    for a negative [level]. *)
Definition stages : RobotImporter.stages :=
  {| RobotImporter.import_error := fun name =>
       if String.prefix "robotidy.transformers." name
          || String.eqb name "custom.Strict"
       then None
       else Some ("ModuleNotFoundError: No module named '" +:+ name +:+ "'");
     RobotImporter.argument_error := fun name args =>
       if String.eqb name "robotidy.transformers.SplitTooLongLine"
          && existsb (String.eqb "line_length=abc") args
       then Some ("Argument 'line_length' got value 'abc' that cannot be "
                  +:+ "converted to integer.")
       else None;
     RobotImporter.instantiate := fun name args =>
       if String.eqb name "custom.Strict"
          && existsb (String.eqb "level=-1") args
       then inl "ValueError: level must not be negative"
       else inr (Some (transformer_named
                         (PyStr.last_item (PyStr.split "."%char name)))) |}.

(** A project [/proj] under version control with a file
    [/proj/tests/a.robot]; nothing else is known to the file system. *)
Definition resolve (src : string) : PyPath.path :=
  if String.eqb src "a.robot" then ["proj"; "tests"; "a.robot"]
  else if String.eqb src "tests" then ["proj"; "tests"]
  else ["tmp"; src].

Definition is_dir (p : PyPath.path) : bool :=
  bool_decide (p ∈ [[]; ["proj"]; ["proj"; "tests"]; ["tmp"]]).

Definition exists_ (p : PyPath.path) : bool :=
  bool_decide (p = ["proj"; ".git"]) || is_dir p
  || bool_decide (p = ["proj"; "tests"; "a.robot"]).

Definition is_file (p : PyPath.path) : bool :=
  bool_decide (p = ["proj"; "tests"; "a.robot"]).

(** Configuration files by path. *)
Definition toml_load (path : string) : outcome toml :=
  if String.eqb path "robotidy.toml" then
    Return (TTable [("line-length", TInteger 120);
                    ("transform", TArray [TString "OrderSettings"]);
                    ("overwrite", TBoolean false)])
  else if String.eqb path "pyproject.toml" then
    Return (TTable [("build-system", TTable [])])
  else if String.eqb path "scalar.toml" then
    Return (TTable [("tool", TTable [("robotidy", TString "strict")])])
  else if String.eqb path "broken.toml" then
    Raise (TomlDecodeError "Invalid statement (line 1 column 1 char 0)")
  else Raise (OSError "No such file or directory").

Definition context : CliConfig.context :=
  {| CliConfig.params_src := Some ["a.robot"; "tests"];
     CliConfig.default_map :=
       Some [("line_length", TString "100"); ("verbose", TString "True")] |}.

(** [robotidy --list a.robot]. *)
Definition list_args : cli_args :=
  {| transform := []; configure := []; src := ["a.robot"]; overwrite := true;
     diff := false; check := false; spacecount := 4;
     lineseparator := "native"; verbose := false; config := None;
     startline := None; endline := None; list_flag := true;
     desc := Some "OrderSettings"; output := None;
     list_transformers := false; describe_transformer := None |}.

(** [robotidy --describe-transformer OrderSettings --list a.robot]. *)
Definition deprecated_args : cli_args :=
  {| transform := []; configure := []; src := ["a.robot"]; overwrite := true;
     diff := false; check := false; spacecount := 4;
     lineseparator := "native"; verbose := false; config := None;
     startline := None; endline := None; list_flag := true;
     desc := None; output := None;
     list_transformers := false;
     describe_transformer := Some "OrderSettings" |}.

(** [robotidy --check --transform OrderSettings a.robot]. *)
Definition check_args : cli_args :=
  {| transform := [("OrderSettings", [])]; configure := [];
     src := ["a.robot"]; overwrite := true;
     diff := false; check := true; spacecount := 4;
     lineseparator := "native"; verbose := false; config := None;
     startline := None; endline := None; list_flag := false;
     desc := None; output := None;
     list_transformers := false; describe_transformer := None |}.

End Demo.

(** * Properties *)

(** ** Strings *)

Lemma split_maxsplit1_no_sep (sep : ascii) (s : string) :
  PyStr.has_char sep s = false -> PyStr.split_maxsplit1 sep s = [s].
Proof.
  induction s as [|c s IH]; simpl; [reflexivity|].
  intros H. apply orb_false_iff in H as [Hc Hs].
  rewrite Hc, (IH Hs). reflexivity.
Qed.

Lemma split_maxsplit1_first (sep : ascii) (p v : string) :
  PyStr.has_char sep p = false ->
  PyStr.split_maxsplit1 sep (p +:+ String sep v) = [p; v].
Proof.
  induction p as [|c p IH]; simpl.
  - intros _. rewrite Ascii.eqb_refl. reflexivity.
  - intros H. apply orb_false_iff in H as [Hc Hp].
    rewrite Hc, (IH Hp). reflexivity.
Qed.

(** A split on the first separator yields the whole string when it has no
    separator, and otherwise the two parts around the first one. *)
Lemma split_maxsplit1_shape (sep : ascii) (s : string) :
  (PyStr.has_char sep s = false /\ PyStr.split_maxsplit1 sep s = [s]) \/
  (exists p v, PyStr.has_char sep s = true /\
               PyStr.has_char sep p = false /\ s = p +:+ String sep v /\
               PyStr.split_maxsplit1 sep s = [p; v]).
Proof.
  induction s as [|c s IH]; simpl.
  - left. split; reflexivity.
  - destruct (Ascii.eqb c sep) eqn:Hc; simpl.
    + right. exists EmptyString, s. apply Ascii.eqb_eq in Hc. subst c.
      repeat split; reflexivity.
    + destruct IH as [[Hs Hsplit]|(p & v & Hs & Hp & Heq & Hsplit)].
      * left. rewrite Hsplit. split; [assumption|reflexivity].
      * right. exists (String c p), v. rewrite Hsplit. simpl. rewrite Hc, Hp.
        subst s. repeat split; try reflexivity. assumption.
Qed.

Lemma prefix_empty (s : string) : String.prefix EmptyString s = true.
Proof. destruct s; reflexivity. Qed.

Lemma prefix_cons (a c : ascii) (p s : string) :
  String.prefix (String a p) (String c s) =
  Ascii.eqb c a && String.prefix p s.
Proof.
  cbn [String.prefix]. destruct (ascii_dec a c) as [->|Hne].
  - rewrite Ascii.eqb_refl. reflexivity.
  - destruct (Ascii.eqb c a) eqn:E; [|reflexivity].
    apply Ascii.eqb_eq in E. congruence.
Qed.

(** [sub in s] holds exactly when [s] is some text, then [sub], then some
    text. *)
Lemma prefix_spec (p s : string) :
  String.prefix p s = true <-> exists b, s = p +:+ b.
Proof.
  revert s. induction p as [|a p IH]; intros s.
  - rewrite prefix_empty. split; [|reflexivity]. intros _. exists s.
    reflexivity.
  - destruct s as [|c s].
    + cbn. split; [discriminate|]. intros [b H]. discriminate.
    + rewrite prefix_cons, andb_true_iff, Ascii.eqb_eq, IH. split.
      * intros [-> [b ->]]. exists b. reflexivity.
      * intros [b H]. cbn in H. injection H as -> ->. eauto.
Qed.

Lemma contains_spec (sub s : string) :
  PyStr.contains sub s = true <-> exists a b, s = a +:+ sub +:+ b.
Proof.
  induction s as [|c s IH].
  - cbn [PyStr.contains]. destruct (String.prefix sub EmptyString) eqn:E.
    + split; [|reflexivity]. intros _. apply prefix_spec in E as [b E].
      exists EmptyString, b. exact E.
    + split; [discriminate|]. intros (a & b & H).
      destruct a; [|discriminate]. cbn in H.
      assert (String.prefix sub EmptyString = true) as E'
        by (apply prefix_spec; eauto).
      congruence.
  - cbn [PyStr.contains]. destruct (String.prefix sub (String c s)) eqn:E.
    + split; [|reflexivity]. intros _. apply prefix_spec in E as [b E].
      exists EmptyString, b. exact E.
    + rewrite IH. split.
      * intros (a & b & ->). exists (String c a), b. reflexivity.
      * intros (a & b & H). destruct a as [|c' a].
        -- cbn in H.
           assert (String.prefix sub (String c s) = true) as E'
             by (apply prefix_spec; eauto).
           congruence.
        -- cbn in H. injection H as _ ->. eauto.
Qed.

Lemma append_assoc (a b c : string) : (a +:+ b) +:+ c = a +:+ b +:+ c.
Proof.
  induction a as [|x a IH]; [reflexivity|].
  change (String x ((a +:+ b) +:+ c) = String x (a +:+ b +:+ c)).
  rewrite IH. reflexivity.
Qed.

Lemma token_param_first (p v : string) :
  PyStr.has_char "="%char p = false -> token_param (p +:+ "=" +:+ v) = p.
Proof.
  intros H. unfold token_param.
  change (p +:+ "=" +:+ v) with (p +:+ String "="%char v).
  rewrite split_maxsplit1_first by assumption. reflexivity.
Qed.

(** ** Dictionaries *)

Lemma dict_get_set_eq {V} (d : PyDict.dict V) (k : string) (v : V) :
  PyDict.get (PyDict.set d k v) k = Some v.
Proof.
  induction d as [|[k' v'] d IH]; simpl.
  - rewrite String.eqb_refl. reflexivity.
  - destruct (String.eqb k' k) eqn:E; simpl; rewrite E; [reflexivity|exact IH].
Qed.

Lemma dict_get_set_ne {V} (d : PyDict.dict V) (k k' : string) (v : V) :
  k <> k' -> PyDict.get (PyDict.set d k v) k' = PyDict.get d k'.
Proof.
  intros Hne. induction d as [|[k0 v0] d IH]; simpl.
  - destruct (String.eqb k k') eqn:E; [|reflexivity].
    apply String.eqb_eq in E. contradiction.
  - destruct (String.eqb k0 k) eqn:E; simpl.
    + apply String.eqb_eq in E. subst k0.
      destruct (String.eqb k k') eqn:E'; [|reflexivity].
      apply String.eqb_eq in E'. contradiction.
    + rewrite IH. reflexivity.
Qed.

Lemma dict_keys_set {V} (d : PyDict.dict V) (k : string) (v : V) :
  PyDict.keys (PyDict.set d k v) =
  match PyDict.get d k with
  | Some _ => PyDict.keys d
  | None => PyDict.keys d ++ [k]
  end.
Proof.
  unfold PyDict.keys.
  induction d as [|[k' v'] d IH]; simpl; [reflexivity|].
  destruct (String.eqb k' k) eqn:E; simpl; [reflexivity|].
  rewrite IH. destruct (PyDict.get d k); reflexivity.
Qed.

Lemma dict_get_None_keys {V} (d : PyDict.dict V) (k : string) :
  PyDict.get d k = None <-> ~ In k (PyDict.keys d).
Proof.
  induction d as [|[k' v'] d IH]; simpl; [tauto|].
  destruct (String.eqb k' k) eqn:E.
  - apply String.eqb_eq in E. split; [discriminate|]. intros H. tauto.
  - apply String.eqb_neq in E. rewrite IH. tauto.
Qed.

(** Assignments never duplicate a key. *)
Lemma dict_set_NoDup {V} (d : PyDict.dict V) (k : string) (v : V) :
  List.NoDup (PyDict.keys d) -> List.NoDup (PyDict.keys (PyDict.set d k v)).
Proof.
  intros Hd. rewrite dict_keys_set.
  destruct (PyDict.get d k) eqn:E; [assumption|].
  apply dict_get_None_keys in E.
  apply NoDup_ListNoDup, NoDup_app. repeat split.
  - apply NoDup_ListNoDup. assumption.
  - intros x Hx Hk. apply list_elem_of_In in Hx.
    apply list_elem_of_In in Hk. simpl in Hk. destruct Hk as [<-|[]].
    contradiction.
  - apply NoDup_ListNoDup. repeat constructor. simpl. tauto.
Qed.

Lemma find_app_last {A} (p : A -> bool) (l : list A) (x : A) :
  find p (l ++ [x]) =
  match find p l with
  | Some y => Some y
  | None => if p x then Some x else None
  end.
Proof.
  induction l as [|y l IH]; cbn; [reflexivity|].
  destruct (p y); [reflexivity|exact IH].
Qed.

(** A lookup in a filled dictionary finds the value of the last item with
    that key, or what the dictionary held before. *)
Lemma fold_set_get {X V} (key : X -> string) (val : X -> V) (xs : list X)
    (d : PyDict.dict V) (k : string) :
  PyDict.get (fold_left (fun d x => PyDict.set d (key x) (val x)) xs d) k =
  match find (fun x => String.eqb (key x) k) (rev xs) with
  | Some x => Some (val x)
  | None => PyDict.get d k
  end.
Proof.
  revert d. induction xs as [|x xs IH]; intros d; [reflexivity|].
  cbn [fold_left rev]. rewrite IH, find_app_last.
  destruct (find _ (rev xs)); [reflexivity|].
  destruct (String.eqb (key x) k) eqn:E.
  - apply String.eqb_eq in E. subst k. apply dict_get_set_eq.
  - apply String.eqb_neq in E. apply dict_get_set_ne. exact E.
Qed.

Lemma comprehension_get_In {X V} (key : X -> string) (val : X -> V)
    (xs : list X) (x : X) :
  In x xs ->
  exists y, In y xs /\ key y = key x /\
            PyDict.get (PyDict.comprehension key val xs) (key x)
            = Some (val y).
Proof.
  intros Hin. unfold PyDict.comprehension. rewrite fold_set_get.
  destruct (find _ (rev xs)) as [y|] eqn:E.
  - apply find_some in E as [Hy Hk]. apply in_rev in Hy.
    apply String.eqb_eq in Hk. eauto.
  - apply in_rev in Hin. pose proof (find_none _ _ E x Hin) as Hn.
    cbn in Hn. rewrite String.eqb_refl in Hn. discriminate.
Qed.

Lemma comprehension_get_None {X V} (key : X -> string) (val : X -> V)
    (xs : list X) (k : string) :
  PyDict.get (PyDict.comprehension key val xs) k = None <->
  ~ In k (map key xs).
Proof.
  unfold PyDict.comprehension. rewrite fold_set_get.
  destruct (find _ (rev xs)) as [y|] eqn:E.
  - apply find_some in E as [Hy Hk]. apply in_rev in Hy.
    apply String.eqb_eq in Hk. split; [discriminate|]. intros H.
    exfalso. apply H. apply in_map_iff. eauto.
  - split; [|reflexivity]. intros _ Hin.
    apply in_map_iff in Hin as (x & Hx & Hin).
    apply in_rev in Hin. pose proof (find_none _ _ E x Hin) as Hn.
    cbn in Hn. apply String.eqb_neq in Hn. contradiction.
Qed.

(** The keys of a comprehension are the keys of its items. *)
Lemma comprehension_keys {X V} (key : X -> string) (val : X -> V)
    (xs : list X) (k : string) :
  In k (PyDict.keys (PyDict.comprehension key val xs)) <-> In k (map key xs).
Proof.
  split; intros H.
  - destruct (in_dec string_dec k (map key xs)) as [Hin|Hn]; [exact Hin|].
    apply (comprehension_get_None key val) in Hn.
    apply dict_get_None_keys in Hn. contradiction.
  - destruct (in_dec string_dec k
                (PyDict.keys (PyDict.comprehension key val xs)))
      as [Hin|Hn]; [exact Hin|].
    apply dict_get_None_keys in Hn.
    apply (comprehension_get_None key val) in Hn. contradiction.
Qed.

Lemma dict_set_fresh {V} (d : PyDict.dict V) (k : string) (v : V) :
  ~ In k (PyDict.keys d) -> PyDict.set d k v = d ++ [(k, v)].
Proof.
  induction d as [|[k' v'] d IH]; cbn; [reflexivity|]. intros H.
  destruct (String.eqb k' k) eqn:E.
  - apply String.eqb_eq in E. tauto.
  - rewrite IH by tauto. reflexivity.
Qed.

Lemma fold_set_NoDup {X V} (key : X -> string) (val : X -> V) (xs : list X)
    (d : PyDict.dict V) :
  List.NoDup (PyDict.keys d) ->
  List.NoDup
    (PyDict.keys (fold_left (fun d x => PyDict.set d (key x) (val x)) xs d)).
Proof.
  revert d. induction xs as [|x xs IH]; intros d Hd; [exact Hd|].
  cbn [fold_left]. apply IH, dict_set_NoDup. exact Hd.
Qed.

(** A comprehension over items with distinct keys holds the items as they
    come. *)
Lemma fold_set_distinct {X V} (key : X -> string) (val : X -> V)
    (xs : list X) (d : PyDict.dict V) :
  List.NoDup (PyDict.keys d ++ map key xs) ->
  fold_left (fun d x => PyDict.set d (key x) (val x)) xs d =
  d ++ map (fun x => (key x, val x)) xs.
Proof.
  revert d. induction xs as [|x xs IH]; intros d Hnd.
  - cbn. rewrite app_nil_r. reflexivity.
  - cbn [fold_left map] in *. rewrite dict_set_fresh.
    + rewrite IH; [rewrite <- app_assoc; reflexivity|].
      unfold PyDict.keys in *. rewrite map_app, <- app_assoc. exact Hnd.
    + apply NoDup_remove_2 in Hnd. intros Hin. apply Hnd.
      apply in_or_app. left. exact Hin.
Qed.

Lemma comprehension_distinct {X V} (key : X -> string) (val : X -> V)
    (xs : list X) :
  List.NoDup (map key xs) ->
  PyDict.comprehension key val xs = map (fun x => (key x, val x)) xs.
Proof. intros H. apply (fold_set_distinct key val xs []). exact H. Qed.

Lemma comprehension_keys_NoDup {X V} (key : X -> string) (val : X -> V)
    (xs : list X) :
  List.NoDup (PyDict.keys (PyDict.comprehension key val xs)).
Proof. apply fold_set_NoDup. constructor. Qed.

(** A key is looked up to the value of the last item that has it. *)
Lemma comprehension_get_last {X V} (key : X -> string) (val : X -> V)
    (before after : list X) (x : X) :
  ~ In (key x) (map key after) ->
  PyDict.get (PyDict.comprehension key val (before ++ x :: after)) (key x)
  = Some (val x).
Proof.
  intros Hafter. unfold PyDict.comprehension.
  rewrite fold_left_app. cbn [fold_left]. rewrite fold_set_get.
  destruct (find _ (rev after)) as [y|] eqn:E.
  - apply find_some in E as [Hy Hk]. apply in_rev in Hy.
    apply String.eqb_eq in Hk. exfalso. apply Hafter.
    apply in_map_iff. eauto.
  - apply dict_get_set_eq.
Qed.

(** ** Parameter merging (lines 61-65) *)

Lemma fill_temp_args_app (xs ys : list string) (d : PyDict.dict string) :
  fill_temp_args (xs ++ ys) d =
  match fill_temp_args xs d with
  | Return d' => fill_temp_args ys d'
  | Raise e => Raise e
  end.
Proof.
  revert d. induction xs as [|x xs IH]; intros d; simpl; [reflexivity|].
  destruct (unpack2 _) as [[param value]|e]; [apply IH|reflexivity].
Qed.

(** A well-formed token assigns its parameter. *)
Lemma fill_temp_args_token (p v : string) (rest : list string)
    (d : PyDict.dict string) :
  PyStr.has_char "="%char p = false ->
  fill_temp_args ((p +:+ "=" +:+ v) :: rest) d =
  fill_temp_args rest (PyDict.set d p v).
Proof.
  intros Hp. simpl.
  change (p +:+ "=" +:+ v) with (p +:+ String "="%char v).
  rewrite split_maxsplit1_first by assumption. reflexivity.
Qed.

(** Tokens for other parameters leave a parameter's value alone. *)
Lemma fill_temp_args_others (p : string) (toks : list string)
    (d d' : PyDict.dict string) :
  List.Forall (fun tok => token_param tok <> p) toks ->
  fill_temp_args toks d = Return d' ->
  PyDict.get d' p = PyDict.get d p.
Proof.
  revert d. induction toks as [|tok toks IH]; intros d Hall Hfill.
  - simpl in Hfill. congruence.
  - apply List.Forall_cons_iff in Hall as [Htok Hall]. simpl in Hfill.
    unfold token_param in Htok.
    destruct (split_maxsplit1_shape "="%char tok)
      as [[_ Hs]|(q & w & _ & _ & _ & Hs)]; rewrite Hs in Hfill, Htok.
    + discriminate.
    + simpl in Hfill, Htok. rewrite (IH _ Hall Hfill).
      apply dict_get_set_ne. assumption.
Qed.

(** Last applied wins: the value of a parameter is the one of the last
    token that names it. *)
Lemma fill_temp_args_last_wins (pre post : list string) (p v : string)
    (d d' : PyDict.dict string) :
  PyStr.has_char "="%char p = false ->
  List.Forall (fun tok => token_param tok <> p) post ->
  fill_temp_args (pre ++ (p +:+ "=" +:+ v) :: post) d = Return d' ->
  PyDict.get d' p = Some v.
Proof.
  intros Hp Hpost Hfill. rewrite fill_temp_args_app in Hfill.
  destruct (fill_temp_args pre d) as [d1|e]; [|discriminate].
  rewrite fill_temp_args_token in Hfill by assumption.
  rewrite (fill_temp_args_others _ _ _ _ Hpost Hfill).
  apply dict_get_set_eq.
Qed.

Lemma fill_temp_args_NoDup (toks : list string) (d d' : PyDict.dict string) :
  List.NoDup (PyDict.keys d) ->
  fill_temp_args toks d = Return d' ->
  List.NoDup (PyDict.keys d').
Proof.
  revert d. induction toks as [|tok toks IH]; intros d Hd Hfill; simpl in Hfill.
  - congruence.
  - destruct (unpack2 _) as [[param value]|e]; [|discriminate].
    eapply IH; [|exact Hfill]. apply dict_set_NoDup. assumption.
Qed.

(** A token without ['='] stops the loop with the interpreter's unpacking
    error, whatever surrounds it. *)
Lemma fill_temp_args_no_equals (toks : list string) (tok : string)
    (d : PyDict.dict string) :
  In tok toks ->
  PyStr.has_char "="%char tok = false ->
  fill_temp_args toks d = Raise (ValueError unpack_got_1).
Proof.
  intros Hin Htok. revert d.
  induction toks as [|x toks IH]; intros d; [destruct Hin|].
  simpl.
  destruct (split_maxsplit1_shape "="%char x)
    as [[_ Hs]|(q & w & Hx & _ & _ & Hs)]; rewrite Hs; simpl.
  - reflexivity.
  - destruct Hin as [->|Hin]; [congruence|]. apply IH. assumption.
Qed.

Lemma join_args_dict (name : string) (args : list string)
    (config : gmap string (list string)) (l : list string) :
  join_args name args config = Return l ->
  exists temp_args,
    fill_temp_args (args ++ config_get config name) [] = Return temp_args /\
    l = map format_arg temp_args.
Proof.
  unfold join_args. destruct (fill_temp_args _ _) as [d|e]; [|discriminate].
  intros [= <-]. exists d. split; reflexivity.
Qed.







(** An inline parameter that no configure token names keeps its value. *)
Lemma inline_kept_when_not_configured
    (name : string) (args : list string) (config : gmap string (list string))
    (apre apost : list string) (param inline : string)
    (temp_args : PyDict.dict string) :
  PyStr.has_char "="%char param = false ->
  args = apre ++ (param +:+ "=" +:+ inline) :: apost ->
  List.Forall (fun tok => token_param tok <> param)
              (apost ++ config_get config name) ->
  fill_temp_args (args ++ config_get config name) [] = Return temp_args ->
  PyDict.get temp_args param = Some inline.
Proof.
  intros Hp -> Hpost Hfill. rewrite <- app_assoc in Hfill. simpl in Hfill.
  eapply fill_temp_args_last_wins; eassumption.
Qed.

(** ** Importing one transformer (lines 41-51) *)

Section Importing.

Variable import_class_or_module : string -> list string -> import_result.
Variable find_similar : string -> list string -> string.

Abbreviation import_transformer :=
  (import_transformer import_class_or_module find_similar).

Lemma import_transformer_run (name : string) (args : list string)
    (t : trace) :
  import_transformer name args t =
  (match import_class_or_module name args with
   | Imported imported => Return imported
   | ImportDataError err =>
       if PyStr.contains instance_failed_marker err
       then Raise (DataError err)
       else Raise (ImportTransformerError
                     (import_failed_message
                        (PyStr.last_item (PyStr.split "."%char name))
                        (find_similar
                           (PyStr.last_item (PyStr.split "."%char name))
                           TRANSFORMERS)))
   end, t ++ [ImportCall name args]).
Proof.
  unfold Transformers.import_transformer, bind, emit, ret, raise.
  destruct (import_class_or_module name args) as [c|err]; [reflexivity|].
  destruct (PyStr.contains _ _); reflexivity.
Qed.

(** [import_transformer] looks at the message only. It raises
    [DataError err] exactly when the importer raised that very [DataError]
    and its message has the marker of a failed instantiation. It raises an
    [ImportTransformerError] exactly when the importer raised a [DataError]
    without the marker, and the message is then the one of a failed import
    with the recommendation appended. *)
Lemma import_transformer_raises_by_marker
    (name : string) (args : list string) (t : trace) :
  (forall err,
     fst (import_transformer name args t) = Raise (DataError err) <->
     import_class_or_module name args = ImportDataError err /\
     PyStr.contains instance_failed_marker err = true) /\
  (forall msg,
     fst (import_transformer name args t) = Raise (ImportTransformerError msg)
     <->
     exists err,
       import_class_or_module name args = ImportDataError err /\
       PyStr.contains instance_failed_marker err = false /\
       msg = import_failed_message
               (PyStr.last_item (PyStr.split "."%char name))
               (find_similar (PyStr.last_item (PyStr.split "."%char name))
                             TRANSFORMERS)).
Proof.
  rewrite import_transformer_run. cbn [fst].
  destruct (import_class_or_module name args) as [c|err0].
  - split; intros x; split.
    + discriminate.
    + intros [H _]. discriminate.
    + discriminate.
    + intros (err & H & _). discriminate.
  - destruct (PyStr.contains instance_failed_marker err0) eqn:Hm.
    + split; intros x; split.
      * intros [= <-]. split; [reflexivity|assumption].
      * intros [[= <-] _]. reflexivity.
      * discriminate.
      * intros (err & [= <-] & H & _). congruence.
    + split; intros x; split.
      * discriminate.
      * intros [[= <-] H]. congruence.
      * intros [= <-]. exists err0. repeat split; [assumption].
      * intros (err & [= <-] & _ & ->). reflexivity.
Qed.

End Importing.

(** A failed instantiation comes back as the importer's own [DataError];
    an unknown name comes back as an import error with the short name and
    the recommendation. *)
Example import_transformer_failed_instantiation :
  outcome_of (import_transformer Demo.importer Demo.find_similar
                "robotidy.transformers.SplitTooLongLine" ["unknown=1"])
  = Raise (DataError
             ("Importing 'robotidy.transformers.SplitTooLongLine' failed: "
              +:+ "Creating instance failed: TypeError: __init__() got an "
              +:+ "unexpected keyword argument 'unknown'")).
Proof. reflexivity. Qed.

Example import_transformer_unknown_name :
  outcome_of (import_transformer Demo.importer Demo.find_similar
                "my.package.Order" [])
  = Raise (ImportTransformerError
             ("Importing transformer 'Order' failed. Verify if correct name "
              +:+ "or configuration was provided. Did you mean a "
              +:+ "transformer starting with Order?")).
Proof. reflexivity. Qed.

(** *** The importer stage by stage *)

Lemma import_failed_creating_instance (name details : string) :
  PyStr.contains instance_failed_marker
    (RobotImporter.import_failed name
       ("Creating instance failed: " +:+ details)) = true.
Proof.
  apply contains_spec.
  exists ("Importing '" +:+ name +:+ "' failed: "), (": " +:+ details).
  unfold RobotImporter.import_failed, instance_failed_marker.
  rewrite !append_assoc. reflexivity.
Qed.

Section ImportingByStage.

Variable library : RobotImporter.stages.
Variable find_similar : string -> list string -> string.

Abbreviation importer := (RobotImporter.import_class_or_module library).
Abbreviation import_transformer := (import_transformer importer find_similar).
Abbreviation short_name_of name :=
  (PyStr.last_item (PyStr.split "."%char name)).
Abbreviation import_error_of name :=
  (ImportTransformerError
     (import_failed_message (short_name_of name)
        (find_similar (short_name_of name) TRANSFORMERS))).

(** C3, amended: [import_transformer] tells the failures of the importer
    apart by the text of the message alone, so only one of the two ways in
    which a found class rejects its arguments is kept apart from a failed
    import. When the constructor is called and raises, the [DataError] of
    the importer is raised again with its message unchanged. When the
    arguments do not fit the signature of the class, which the importer
    settles before it calls the constructor, the [DataError] has no
    [Creating instance failed] and becomes the [ImportTransformerError] of
    a failed import: the same exception, with the same message for the same
    short name, as for a name that cannot be imported. In general the
    [DataError] is passed on exactly when [Creating instance failed] occurs
    somewhere in its message, and is an [ImportTransformerError]
    otherwise. *)
Theorem import_transformer_failures_by_stage
    (name : string) (args : list string) (t : trace) :
  (forall details,
     RobotImporter.import_error library name = None ->
     RobotImporter.argument_error library name args = None ->
     RobotImporter.instantiate library name args = inl details ->
     fst (import_transformer name args t) =
     Raise (DataError
              (RobotImporter.import_failed name
                 ("Creating instance failed: " +:+ details)))) /\
  (forall message,
     RobotImporter.import_error library name = None ->
     RobotImporter.argument_error library name args = Some message ->
     PyStr.contains instance_failed_marker
       (RobotImporter.import_failed name message) = false ->
     fst (import_transformer name args t) = Raise (import_error_of name)) /\
  (forall message,
     RobotImporter.import_error library name = Some message ->
     PyStr.contains instance_failed_marker
       (RobotImporter.import_failed name message) = false ->
     fst (import_transformer name args t) = Raise (import_error_of name)) /\
  (forall err,
     importer name args = ImportDataError err ->
     (fst (import_transformer name args t) = Raise (DataError err) <->
      exists before after,
        err = before +:+ "Creating instance failed" +:+ after) /\
     (fst (import_transformer name args t) = Raise (import_error_of name) <->
      ~ exists before after,
          err = before +:+ "Creating instance failed" +:+ after)) /\
  (forall imported,
     importer name args = Imported imported ->
     fst (import_transformer name args t) = Return imported).
Proof.
  rewrite import_transformer_run. cbn [fst].
  unfold RobotImporter.import_class_or_module.
  repeat apply conj.
  - intros details -> -> ->.
    rewrite import_failed_creating_instance. reflexivity.
  - intros message -> -> ->. reflexivity.
  - intros message -> ->. reflexivity.
  - intros err ->.
    change "Creating instance failed" with instance_failed_marker.
    rewrite <- contains_spec.
    destruct (PyStr.contains instance_failed_marker err); split; split;
      try reflexivity; try discriminate; try congruence.
  - intros imported ->. reflexivity.
Qed.

End ImportingByStage.

(** C3, as stated, fails for arguments that are rejected before the class
    is constructed: [SplitTooLongLine] is found, [line_length=abc] does not
    fit its signature, and what [import_transformer] and [load_transformers]
    raise is the [ImportTransformerError] of a failed import, in which
    nothing of the importer's message is left. *)
Lemma rejected_argument_raises_import_error :
  RobotImporter.found_but_rejected Demo.stages
    "robotidy.transformers.SplitTooLongLine" ["line_length=abc"] /\
  RobotImporter.import_class_or_module Demo.stages
    "robotidy.transformers.SplitTooLongLine" ["line_length=abc"]
  = ImportDataError
      ("Importing 'robotidy.transformers.SplitTooLongLine' failed: "
       +:+ "Argument 'line_length' got value 'abc' that cannot be "
       +:+ "converted to integer.") /\
  outcome_of
    (import_transformer (RobotImporter.import_class_or_module Demo.stages)
       Demo.find_similar
       "robotidy.transformers.SplitTooLongLine" ["line_length=abc"])
  = Raise (ImportTransformerError
             ("Importing transformer 'SplitTooLongLine' failed. Verify if "
              +:+ "correct name or configuration was provided. Did you mean "
              +:+ "a transformer starting with SplitTooLongLine?")) /\
  outcome_of
    (load_transformers (RobotImporter.import_class_or_module Demo.stages)
       Demo.find_similar
       (Some [("SplitTooLongLine", ["line_length=abc"])]) ∅ false)
  = Raise (ImportTransformerError
             ("Importing transformer 'SplitTooLongLine' failed. Verify if "
              +:+ "correct name or configuration was provided. Did you mean "
              +:+ "a transformer starting with SplitTooLongLine?")).
Proof.
  repeat apply conj.
  - reflexivity.
  - left. eexists. reflexivity.
  - reflexivity.
  - reflexivity.
  - vm_compute. reflexivity.
Qed.

Lemma import_transformer_failures_by_stage_witness :
  fst (import_transformer (RobotImporter.import_class_or_module Demo.stages)
         Demo.find_similar "custom.Strict" ["level=-1"] [])
  = Raise (DataError
             (RobotImporter.import_failed "custom.Strict"
                ("Creating instance failed: "
                 +:+ "ValueError: level must not be negative"))) /\
  fst (import_transformer (RobotImporter.import_class_or_module Demo.stages)
         Demo.find_similar
         "robotidy.transformers.SplitTooLongLine" ["line_length=abc"] [])
  = Raise (ImportTransformerError
             (import_failed_message "SplitTooLongLine"
                (Demo.find_similar "SplitTooLongLine" TRANSFORMERS))) /\
  fst (import_transformer (RobotImporter.import_class_or_module Demo.stages)
         Demo.find_similar "my.package.SplitTooLongLine" [] [])
  = Raise (ImportTransformerError
             (import_failed_message "SplitTooLongLine"
                (Demo.find_similar "SplitTooLongLine" TRANSFORMERS))).
Proof.
  repeat apply conj.
  - apply (proj1 (import_transformer_failures_by_stage
                    Demo.stages Demo.find_similar
                    "custom.Strict" ["level=-1"] []));
      reflexivity.
  - apply (proj1 (proj2 (import_transformer_failures_by_stage
                    Demo.stages Demo.find_similar
                    "robotidy.transformers.SplitTooLongLine"
                    ["line_length=abc"] [])))
      with (message := ("Argument 'line_length' got value 'abc' that cannot "
                        +:+ "be converted to integer."));
      reflexivity.
  - apply (proj1 (proj2 (proj2 (import_transformer_failures_by_stage
                    Demo.stages Demo.find_similar
                    "my.package.SplitTooLongLine" [] []))))
      with (message := "ModuleNotFoundError: No module named 'my.package.SplitTooLongLine'");
      reflexivity.
Defined.

(** ** Loading a batch (lines 54-78) *)

Lemma imports_of_app (t1 t2 : trace) :
  imports_of (t1 ++ t2) = imports_of t1 ++ imports_of t2.
Proof. unfold imports_of. apply flat_map_app. Qed.

Section Loading.

Variable import_class_or_module : string -> list string -> import_result.
Variable find_similar : string -> list string -> string.

Abbreviation import_transformer :=
  (import_transformer import_class_or_module find_similar).
Abbreviation import_selected :=
  (import_selected import_class_or_module find_similar).
Abbreviation import_default :=
  (import_default import_class_or_module find_similar).
Abbreviation load_selected :=
  (load_selected import_class_or_module find_similar).
Abbreviation load_default :=
  (load_default import_class_or_module find_similar).
Abbreviation load_transformers :=
  (load_transformers import_class_or_module find_similar).
Abbreviation attempts := (attempts import_class_or_module find_similar).

Lemma import_transformer_steady (name : string) (args : list string) :
  steady (import_transformer name args).
Proof.
  intros t. unfold outcome_of. rewrite !import_transformer_run. reflexivity.
Qed.

Lemma import_selected_steady (config : gmap string (list string))
    (item : string * list string) :
  steady (import_selected config item).
Proof.
  intros t. unfold outcome_of, Transformers.import_selected, bind, lift.
  destruct (join_args _ _ _) as [args|e]; [|reflexivity].
  apply import_transformer_steady.
Qed.

Lemma import_default_steady (config : gmap string (list string))
    (name : string) :
  steady (import_default config name).
Proof. apply import_transformer_steady. Qed.

Lemma attempts_steady
    (allowed : option (list (string * list string)))
    (config : gmap string (list string)) :
  List.Forall steady (attempts allowed config).
Proof.
  unfold Transformers.attempts.
  destruct allowed as [[|item rest]|]; apply List.Forall_forall;
    intros m Hm; apply in_map_iff in Hm as (x & <- & _);
    auto using import_selected_steady, import_default_steady.
Qed.

Lemma run_attempts_cons (keep : Transformer -> bool)
    (m : M (option Transformer)) (rest : list (M (option Transformer)))
    (acc : list Transformer) (t : trace) :
  run_attempts keep (m :: rest) acc t =
  match m t with
  | (Return None, t') => (Return [], t')
  | (Return (Some c), t') =>
      if keep c then run_attempts keep rest (acc ++ [c]) t'
      else run_attempts keep rest acc t'
  | (Raise e, t') => (Raise e, t')
  end.
Proof.
  cbn [run_attempts]. unfold bind.
  destruct (m t) as [[[c|]|e] t']; try reflexivity.
  destruct (keep c); reflexivity.
Qed.

Lemma load_selected_run (config : gmap string (list string))
    (allowed : list (string * list string)) (acc : list Transformer)
    (t : trace) :
  load_selected config allowed acc t =
  run_attempts (fun _ => true) (map (import_selected config) allowed) acc t.
Proof.
  revert acc t. induction allowed as [|item rest IH]; intros acc t.
  - reflexivity.
  - cbn [map]. rewrite run_attempts_cons. cbn [Transformers.load_selected].
    unfold bind at 1.
    destruct (import_selected config item t) as [[[c|]|e] t'];
      try reflexivity.
    apply IH.
Qed.

Lemma load_default_run (config : gmap string (list string))
    (allow_disabled : bool) (names : list string) (acc : list Transformer)
    (t : trace) :
  load_default config allow_disabled names acc t =
  run_attempts (fun c => allow_disabled || getattr_ENABLED c)
               (map (import_default config) names) acc t.
Proof.
  revert acc t. induction names as [|name rest IH]; intros acc t.
  - reflexivity.
  - cbn [map]. rewrite run_attempts_cons. cbn [Transformers.load_default].
    unfold bind at 1.
    destruct (import_default config name t) as [[[c|]|e] t'];
      try reflexivity.
    destruct (allow_disabled || getattr_ENABLED c); apply IH.
Qed.

Lemma load_transformers_run
    (allowed : option (list (string * list string)))
    (config : gmap string (list string)) (allow_disabled : bool)
    (t : trace) :
  load_transformers allowed config allow_disabled t =
  run_attempts (appended allowed allow_disabled) (attempts allowed config)
               [] t.
Proof.
  destruct allowed as [[|item rest]|];
    first [apply load_default_run | apply load_selected_run].
Qed.

(** When every attempt resolves, the loop returns what was kept, in the
    order of the attempts. *)
Lemma run_attempts_all_resolved (keep : Transformer -> bool)
    (ms : list (M (option Transformer))) (cs : list Transformer) :
  List.Forall steady ms ->
  List.Forall2 resolves ms cs ->
  forall acc t,
    fst (run_attempts keep ms acc t) = Return (acc ++ List.filter keep cs).
Proof.
  intros Hsteady Hall.
  induction Hall as [|m c ms cs Hm Hall IH]; intros acc t.
  - cbn. rewrite app_nil_r. reflexivity.
  - apply List.Forall_cons_iff in Hsteady as [Hs Hsteady].
    rewrite run_attempts_cons. specialize (Hs t). rewrite Hm in Hs.
    destruct (m t) as [o t']. cbn [fst] in Hs. subst o. cbn [List.filter].
    destruct (keep c).
    + rewrite (IH Hsteady). rewrite <- app_assoc. reflexivity.
    + apply (IH Hsteady).
Qed.

(** A returned list is empty, or every attempt resolved and the list is
    what was kept, in the order of the attempts. *)
Lemma run_attempts_returned (keep : Transformer -> bool)
    (ms : list (M (option Transformer))) :
  List.Forall steady ms ->
  forall acc t l,
    fst (run_attempts keep ms acc t) = Return l ->
    l = [] \/
    exists cs, List.Forall2 resolves ms cs /\ l = acc ++ List.filter keep cs.
Proof.
  induction ms as [|m ms IH]; intros Hsteady acc t l Hrun.
  - right. exists []. cbn in Hrun. injection Hrun as <-.
    split; [constructor|]. cbn. rewrite app_nil_r. reflexivity.
  - apply List.Forall_cons_iff in Hsteady as [Hs Hsteady].
    rewrite run_attempts_cons in Hrun. specialize (Hs t).
    destruct (m t) as [[[c|]|e] t']; cbn [fst] in Hs.
    + assert (Hnext : exists acc',
                 fst (run_attempts keep ms acc' t') = Return l /\
                 acc' = acc ++ List.filter keep [c]).
      { cbn [List.filter]. destruct (keep c).
        - exists (acc ++ [c]). split; [assumption|reflexivity].
        - exists acc. split; [assumption|]. rewrite app_nil_r. reflexivity. }
      destruct Hnext as (acc' & Hrun' & ->).
      destruct (IH Hsteady _ _ _ Hrun') as [->|(cs & Hall & ->)];
        [left; reflexivity|].
      right. exists (c :: cs). split.
      * constructor; [symmetry; exact Hs|assumption].
      * rewrite <- app_assoc. cbn [List.filter].
        destruct (keep c); reflexivity.
    + left. cbn in Hrun. congruence.
    + cbn in Hrun. discriminate.
Qed.

(** The first attempt that does not resolve decides the outcome. *)
Lemma run_attempts_first_failure (keep : Transformer -> bool)
    (pre post : list (M (option Transformer))) (m : M (option Transformer)) :
  List.Forall steady (pre ++ m :: post) ->
  List.Forall (fun m' => exists c, resolves m' c) pre ->
  forall acc t,
    (forall e, outcome_of m = Raise e ->
               fst (run_attempts keep (pre ++ m :: post) acc t) = Raise e) /\
    (outcome_of m = Return None ->
     fst (run_attempts keep (pre ++ m :: post) acc t) = Return []).
Proof.
  induction pre as [|m' pre IH]; intros Hsteady Hpre acc t.
  - cbn [app] in *. apply List.Forall_cons_iff in Hsteady as [Hs _].
    rewrite run_attempts_cons. specialize (Hs t).
    destruct (m t) as [o t']. cbn [fst] in Hs. subst o.
    split; [intros e He|intros He]; rewrite He; reflexivity.
  - cbn [app] in *. apply List.Forall_cons_iff in Hsteady as [Hs Hsteady].
    apply List.Forall_cons_iff in Hpre as [[c Hc] Hpre].
    rewrite run_attempts_cons. specialize (Hs t). rewrite Hc in Hs.
    destruct (m' t) as [o t']. cbn [fst] in Hs. subst o.
    destruct (keep c); apply (IH Hsteady Hpre).
Qed.

Lemma Forall2_map_left {A B C} (P : B -> C -> Prop) (f : A -> B)
    (xs : list A) (cs : list C) :
  List.Forall2 P (map f xs) cs <-> List.Forall2 (fun x c => P (f x) c) xs cs.
Proof.
  revert cs. induction xs as [|x xs IH]; intros cs; cbn [map]; split;
    intros H; inversion H; subst; constructor; try assumption;
    apply IH; assumption.
Qed.

Lemma filter_all {A} (l : list A) : List.filter (fun _ => true) l = l.
Proof. induction l as [|x l IH]; cbn; [|rewrite IH]; reflexivity. Qed.

Lemma getattr_ENABLED_false (c : Transformer) :
  getattr_ENABLED c = false <-> ENABLED c = Some false.
Proof.
  unfold getattr_ENABLED. destruct (ENABLED c) as [[|]|]; split; congruence.
Qed.

Lemma In_filter_enabled (allow_disabled : bool) (cs : list Transformer)
    (c : Transformer) :
  In c (List.filter (fun c => allow_disabled || getattr_ENABLED c) cs) <->
  In c cs /\ (allow_disabled = true \/ ENABLED c <> Some false).
Proof.
  rewrite filter_In. cbn beta. rewrite orb_true_iff.
  rewrite <- getattr_ENABLED_false.
  destruct (getattr_ENABLED c); intuition congruence.
Qed.

(** C4, amended: batch loading is fail-fast by exception. When the attempts
    before some transformer all resolve and resolving that transformer
    raises, [load_transformers] raises that very exception: the load stops
    there and no list, empty or partial, is returned. *)
Theorem load_transformers_fail_fast
    (allowed : option (list (string * list string)))
    (config : gmap string (list string)) (allow_disabled : bool)
    (pre post : list (M (option Transformer))) (m : M (option Transformer))
    (e : exn) (t : trace) :
  attempts allowed config = pre ++ m :: post ->
  List.Forall (fun m' => exists c, resolves m' c) pre ->
  outcome_of m = Raise e ->
  fst (load_transformers allowed config allow_disabled t) = Raise e /\
  forall l, fst (load_transformers allowed config allow_disabled t)
            <> Return l.
Proof.
  intros Hsplit Hpre He.
  assert (H : fst (load_transformers allowed config allow_disabled t)
              = Raise e).
  { rewrite load_transformers_run, Hsplit.
    eapply run_attempts_first_failure; try eassumption.
    rewrite <- Hsplit. apply attempts_steady. }
  split; [exact H|]. intros l. rewrite H. discriminate.
Qed.

(** The empty list is the answer to an import that yields [None]. *)
Lemma load_transformers_import_None
    (allowed : option (list (string * list string)))
    (config : gmap string (list string)) (allow_disabled : bool)
    (pre post : list (M (option Transformer))) (m : M (option Transformer))
    (t : trace) :
  attempts allowed config = pre ++ m :: post ->
  List.Forall (fun m' => exists c, resolves m' c) pre ->
  outcome_of m = Return None ->
  fst (load_transformers allowed config allow_disabled t) = Return [].
Proof.
  intros Hsplit Hpre He. rewrite load_transformers_run, Hsplit.
  eapply run_attempts_first_failure; try eassumption.
  rewrite <- Hsplit. apply attempts_steady.
Qed.

(** Without a selection the importer is called once for each catalog
    name, in the declared order. *)
Lemma load_default_imports (config : gmap string (list string))
    (allow_disabled : bool) (names : list string) (cs : list Transformer) :
  List.Forall2 (fun name c => resolves (import_default config name) c)
               names cs ->
  forall acc t,
    imports_of (snd (load_default config allow_disabled names acc t)) =
    imports_of t
    ++ map (fun name => ("robotidy.transformers." +:+ name,
                         config_get config name)) names.
Proof.
  intros Hall. induction Hall as [|name c names cs Hc _ IH]; intros acc t.
  - cbn. rewrite app_nil_r. reflexivity.
  - assert (Hstep : import_default config name t =
                    (Return (Some c),
                     t ++ [ImportCall ("robotidy.transformers." +:+ name)
                                      (config_get config name)])).
    { unfold resolves, outcome_of, Transformers.import_default in Hc.
      rewrite import_transformer_run in Hc. cbn [fst] in Hc.
      unfold Transformers.import_default. rewrite import_transformer_run.
      rewrite Hc. reflexivity. }
    cbn [Transformers.load_default]. unfold bind. rewrite Hstep.
    destruct (allow_disabled || getattr_ENABLED c); rewrite IH;
      rewrite imports_of_app; cbn [imports_of flat_map map app];
      rewrite <- app_assoc; reflexivity.
Qed.

(** C5: when every attempt resolves, a call without a selection goes
    through the whole catalog in its declared order (the importer is called
    for each name of [TRANSFORMERS] in turn) and returns the transformers
    that are enabled ([ENABLED] absent or true) or, with [allow_disabled],
    all of them; a call with a selection returns every selected
    transformer, whatever its [ENABLED] attribute says. *)
Theorem load_transformers_skips_disabled
    (allowed : option (list (string * list string)))
    (config : gmap string (list string)) (allow_disabled : bool)
    (cs : list Transformer) (t : trace) :
  List.Forall2 resolves (attempts allowed config) cs ->
  exists l,
    fst (load_transformers allowed config allow_disabled t) = Return l /\
    l = match allowed with
        | Some (_ :: _) => cs
        | _ => List.filter (fun c => allow_disabled || getattr_ENABLED c) cs
        end /\
    (forall c,
       In c l <->
       In c cs /\
       ((exists item rest, allowed = Some (item :: rest)) \/
        allow_disabled = true \/ ENABLED c <> Some false)) /\
    (allowed = None \/ allowed = Some [] ->
     imports_of (snd (load_transformers allowed config allow_disabled t)) =
     imports_of t
     ++ map (fun name => ("robotidy.transformers." +:+ name,
                          config_get config name)) TRANSFORMERS).
Proof.
  intros Hall.
  pose proof (run_attempts_all_resolved
                (appended allowed allow_disabled) _ _
                (attempts_steady allowed config) Hall [] t) as Hrun.
  rewrite <- load_transformers_run in Hrun. cbn [app] in Hrun.
  eexists. split; [exact Hrun|].
  assert (Hdefault :
            allowed = None \/ allowed = Some [] ->
            imports_of
              (snd (load_transformers allowed config allow_disabled t)) =
            imports_of t
            ++ map (fun name => ("robotidy.transformers." +:+ name,
                                 config_get config name)) TRANSFORMERS).
  { intros [->| ->]; apply load_default_imports with (cs := cs);
      exact (proj1 (Forall2_map_left resolves (import_default config)
                      TRANSFORMERS cs) Hall). }
  destruct allowed as [[|item rest]|].
  - change (appended (Some []) allow_disabled)
      with (fun c => allow_disabled || getattr_ENABLED c).
    split; [reflexivity|]. split; [|exact Hdefault].
    intros c. rewrite In_filter_enabled.
    split; [tauto|]. intros [Hc [(i & r & [=])|H]]. tauto.
  - change (appended (Some (item :: rest)) allow_disabled)
      with (fun _ : Transformer => true).
    rewrite filter_all. split; [reflexivity|]. split; [|exact Hdefault].
    intros c. split; [|tauto]. intros Hc. split; [assumption|]. left. eauto.
  - change (appended None allow_disabled)
      with (fun c => allow_disabled || getattr_ENABLED c).
    split; [reflexivity|]. split; [|exact Hdefault].
    intros c. rewrite In_filter_enabled.
    split; [tauto|]. intros [Hc [(i & r & [=])|H]]. tauto.
Qed.

(** The outcome of the loop does not depend on what happened before. *)
Lemma run_attempts_steady (keep : Transformer -> bool)
    (ms : list (M (option Transformer))) :
  List.Forall steady ms ->
  forall acc t t',
    fst (run_attempts keep ms acc t) = fst (run_attempts keep ms acc t').
Proof.
  induction ms as [|m ms IH]; intros Hsteady acc t t'; [reflexivity|].
  apply List.Forall_cons_iff in Hsteady as [Hs Hsteady].
  rewrite !run_attempts_cons.
  pose proof (Hs t) as Ht. pose proof (Hs t') as Ht'.
  destruct (m t) as [o t1]. destruct (m t') as [o' t1'].
  cbn [fst] in Ht, Ht'. subst o o'.
  destruct (outcome_of m) as [[c|]|e]; try reflexivity.
  destruct (keep c); apply (IH Hsteady).
Qed.

Lemma filter_lookup {A} (keep : A -> bool) (cs : list A) (j : nat) (c : A) :
  List.filter keep cs !! j = Some c ->
  exists j', cs !! j' = Some c /\ keep c = true.
Proof.
  revert j. induction cs as [|x cs IH]; intros j H; [destruct j; discriminate|].
  cbn [List.filter] in H. destruct (keep x) eqn:E.
  - destruct j as [|j].
    + injection H as <-. exists 0. split; [reflexivity|assumption].
    + destruct (IH j H) as (j' & Hj' & Hk). exists (S j'). split; assumption.
  - destruct (IH j H) as (j' & Hj' & Hk). exists (S j'). split; assumption.
Qed.

(** Filtering keeps the order: two items of the filtered list stand in the
    list as they stand in the filtered one. *)
Lemma filter_lookup_order {A} (keep : A -> bool) (cs : list A)
    (i j : nat) (ci cj : A) :
  i < j ->
  List.filter keep cs !! i = Some ci ->
  List.filter keep cs !! j = Some cj ->
  exists i' j', i' < j' /\ cs !! i' = Some ci /\ cs !! j' = Some cj.
Proof.
  revert i j. induction cs as [|x cs IH]; intros i j Hlt Hi Hj;
    [destruct i; discriminate|].
  cbn [List.filter] in Hi, Hj. destruct (keep x).
  - destruct j as [|j]; [lia|]. destruct i as [|i].
    + injection Hi as <-. cbn in Hj.
      destruct (filter_lookup _ _ _ _ Hj) as (j' & Hj' & _).
      exists 0, (S j'). repeat split; [lia|exact Hj'].
    + assert (i < j) as Hlt' by lia.
      destruct (IH i j Hlt' Hi Hj) as (i' & j' & Hl & Hi' & Hj').
      exists (S i'), (S j'). repeat split; [lia|exact Hi'|exact Hj'].
  - destruct (IH i j Hlt Hi Hj) as (i' & j' & Hl & Hi' & Hj').
    exists (S i'), (S j'). repeat split; [lia|exact Hi'|exact Hj'].
Qed.

(** A non-empty returned list is, position by position, what the selected
    items resolve to, or what the catalog names resolve to with the entries
    that are not enabled left out. *)
Lemma load_transformers_returned_order
    (allowed : option (list (string * list string)))
    (config : gmap string (list string)) (allow_disabled : bool)
    (l : list Transformer) (t : trace) :
  fst (load_transformers allowed config allow_disabled t) = Return l ->
  l <> [] ->
  match allowed with
  | Some ((_ :: _) as selection) =>
      List.Forall2 (fun item c => resolves (import_selected config item) c)
                   selection l
  | _ =>
      exists cs,
        List.Forall2 (fun name c => resolves (import_default config name) c)
                     TRANSFORMERS cs /\
        l = List.filter (fun c => allow_disabled || getattr_ENABLED c) cs
  end.
Proof.
  intros Hrun Hne. rewrite load_transformers_run in Hrun.
  destruct (run_attempts_returned _ _ (attempts_steady allowed config)
              _ _ _ Hrun) as [->|(cs & Hall & Hl)]; [contradiction|].
  cbn [app] in Hl.
  destruct allowed as [[|item rest]|].
  - exists cs. split; [|exact Hl].
    exact (proj1 (Forall2_map_left resolves (import_default config)
                    TRANSFORMERS cs) Hall).
  - change (appended (Some (item :: rest)) allow_disabled)
      with (fun _ : Transformer => true) in Hl.
    rewrite filter_all in Hl. subst l.
    exact (proj1 (Forall2_map_left resolves (import_selected config)
                    (item :: rest) cs) Hall).
  - exists cs. split; [|exact Hl].
    exact (proj1 (Forall2_map_left resolves (import_default config)
                    TRANSFORMERS cs) Hall).
Qed.

(** C7: the loaded list follows one order only, and the same call loads the
    same list whatever happened before it. With a selection whose items all
    resolve, the list is returned and holds, at each position, what the
    item at that position of the selection resolves to: as many
    transformers as items, in the order the user gave them. Without a
    selection, when the catalog names all resolve, the list is returned and
    holds what they resolve to with the entries that are not enabled left
    out; two transformers of the list stand in it as their names stand in
    [TRANSFORMERS]. Conversely, a non-empty list that is returned is such a
    list. *)
Theorem load_transformers_order
    (allowed : option (list (string * list string)))
    (config : gmap string (list string)) (allow_disabled : bool)
    (t : trace) :
  (forall t',
     fst (load_transformers allowed config allow_disabled t') =
     fst (load_transformers allowed config allow_disabled t)) /\
  (forall selection cs,
     allowed = Some selection -> selection <> [] ->
     List.Forall2 (fun item c => resolves (import_selected config item) c)
                  selection cs ->
     fst (load_transformers allowed config allow_disabled t) = Return cs /\
     length cs = length selection /\
     forall i item,
       selection !! i = Some item ->
       exists c, cs !! i = Some c /\
                 resolves (import_selected config item) c) /\
  (forall cs,
     allowed = None \/ allowed = Some [] ->
     List.Forall2 (fun name c => resolves (import_default config name) c)
                  TRANSFORMERS cs ->
     exists l,
       fst (load_transformers allowed config allow_disabled t) = Return l /\
       l = List.filter (fun c => allow_disabled || getattr_ENABLED c) cs /\
       forall i j ci cj,
         i < j -> l !! i = Some ci -> l !! j = Some cj ->
         exists i' j' name_i name_j,
           i' < j' /\
           TRANSFORMERS !! i' = Some name_i /\
           TRANSFORMERS !! j' = Some name_j /\
           resolves (import_default config name_i) ci /\
           resolves (import_default config name_j) cj) /\
  (forall l,
     fst (load_transformers allowed config allow_disabled t) = Return l ->
     l <> [] ->
     match allowed with
     | Some ((_ :: _) as selection) =>
         List.Forall2
           (fun item c => resolves (import_selected config item) c)
           selection l
     | _ =>
         exists cs,
           List.Forall2
             (fun name c => resolves (import_default config name) c)
             TRANSFORMERS cs /\
           l = List.filter (fun c => allow_disabled || getattr_ENABLED c) cs
     end).
Proof.
  repeat apply conj.
  - intros t'. rewrite !load_transformers_run.
    apply run_attempts_steady, attempts_steady.
  - intros selection cs -> Hne Hall. repeat apply conj.
    + destruct selection as [|item rest]; [contradiction|].
      rewrite load_transformers_run.
      rewrite (run_attempts_all_resolved _ _ cs
                 (attempts_steady (Some (item :: rest)) config)).
      * change (appended (Some (item :: rest)) allow_disabled)
          with (fun _ : Transformer => true).
        rewrite filter_all. reflexivity.
      * apply (Forall2_map_left resolves (import_selected config)). exact Hall.
    + symmetry. eapply Forall2_length. exact Hall.
    + intros i item Hi. eapply Forall2_lookup_l in Hall; [|exact Hi].
      exact Hall.
  - intros cs Hnone Hall. eexists. repeat apply conj.
    + rewrite load_transformers_run.
      rewrite (run_attempts_all_resolved _ _ cs
                 (attempts_steady allowed config)).
      * cbn [app]. reflexivity.
      * destruct Hnone as [-> | ->];
          apply (Forall2_map_left resolves (import_default config));
          exact Hall.
    + destruct Hnone as [-> | ->]; reflexivity.
    + intros i j ci cj Hlt Hi Hj.
      destruct (filter_lookup_order _ _ _ _ _ _ Hlt Hi Hj)
        as (i' & j' & Hl & Hi' & Hj').
      destruct (Forall2_lookup_r _ _ _ _ _ Hall Hi') as (ni & Hni & Hri).
      destruct (Forall2_lookup_r _ _ _ _ _ Hall Hj') as (nj & Hnj & Hrj).
      exists i', j', ni, nj. repeat split; assumption.
  - intros l. apply load_transformers_returned_order.
Qed.

End Loading.

Section ParameterErrors.

Variable import_class_or_module : string -> list string -> import_result.
Variable find_similar : string -> list string -> string.
Variable split_args_from_name_or_path :
  string -> outcome (string * list string).

Lemma import_selected_token_without_equals
    (name : string) (args : list string)
    (config : gmap string (list string)) (tok : string) (t : trace) :
  In tok (args ++ config_get config name) ->
  PyStr.has_char "="%char tok = false ->
  import_selected import_class_or_module find_similar config (name, args) t
  = (Raise (ValueError unpack_got_1), t).
Proof.
  intros Hin Htok. unfold import_selected, bind, lift, join_args.
  cbn [fst snd].
  rewrite (fill_temp_args_no_equals _ _ _ Hin Htok). reflexivity.
Qed.

(** C2: a token without ['='] among the parameters of a selected
    transformer (the transformers selected before it being resolved) makes
    [load_transformers] fail with the [ValueError] of the tuple unpacking,
    before that transformer is imported. Its message is a constant of the
    interpreter: it does not name the transformer. *)
Theorem load_transformers_token_without_equals
    (before rest : list (string * list string))
    (name : string) (args : list string)
    (config : gmap string (list string)) (allow_disabled : bool)
    (tok : string) (t : trace) :
  List.Forall
    (fun item =>
       exists c,
         resolves (import_selected import_class_or_module find_similar
                                   config item) c) before ->
  In tok (args ++ config_get config name) ->
  PyStr.has_char "="%char tok = false ->
  fst (load_transformers import_class_or_module find_similar
         (Some (before ++ (name, args) :: rest)) config allow_disabled t)
  = Raise (ValueError unpack_got_1).
Proof.
  intros Hbefore Hin Htok. rewrite load_transformers_run.
  assert (Hatt : attempts import_class_or_module find_similar
                   (Some (before ++ (name, args) :: rest)) config
                 = map (import_selected import_class_or_module find_similar
                          config) before
                   ++ import_selected import_class_or_module find_similar
                        config (name, args)
                   :: map (import_selected import_class_or_module
                             find_similar config) rest).
  { unfold attempts. rewrite <- (map_cons _ (name, args)), <- map_app.
    destruct before; reflexivity. }
  rewrite Hatt.
  eapply run_attempts_first_failure.
  - rewrite <- Hatt. apply attempts_steady.
  - apply List.Forall_forall. intros m Hm.
    apply in_map_iff in Hm as (item & <- & Hitem).
    exact (proj1 (List.Forall_forall _ _) Hbefore item Hitem).
  - unfold outcome_of.
    rewrite (import_selected_token_without_equals _ _ _ _ _ Hin Htok).
    reflexivity.
Qed.

(** The message [TransformType.convert] builds for a malformed value never
    names a transformer either: [name] is still empty when it is used. *)
Lemma convert_message_without_name (value msg : string) :
  split_args_from_name_or_path value = Raise (ValueError msg) ->
  convert split_args_from_name_or_path value
  = Raise (ValueError (invalid_configuration "")).
Proof. intros H. unfold convert. rewrite H. reflexivity. Qed.

End ParameterErrors.

Lemma load_transformers_token_without_equals_witness :
  fst (load_transformers Demo.importer Demo.find_similar
         (Some [("OrderSettings", []); ("SplitTooLongLine", ["linelength80"])])
         ∅ false [])
  = Raise (ValueError unpack_got_1) /\
  PyStr.contains "SplitTooLongLine" unpack_got_1 = false.
Proof.
  split; [|reflexivity].
  apply (load_transformers_token_without_equals
           Demo.importer Demo.find_similar [("OrderSettings", [])] []
           "SplitTooLongLine" ["linelength80"] ∅ false "linelength80" []).
  - constructor; [|constructor].
    exists (Demo.transformer_named "OrderSettings"). reflexivity.
  - left. reflexivity.
  - reflexivity.
Defined.

(** C4, as stated, fails: an unknown name in the selection does not make
    [load_transformers] return the empty list; the import error leaves the
    function as an exception. *)
Lemma unknown_name_raises_instead_of_returning_empty :
  outcome_of (load_transformers Demo.importer Demo.find_similar
                (Some [("NormalizeSeparators", []); ("Foo", [])]) ∅ false)
  = Raise (ImportTransformerError (import_failed_message "Foo" "")) /\
  outcome_of (load_transformers Demo.importer Demo.find_similar
                (Some [("NormalizeSeparators", []); ("Foo", [])]) ∅ false)
  <> Return [].
Proof. split; [reflexivity|]. vm_compute. discriminate. Qed.

Lemma load_transformers_fail_fast_witness :
  fst (load_transformers Demo.importer Demo.find_similar
         (Some [("NormalizeSeparators", []); ("Foo", []);
                ("OrderSettings", [])]) ∅ false [])
  = Raise (ImportTransformerError (import_failed_message "Foo" "")) /\
  forall l,
    fst (load_transformers Demo.importer Demo.find_similar
           (Some [("NormalizeSeparators", []); ("Foo", []);
                  ("OrderSettings", [])]) ∅ false [])
    <> Return l.
Proof.
  apply (load_transformers_fail_fast Demo.importer Demo.find_similar
           (Some [("NormalizeSeparators", []); ("Foo", []);
                  ("OrderSettings", [])]) ∅ false
           [import_selected Demo.importer Demo.find_similar ∅
              ("NormalizeSeparators", [])]
           [import_selected Demo.importer Demo.find_similar ∅
              ("OrderSettings", [])]
           (import_selected Demo.importer Demo.find_similar ∅ ("Foo", []))).
  - reflexivity.
  - constructor; [|constructor].
    exists (Demo.transformer_named "NormalizeSeparators"). reflexivity.
  - reflexivity.
Defined.

Lemma load_transformers_skips_disabled_witness :
  exists l,
    fst (load_transformers Demo.importer Demo.find_similar None ∅ false [])
    = Return l /\
    l = List.filter (fun c => false || getattr_ENABLED c) Demo.catalog /\
    (forall c,
       In c l <->
       In c Demo.catalog /\
       ((exists item rest, @None (list (string * list string))
                           = Some (item :: rest)) \/
        false = true \/ ENABLED c <> Some false)) /\
    (@None (list (string * list string)) = None \/
     @None (list (string * list string)) = Some [] ->
     imports_of
       (snd (load_transformers Demo.importer Demo.find_similar None ∅ false
               [])) =
     imports_of []
     ++ map (fun name => ("robotidy.transformers." +:+ name,
                          config_get ∅ name)) TRANSFORMERS).
Proof.
  refine (load_transformers_skips_disabled
            Demo.importer Demo.find_similar None ∅ false
            Demo.catalog [] _).
  repeat constructor.
Defined.

(** The sample catalog has one transformer that is not enabled; a run
    without a selection leaves it out, a selection that names it loads
    it. *)
Example default_run_leaves_out_SmartSortKeywords :
  outcome_of (load_transformers Demo.importer Demo.find_similar None ∅ false)
  = Return (map Demo.transformer_named
              (List.removelast TRANSFORMERS)).
Proof. reflexivity. Qed.

Example listing_run_keeps_SmartSortKeywords :
  outcome_of (load_transformers Demo.importer Demo.find_similar None ∅ true)
  = Return Demo.catalog.
Proof. reflexivity. Qed.

Example selection_loads_SmartSortKeywords :
  outcome_of (load_transformers Demo.importer Demo.find_similar
                (Some [("SmartSortKeywords", [])]) ∅ false)
  = Return [Demo.transformer_named "SmartSortKeywords"].
Proof. reflexivity. Qed.

Lemma load_transformers_order_witness :
  (fst (load_transformers Demo.importer Demo.find_similar
          (Some [("SmartSortKeywords", []); ("NormalizeSeparators", ["a=1"])])
          ∅ false [])
   = Return [Demo.transformer_named "SmartSortKeywords";
             Demo.transformer_named "NormalizeSeparators"] /\
   length [Demo.transformer_named "SmartSortKeywords";
           Demo.transformer_named "NormalizeSeparators"]
   = length [("SmartSortKeywords", @nil string);
             ("NormalizeSeparators", ["a=1"])] /\
   forall i item,
     [("SmartSortKeywords", []); ("NormalizeSeparators", ["a=1"])] !! i
     = Some item ->
     exists c,
       [Demo.transformer_named "SmartSortKeywords";
        Demo.transformer_named "NormalizeSeparators"] !! i = Some c /\
       resolves (import_selected Demo.importer Demo.find_similar ∅ item) c)
  /\
  (exists l,
     fst (load_transformers Demo.importer Demo.find_similar None ∅ false [])
     = Return l /\
     l = List.filter (fun c => false || getattr_ENABLED c) Demo.catalog /\
     forall i j ci cj,
       i < j -> l !! i = Some ci -> l !! j = Some cj ->
       exists i' j' name_i name_j,
         i' < j' /\
         TRANSFORMERS !! i' = Some name_i /\
         TRANSFORMERS !! j' = Some name_j /\
         resolves (import_default Demo.importer Demo.find_similar ∅ name_i)
                  ci /\
         resolves (import_default Demo.importer Demo.find_similar ∅ name_j)
                  cj).
Proof.
  split.
  - apply (proj1 (proj2 (load_transformers_order
                    Demo.importer Demo.find_similar
                    (Some [("SmartSortKeywords", []);
                           ("NormalizeSeparators", ["a=1"])]) ∅ false []))).
    + reflexivity.
    + discriminate.
    + repeat constructor.
  - apply (proj1 (proj2 (proj2 (load_transformers_order
                    Demo.importer Demo.find_similar None ∅ false [])))).
    + left. reflexivity.
    + repeat constructor.
Defined.

(** ** Configuration keys (lines 142-151) *)

Lemma replace_dash_spec (s : string) :
  PyStr.replace "-" "_" s = spec_dashes_to_underscores s.
Proof.
  unfold PyStr.replace. induction s as [|c s IH]; [reflexivity|].
  cbn [PyStr.replace_from spec_dashes_to_underscores].
  rewrite prefix_cons, prefix_empty, andb_true_r.
  change (String.length "-" - 1) with 0. rewrite IH.
  destruct (Ascii.eqb c "-"); reflexivity.
Qed.

Lemma replace_double_dash_absent (s : string) :
  PyStr.contains "--" s = false -> PyStr.replace "--" "" s = s.
Proof.
  unfold PyStr.replace. induction s as [|c s IH]; [reflexivity|].
  cbn [PyStr.contains PyStr.replace_from].
  destruct (String.prefix "--" (String c s)); [discriminate|].
  intros H. rewrite (IH H). reflexivity.
Qed.

Lemma replace_from_here (old new : string) (c : ascii) (s : string) :
  PyStr.replace_from old new 0 (String c s) =
  if String.prefix old (String c s)
  then new +:+ PyStr.replace_from old new (String.length old - 1) s
  else String c (PyStr.replace_from old new 0 s).
Proof. reflexivity. Qed.

Lemma spec_remove_double_dashes_two (c d : ascii) (rest : string) :
  spec_remove_double_dashes (String c (String d rest)) =
  if Ascii.eqb c "-" && Ascii.eqb d "-"
  then spec_remove_double_dashes rest
  else String c (spec_remove_double_dashes (String d rest)).
Proof. reflexivity. Qed.

Lemma replace_double_dash_spec (s : string) :
  PyStr.replace "--" "" s = spec_remove_double_dashes s.
Proof.
  unfold PyStr.replace.
  enough (H : PyStr.replace_from "--" "" 0 s = spec_remove_double_dashes s /\
              forall c, PyStr.replace_from "--" "" 0 (String c s)
                        = spec_remove_double_dashes (String c s))
    by exact (proj1 H).
  induction s as [|d rest [IHrest IHcons]].
  - split; [reflexivity|]. intros c.
    rewrite replace_from_here, prefix_cons. cbn [String.prefix].
    rewrite andb_false_r. reflexivity.
  - split; [apply IHcons|]. intros c.
    rewrite (replace_from_here "--" "" c (String d rest)).
    rewrite spec_remove_double_dashes_two.
    rewrite !prefix_cons, prefix_empty, andb_true_r.
    change (String.length "--" - 1) with 1.
    destruct (Ascii.eqb c "-" && Ascii.eqb d "-").
    + exact IHrest.
    + rewrite IHcons. reflexivity.
Qed.

(** Normalising a key is dropping every [--] and then writing every dash
    as an underscore. *)
Lemma normalize_key_spec (k : string) :
  normalize_key k
  = spec_dashes_to_underscores (spec_remove_double_dashes k).
Proof.
  unfold normalize_key. rewrite replace_double_dash_spec.
  apply replace_dash_spec.
Qed.

Lemma spec_dashes_to_underscores_no_dash (s : string) :
  PyStr.has_char "-" (spec_dashes_to_underscores s) = false.
Proof.
  induction s as [|c s IH]; [reflexivity|].
  cbn [spec_dashes_to_underscores PyStr.has_char]. rewrite IH, orb_false_r.
  destruct (Ascii.eqb c "-") eqn:E; [reflexivity|exact E].
Qed.

Lemma contains_needs_first_char (c : ascii) (p s : string) :
  PyStr.has_char c s = false -> PyStr.contains (String c p) s = false.
Proof.
  induction s as [|d s IH]; [reflexivity|].
  cbn [PyStr.has_char PyStr.contains]. intros H.
  apply orb_false_iff in H as [Hd Hs].
  rewrite prefix_cons, Hd. cbn [andb]. apply IH. assumption.
Qed.

Lemma spec_dashes_to_underscores_fixed (s : string) :
  PyStr.has_char "-" s = false -> spec_dashes_to_underscores s = s.
Proof.
  induction s as [|c s IH]; [reflexivity|].
  cbn [PyStr.has_char spec_dashes_to_underscores]. intros H.
  apply orb_false_iff in H as [Hc Hs]. rewrite Hc, (IH Hs). reflexivity.
Qed.

(** No dash survives the normalisation of a key. *)
Lemma normalize_key_no_dash (k : string) :
  PyStr.has_char "-" (normalize_key k) = false.
Proof.
  unfold normalize_key. rewrite replace_dash_spec.
  apply spec_dashes_to_underscores_no_dash.
Qed.

(** Without a double dash, normalising is writing dashes as underscores. *)
Lemma normalize_key_single_dashes (k : string) :
  PyStr.contains "--" k = false ->
  normalize_key k = spec_dashes_to_underscores k.
Proof.
  intros H. unfold normalize_key.
  rewrite (replace_double_dash_absent _ H). apply replace_dash_spec.
Qed.

(** The key written with underscores is left as it is. *)
Lemma normalize_key_underscored (k : string) :
  normalize_key (spec_dashes_to_underscores k) = spec_dashes_to_underscores k.
Proof.
  rewrite normalize_key_single_dashes.
  - apply spec_dashes_to_underscores_fixed,
      spec_dashes_to_underscores_no_dash.
  - apply contains_needs_first_char, spec_dashes_to_underscores_no_dash.
Qed.

Lemma fold_set_ext {X V} (key key' : X -> string) (val val' : X -> V)
    (xs : list X) (d : PyDict.dict V) :
  List.Forall (fun x => key x = key' x /\ val x = val' x) xs ->
  fold_left (fun d x => PyDict.set d (key x) (val x)) xs d =
  fold_left (fun d x => PyDict.set d (key' x) (val' x)) xs d.
Proof.
  intros H. revert d. induction H as [|x xs [Hk Hv] _ IH]; intros d.
  - reflexivity.
  - cbn [fold_left]. rewrite Hk, Hv. apply IH.
Qed.

Lemma fold_set_map {X Y V} (f : X -> Y) (key : Y -> string) (val : Y -> V)
    (xs : list X) (d : PyDict.dict V) :
  fold_left (fun d y => PyDict.set d (key y) (val y)) (map f xs) d =
  fold_left (fun d x => PyDict.set d (key (f x)) (val (f x))) xs d.
Proof.
  revert d. induction xs as [|x xs IH]; intros d; [reflexivity|].
  cbn [map fold_left]. apply IH.
Qed.

Lemma fold_set_keys {X V} (P : string -> Prop) (key : X -> string)
    (val : X -> V) (xs : list X) (d : PyDict.dict V) :
  (forall x, P (key x)) ->
  List.Forall P (PyDict.keys d) ->
  List.Forall P
    (PyDict.keys (fold_left (fun d x => PyDict.set d (key x) (val x)) xs d)).
Proof.
  intros Hkey. revert d. induction xs as [|x xs IH]; intros d Hd.
  - exact Hd.
  - cbn [fold_left]. apply IH. rewrite dict_keys_set.
    destruct (PyDict.get d (key x)); [exact Hd|].
    apply List.Forall_app. split; [exact Hd|]. constructor; [apply Hkey|].
    constructor.
Qed.

(** The entries written with underscores instead of dashes. *)
Lemma normalize_keys_underscored (entries : list (string * toml)) :
  List.Forall (fun kv => PyStr.contains "--" (fst kv) = false) entries ->
  normalize_keys entries =
  normalize_keys
    (map (fun kv => (spec_dashes_to_underscores (fst kv), snd kv)) entries).
Proof.
  intros H. unfold normalize_keys, PyDict.comprehension.
  rewrite fold_set_map. apply fold_set_ext.
  eapply List.Forall_impl; [|exact H]. intros [k v] Hk. cbn [fst snd] in *.
  split; [|reflexivity].
  rewrite normalize_key_underscored. apply normalize_key_single_dashes.
  assumption.
Qed.

Section ConfigFiles.

Variable toml_load : string -> outcome toml.

Lemma read_robotidy_config_run (path : string)
    (entries : list (string * toml)) (t : trace) :
  toml_load path = Return (TTable entries) ->
  read_robotidy_config toml_load path t =
  (Return (normalize_keys entries),
   t ++ [Echo ("Loaded configuration from " +:+ path)]).
Proof.
  intros H. unfold read_robotidy_config, load_toml_file, bind. rewrite H.
  reflexivity.
Qed.

Lemma read_pyproject_config_run (path : string) (config tool : toml)
    (entries : list (string * toml)) (t : trace) :
  toml_load path = Return config ->
  get_or_empty config "tool" = Return tool ->
  get_or_empty tool "robotidy" = Return (TTable entries) ->
  read_pyproject_config toml_load path t =
  (Return (normalize_keys entries),
   t ++ [Echo "Reading pyproject.toml";
         Echo ("Loaded configuration from " +:+ path)]).
Proof.
  intros H Htool Hsection.
  unfold read_pyproject_config, load_toml_file, bind, echo, emit, lift, ret.
  rewrite H, Htool, Hsection. cbn [items]. rewrite <- app_assoc. reflexivity.
Qed.

(** C8, amended: both readers return the mapping of the file (or of its
    [tool.robotidy] section) with every key normalised. For every key, each
    [--] is removed first and each remaining dash then becomes an
    underscore; the keys of the result are these normalised keys and no
    others, each with a value that the file gives under a key normalised to
    it, and none of them has a dash. For a key without a double dash the
    normalised key is the key written with underscores instead of dashes,
    and when no key holds a double dash the result is the one the file
    written with underscores gives. *)
Theorem config_keys_normalized
    (pyproject : bool) (path : string) (config : toml)
    (entries : list (string * toml)) (t : trace) :
  toml_load path = Return config ->
  (if pyproject
   then exists tool, get_or_empty config "tool" = Return tool /\
                     get_or_empty tool "robotidy" = Return (TTable entries)
   else config = TTable entries) ->
  fst ((if pyproject then read_pyproject_config toml_load
        else read_robotidy_config toml_load) path t)
  = Return (normalize_keys entries) /\
  List.Forall
    (fun kv =>
       normalize_key (fst kv)
       = spec_dashes_to_underscores (spec_remove_double_dashes (fst kv)))
    entries /\
  (forall k,
     In k (PyDict.keys (normalize_keys entries)) <->
     exists kv,
       In kv entries /\
       k = spec_dashes_to_underscores (spec_remove_double_dashes (fst kv))) /\
  List.Forall
    (fun kv =>
       exists kv',
         In kv' entries /\
         normalize_key (fst kv') = normalize_key (fst kv) /\
         PyDict.get (normalize_keys entries)
           (spec_dashes_to_underscores (spec_remove_double_dashes (fst kv)))
         = Some (snd kv'))
    entries /\
  List.Forall (fun k => PyStr.has_char "-" k = false)
              (PyDict.keys (normalize_keys entries)) /\
  List.Forall
    (fun kv =>
       PyStr.contains "--" (fst kv) = false ->
       normalize_key (fst kv) = spec_dashes_to_underscores (fst kv))
    entries /\
  (List.Forall (fun kv => PyStr.contains "--" (fst kv) = false) entries ->
   normalize_keys entries =
   normalize_keys
     (map (fun kv => (spec_dashes_to_underscores (fst kv), snd kv)) entries)).
Proof.
  intros Hload Hsection. repeat apply conj.
  - destruct pyproject.
    + destruct Hsection as (tool & Htool & Hentries).
      erewrite read_pyproject_config_run; eauto.
    + subst config. erewrite read_robotidy_config_run; eauto.
  - apply List.Forall_forall. intros kv _. apply normalize_key_spec.
  - intros k. unfold normalize_keys. rewrite comprehension_keys, in_map_iff.
    split.
    + intros (kv & <- & Hin). exists kv.
      split; [exact Hin|apply normalize_key_spec].
    + intros (kv & Hin & ->). exists kv.
      split; [apply normalize_key_spec|exact Hin].
  - apply List.Forall_forall. intros kv Hin.
    destruct (comprehension_get_In (fun kv => normalize_key (fst kv)) snd
                entries kv Hin) as (kv' & Hin' & Hkey & Hget).
    exists kv'. rewrite <- normalize_key_spec. repeat split; assumption.
  - apply fold_set_keys; [|constructor].
    intros kv. apply normalize_key_no_dash.
  - apply List.Forall_forall. intros kv _. apply normalize_key_single_dashes.
  - apply normalize_keys_underscored.
Qed.

End ConfigFiles.

(** C8, as stated, fails on a key with a double dash: [line--length]
    becomes [linelength], and the key written with underscores,
    [line__length], is another entry. A leading [--], as in an option
    name, is dropped in the same way. *)
Lemma double_dash_is_removed_not_underscored :
  normalize_key "line--length" = "linelength" /\
  normalize_key "line--length"
  <> spec_dashes_to_underscores "line--length" /\
  normalize_keys [("line--length", TInteger 120)]
  <> normalize_keys [("line__length", TInteger 120)] /\
  normalize_key "--line-length" = "line_length".
Proof. repeat split; vm_compute; discriminate. Qed.

Lemma config_keys_normalized_witness :
  fst (read_pyproject_config
         (fun _ => Return (TTable [("tool", TTable [("robotidy", TTable
            [("--line-length", TInteger 120); ("line_length", TInteger 80);
             ("start-line", TInteger 1)])])]))
         "pyproject.toml" [])
  = Return [("line_length", TInteger 80); ("start_line", TInteger 1)] /\
  fst (read_robotidy_config
         (fun _ => Return (TTable
            [("--line-length", TInteger 120); ("line_length", TInteger 80);
             ("start-line", TInteger 1)]))
         "robotidy.toml" [])
  = Return [("line_length", TInteger 80); ("start_line", TInteger 1)].
Proof.
  split.
  - exact (proj1 (config_keys_normalized
      (fun _ => Return (TTable [("tool", TTable [("robotidy", TTable
         [("--line-length", TInteger 120); ("line_length", TInteger 80);
          ("start-line", TInteger 1)])])]))
      true "pyproject.toml" _
      [("--line-length", TInteger 120); ("line_length", TInteger 80);
       ("start-line", TInteger 1)] []
      eq_refl
      (ex_intro _ (TTable [("robotidy", TTable
         [("--line-length", TInteger 120); ("line_length", TInteger 80);
          ("start-line", TInteger 1)])]) (conj eq_refl eq_refl)))).
  - exact (proj1 (config_keys_normalized
      (fun _ => Return (TTable
         [("--line-length", TInteger 120); ("line_length", TInteger 80);
          ("start-line", TInteger 1)]))
      false "robotidy.toml" _
      [("--line-length", TInteger 120); ("line_length", TInteger 80);
       ("start-line", TInteger 1)] []
      eq_refl eq_refl)).
Defined.

(** ** The command line (lines 177-192 and 362-376) *)

Section Describing.

Variable import_class_or_module : string -> list string -> import_result.
Variable find_similar : string -> list string -> string.
Variable remove_rst_formatting : option string -> outcome string.
Variable transform_files : cli_args -> M Z.

Abbreviation load_transformers :=
  (load_transformers import_class_or_module find_similar).
Abbreviation describe_each := (describe_each remove_rst_formatting).
Abbreviation print_description :=
  (print_description import_class_or_module find_similar
                     remove_rst_formatting).
Abbreviation cli :=
  (cli import_class_or_module find_similar remove_rst_formatting
       transform_files).

Lemma describe_each_run (entries : list (string * Transformer))
    (texts : list string) :
  List.Forall2 (fun kv text => remove_rst_formatting (doc (snd kv))
                               = Return text) entries texts ->
  forall t,
    describe_each entries t = (Return tt, t ++ description_lines entries texts).
Proof.
  intros H. induction H as [|[tr_name c] text entries texts Hc _ IH];
    intros t.
  - cbn. rewrite app_nil_r. reflexivity.
  - cbn [Cli.describe_each]. cbn [snd] in Hc.
    unfold bind, echo, emit, lift. rewrite Hc. rewrite IH.
    unfold description_lines. cbn [combine flat_map fst snd app].
    rewrite <- !app_assoc. reflexivity.
Qed.

(** C9: once the catalog is loaded (with the disabled transformers),
    [print_description] looks the name up among the class names of the
    loaded transformers, each name held once. It returns 0 for ['all'],
    after printing every loaded transformer with its documentation, and for
    the class name of a loaded transformer, after printing the name and the
    documentation of the last transformer loaded under it. For a name that
    is no class name of a loaded transformer it prints that the transformer
    does not exist, followed by the suggestion text of [find_similar] over
    the loaded names (whatever it is, the empty text included), and returns
    1. [cli], given [--desc] and none of the flags tested before it, exits
    with that return code. *)
Theorem print_description_return_code
    (name : string) (transformers : list Transformer) (t t1 : trace) :
  load_transformers None ∅ true t = (Return transformers, t1) ->
  let transformer_by_names :=
    PyDict.comprehension class_name (fun c => c) transformers in
  ((forall k, In k (PyDict.keys transformer_by_names) <->
              In k (map class_name transformers)) /\
   List.NoDup (PyDict.keys transformer_by_names) /\
   (List.NoDup (map class_name transformers) ->
    transformer_by_names = map (fun c => (class_name c, c)) transformers))
  /\
  (name = "all" ->
   forall texts,
     List.Forall2 (fun kv text => remove_rst_formatting (doc (snd kv))
                                  = Return text)
                  transformer_by_names texts ->
     print_description name t =
     (Return 0%Z, t1 ++ description_lines transformer_by_names texts)) /\
  (name <> "all" ->
   forall before c after text,
     transformers = before ++ c :: after ->
     class_name c = name ->
     ~ In name (map class_name after) ->
     remove_rst_formatting (doc c) = Return text ->
     print_description name t =
     (Return 0%Z, t1 ++ [Echo ("Transformer " +:+ name +:+ ":"); Echo text]))
  /\
  (name <> "all" ->
   ~ In name (map class_name transformers) ->
   print_description name t =
   (Return 1%Z,
    t1 ++ [Echo ("Transformer with the name '" +:+ name
                 +:+ "' does not exist."
                 +:+ find_similar name (PyDict.keys transformer_by_names))]))
  /\
  (forall a code t',
     list_transformers a = false ->
     truthy (describe_transformer a) = false ->
     list_flag a = false ->
     desc a = Some name ->
     print_description name t = (Return code, t') ->
     cli a t = (Raise (Exit code), t')).
Proof.
  intros Hload by_names. repeat apply conj.
  - intros k. apply comprehension_keys.
  - apply comprehension_keys_NoDup.
  - apply comprehension_distinct.
  - intros -> texts Htexts.
    unfold Cli.print_description, bind. rewrite Hload.
    cbn [String.eqb Ascii.eqb Bool.eqb]. fold by_names.
    rewrite (describe_each_run _ _ Htexts). reflexivity.
  - intros Hname before c after text -> Hc Hafter Htext.
    unfold Cli.print_description, bind. rewrite Hload.
    apply String.eqb_neq in Hname. rewrite Hname. subst name.
    rewrite (comprehension_get_last class_name (fun c => c)) by exact Hafter.
    unfold echo, emit, lift, ret. rewrite Htext.
    rewrite <- app_assoc. reflexivity.
  - intros Hname Hnot.
    unfold Cli.print_description, bind. rewrite Hload.
    apply String.eqb_neq in Hname. rewrite Hname. fold by_names.
    apply (comprehension_get_None class_name (fun c => c)) in Hnot.
    fold by_names in Hnot. rewrite Hnot. reflexivity.
  - intros a code t' H1 H2 H3 H4 Hprint.
    unfold Cli.cli, when, bind. rewrite H1, H2, H3, H4.
    unfold ret at 1 2 3. cbv beta iota. rewrite Hprint. reflexivity.
Qed.

(** C10: with no source path, and none of the flags tested before, [cli]
    prints the usage hint and exits with status 0. The hint is the only
    event of the run: whatever the importer and the application would do,
    no transformer is imported and no file is transformed. *)
Theorem cli_without_sources (a : cli_args) (t : trace) :
  list_transformers a = false ->
  truthy (describe_transformer a) = false ->
  list_flag a = false ->
  desc a = None ->
  src a = [] ->
  cli a t = (Raise (Exit 0), t ++ [Echo no_source_hint]) /\
  imports_of (snd (cli a t)) = imports_of t.
Proof.
  intros H1 H2 H3 H4 H5.
  assert (H : cli a t = (Raise (Exit 0), t ++ [Echo no_source_hint])).
  { unfold Cli.cli, when, bind. rewrite H1, H2, H3, H4, H5.
    reflexivity. }
  split; [exact H|]. rewrite H. cbn [snd]. rewrite imports_of_app.
  cbn. apply app_nil_r.
Qed.

End Describing.

Lemma print_description_return_code_witness :
  print_description Demo.importer Demo.find_similar
    Demo.remove_rst_formatting "OrderSettings" []
  = (Return 0%Z,
     map (fun name => ImportCall ("robotidy.transformers." +:+ name) [])
         TRANSFORMERS
     ++ [Echo ("Transformer " +:+ "OrderSettings" +:+ ":");
         Echo "Documentation of OrderSettings."]) /\
  print_description Demo.importer Demo.find_similar
    Demo.remove_rst_formatting "OrderSettngs" []
  = (Return 1%Z,
     map (fun name => ImportCall ("robotidy.transformers." +:+ name) [])
         TRANSFORMERS
     ++ [Echo ("Transformer with the name '" +:+ "OrderSettngs"
               +:+ "' does not exist."
               +:+ Demo.find_similar "OrderSettngs"
                     (PyDict.keys
                        (PyDict.comprehension class_name (fun c => c)
                           Demo.catalog)))]).
Proof.
  split.
  - refine (proj1 (proj2 (proj2
      (print_description_return_code Demo.importer Demo.find_similar
         Demo.remove_rst_formatting Demo.transform_files
         "OrderSettings" Demo.catalog []
         (map (fun name => ImportCall ("robotidy.transformers." +:+ name) [])
              TRANSFORMERS) _))) _
      (map Demo.transformer_named (firstn 5 TRANSFORMERS))
      (Demo.transformer_named "OrderSettings")
      (map Demo.transformer_named (skipn 6 TRANSFORMERS))
      "Documentation of OrderSettings." _ _ _ _).
    + reflexivity.
    + discriminate.
    + reflexivity.
    + reflexivity.
    + cbn. intros H.
      repeat (destruct H as [H|H]; [discriminate H|]). exact H.
    + reflexivity.
  - refine (proj1 (proj2 (proj2 (proj2
      (print_description_return_code Demo.importer Demo.find_similar
         Demo.remove_rst_formatting Demo.transform_files
         "OrderSettngs" Demo.catalog []
         (map (fun name => ImportCall ("robotidy.transformers." +:+ name) [])
              TRANSFORMERS) _)))) _ _).
    + reflexivity.
    + discriminate.
    + cbn. intros H.
      repeat (destruct H as [H|H]; [discriminate H|]). exact H.
Defined.

Example print_description_known_name :
  print_description Demo.importer Demo.find_similar
    Demo.remove_rst_formatting "OrderSettings" []
  = (Return 0%Z,
     map (fun name => ImportCall ("robotidy.transformers." +:+ name) [])
         TRANSFORMERS
     ++ [Echo "Transformer OrderSettings:";
         Echo "Documentation of OrderSettings."]).
Proof. reflexivity. Qed.

Example cli_desc_unknown_exits_1 :
  fst (cli Demo.importer Demo.find_similar Demo.remove_rst_formatting
         Demo.transform_files (Demo.args_with ["a.robot"] (Some "Foo")) [])
  = Raise (Exit 1).
Proof. reflexivity. Qed.

Lemma cli_without_sources_witness :
  cli Demo.importer Demo.find_similar Demo.remove_rst_formatting
      Demo.transform_files (Demo.args_with [] None) []
  = (Raise (Exit 0), [Echo no_source_hint]).
Proof.
  refine (proj1 (cli_without_sources Demo.importer Demo.find_similar
                   Demo.remove_rst_formatting Demo.transform_files
                   (Demo.args_with [] None) [] _ _ _ _ _)); reflexivity.
Defined.

(** * Further properties of the code *)

(** ** Merged arguments (lines 61-65) *)

Lemma has_char_app (c : ascii) (s1 s2 : string) :
  PyStr.has_char c (s1 +:+ s2) = PyStr.has_char c s1 || PyStr.has_char c s2.
Proof.
  induction s1 as [|d s1 IH]; [reflexivity|].
  simpl. rewrite IH. apply orb_assoc.
Qed.

Lemma format_arg_has_equals (kv : string * string) :
  PyStr.has_char "="%char (format_arg kv) = true.
Proof.
  unfold format_arg. rewrite has_char_app.
  change ("=" +:+ snd kv) with (String "="%char (snd kv)).
  cbn [PyStr.has_char]. rewrite Ascii.eqb_refl. apply orb_true_r.
Qed.

Lemma token_param_format_arg (kv : string * string) :
  PyStr.has_char "="%char (fst kv) = false ->
  token_param (format_arg kv) = fst kv.
Proof. intros H. apply token_param_first. assumption. Qed.

(** A token with an ['='] is a formatted pair. *)
Lemma token_is_formatted (tok : string) :
  PyStr.has_char "="%char tok = true ->
  exists kv, tok = format_arg kv /\
             PyStr.has_char "="%char (fst kv) = false /\
             token_param tok = fst kv.
Proof.
  intros H. unfold token_param.
  destruct (split_maxsplit1_shape "="%char tok)
    as [[Hn _]|(p & v & _ & Hp & -> & Hs)]; [congruence|].
  exists (p, v). rewrite Hs. repeat split. assumption.
Qed.

(** Formatted pairs with distinct names are read back as they are. *)
Lemma fill_temp_args_formatted (d2 d1 : PyDict.dict string) :
  List.Forall (fun kv => PyStr.has_char "="%char (fst kv) = false) d2 ->
  List.NoDup (PyDict.keys (d1 ++ d2)) ->
  fill_temp_args (map format_arg d2) d1 = Return (d1 ++ d2).
Proof.
  revert d1. induction d2 as [|[k v] d2 IH]; intros d1 Hkeys Hnodup.
  - cbn. rewrite app_nil_r. reflexivity.
  - apply List.Forall_cons_iff in Hkeys as [Hk Hkeys]. cbn [fst] in Hk.
    cbn [map]. unfold format_arg at 1. cbn [fst snd].
    rewrite fill_temp_args_token by assumption.
    unfold PyDict.keys in Hnodup. rewrite map_app in Hnodup. cbn in Hnodup.
    rewrite dict_set_fresh.
    + rewrite IH; [rewrite <- app_assoc; reflexivity|assumption|].
      unfold PyDict.keys. rewrite <- app_assoc, map_app. exact Hnodup.
    + apply NoDup_ListNoDup, NoDup_app in Hnodup as (_ & Hdisj & _).
      intros Hin. apply (Hdisj k); [apply list_elem_of_In; exact Hin|].
      apply list_elem_of_In. left. reflexivity.
Qed.

Lemma fill_temp_args_keys_no_equals (toks : list string)
    (d d' : PyDict.dict string) :
  List.Forall (fun k => PyStr.has_char "="%char k = false) (PyDict.keys d) ->
  fill_temp_args toks d = Return d' ->
  List.Forall (fun k => PyStr.has_char "="%char k = false) (PyDict.keys d').
Proof.
  revert d. induction toks as [|tok toks IH]; intros d Hd Hfill.
  - cbn in Hfill. congruence.
  - cbn [fill_temp_args] in Hfill.
    destruct (split_maxsplit1_shape "="%char tok)
      as [[_ Hs]|(p & v & _ & Hp & _ & Hs)]; rewrite Hs in Hfill;
      cbn [unpack2] in Hfill; [discriminate|].
    refine (IH _ _ Hfill). rewrite dict_keys_set.
    destruct (PyDict.get d p); [exact Hd|].
    apply List.Forall_app. split; [exact Hd|]. repeat constructor. exact Hp.
Qed.

Lemma join_args_shape (name : string) (args : list string)
    (config : gmap string (list string)) (l : list string) :
  join_args name args config = Return l ->
  exists d, l = map format_arg d /\
            List.NoDup (PyDict.keys d) /\
            List.Forall (fun kv => PyStr.has_char "="%char (fst kv) = false) d.
Proof.
  intros H. destruct (join_args_dict _ _ _ _ H) as (d & Hfill & ->).
  exists d. split; [reflexivity|]. split.
  - eapply fill_temp_args_NoDup; [|exact Hfill]. constructor.
  - apply (fill_temp_args_keys_no_equals _ [] d) in Hfill; [|constructor].
    unfold PyDict.keys in Hfill. apply List.Forall_map in Hfill. exact Hfill.
Qed.

(** X1: merging is idempotent. The argument list [join_args] returns, merged
    again for any transformer that has no configuration, comes back
    unchanged: formatting [key=value] and splitting on the first ['=']
    undo each other. *)
Theorem join_args_idempotent
    (name name' : string) (args : list string)
    (config config' : gmap string (list string)) (l : list string) :
  join_args name args config = Return l ->
  config' !! name' = None ->
  join_args name' l config' = Return l.
Proof.
  intros H Hnone. destruct (join_args_shape _ _ _ _ H) as (d & -> & Hnd & Hk).
  unfold join_args, config_get. rewrite Hnone. cbn [default].
  rewrite app_nil_r.
  rewrite (fill_temp_args_formatted d []); [reflexivity|assumption|].
  exact Hnd.
Qed.

Lemma join_args_idempotent_witness :
  join_args "Other" ["line_length=80"; "expression=a==b"] ∅
  = Return ["line_length=80"; "expression=a==b"].
Proof.
  apply (join_args_idempotent
           "SplitTooLongLine" "Other"
           ["line_length=140"; "expression=a==b"]
           {[ "SplitTooLongLine" := ["line_length=80"] ]} ∅).
  - reflexivity.
  - reflexivity.
Defined.

(** X2: every argument [join_args] returns has an ['='], and no two of
    them set the same parameter. *)
Theorem join_args_distinct_parameters
    (name : string) (args : list string)
    (config : gmap string (list string)) (l : list string) :
  join_args name args config = Return l ->
  List.Forall (fun tok => PyStr.has_char "="%char tok = true) l /\
  List.NoDup (map token_param l).
Proof.
  intros H. destruct (join_args_shape _ _ _ _ H) as (d & -> & Hnd & Hk).
  split.
  - apply List.Forall_map, List.Forall_forall. intros kv _.
    apply format_arg_has_equals.
  - rewrite map_map.
    rewrite (map_ext_in (fun kv => token_param (format_arg kv)) fst);
      [exact Hnd|].
    intros kv Hin. apply token_param_format_arg.
    exact (proj1 (List.Forall_forall _ _) Hk kv Hin).
Qed.

Lemma join_args_distinct_parameters_witness :
  List.Forall (fun tok => PyStr.has_char "="%char tok = true)
              ["a=3"; "b=2"] /\
  List.NoDup (map token_param ["a=3"; "b=2"]).
Proof.
  apply (join_args_distinct_parameters
           "Name" ["a=1"; "b=2"] {[ "Name" := ["a=3"] ]}).
  reflexivity.
Defined.

(** X3: when the inline and configured tokens all have an ['='] and set
    pairwise different parameters, [join_args] returns them as they were
    given, inline tokens first. *)
Theorem join_args_distinct_unchanged
    (name : string) (args : list string)
    (config : gmap string (list string)) :
  List.Forall (fun tok => PyStr.has_char "="%char tok = true)
              (args ++ config_get config name) ->
  List.NoDup (map token_param (args ++ config_get config name)) ->
  join_args name args config = Return (args ++ config_get config name).
Proof.
  unfold join_args. generalize (args ++ config_get config name).
  intros toks Hall Hnd.
  assert (H : exists d, toks = map format_arg d /\
                        PyDict.keys d = map token_param toks /\
                        List.Forall
                          (fun kv => PyStr.has_char "="%char (fst kv) = false)
                          d).
  { clear Hnd. induction Hall as [|tok toks Htok _ IH].
    - exists []. repeat split. constructor.
    - destruct IH as (d & -> & Hkeys & Hd).
      destruct (token_is_formatted _ Htok) as (kv & -> & Hk & Hp).
      exists (kv :: d). cbn [map PyDict.keys]. rewrite Hp.
      unfold PyDict.keys in Hkeys. rewrite Hkeys.
      repeat split. constructor; assumption. }
  destruct H as (d & -> & Hkeys & Hd).
  rewrite (fill_temp_args_formatted d []); [reflexivity|assumption|].
  cbn [app]. rewrite Hkeys. exact Hnd.
Qed.

Lemma join_args_distinct_unchanged_witness :
  join_args "Name" ["b=2"; "a=x=y"] {[ "Name" := ["c=3"] ]}
  = Return (["b=2"; "a=x=y"] ++ config_get {[ "Name" := ["c=3"] ]} "Name").
Proof.
  apply (join_args_distinct_unchanged
           "Name" ["b=2"; "a=x=y"] {[ "Name" := ["c=3"] ]}).
  - repeat constructor.
  - vm_compute. repeat constructor; cbn; intuition discriminate.
Defined.

(** ** More on loading (lines 41-78) *)

Lemma split_nonempty (sep : ascii) (s : string) : PyStr.split sep s <> [].
Proof.
  destruct s as [|c s]; cbn; [discriminate|].
  destruct (Ascii.eqb c sep); [discriminate|].
  destruct (PyStr.split sep s); discriminate.
Qed.

Lemma split_no_sep (sep : ascii) (s : string) :
  PyStr.has_char sep s = false -> PyStr.split sep s = [s].
Proof.
  induction s as [|c s IH]; cbn; [reflexivity|]. intros H.
  apply orb_false_iff in H as [Hc Hs]. rewrite Hc, (IH Hs). reflexivity.
Qed.

(** Splitting distributes over a separator. *)
Lemma split_app_sep (sep : ascii) (a b : string) :
  PyStr.split sep (a +:+ String sep b) = PyStr.split sep a ++ PyStr.split sep b.
Proof.
  induction a as [|c a IH]; simpl.
  - rewrite Ascii.eqb_refl. reflexivity.
  - destruct (Ascii.eqb c sep); rewrite IH; [reflexivity|].
    pose proof (split_nonempty sep a) as Hne.
    destruct (PyStr.split sep a); [contradiction|reflexivity].
Qed.

Lemma last_item_split (sep : ascii) (a b : string) :
  PyStr.has_char sep b = false ->
  PyStr.last_item (PyStr.split sep (a +:+ String sep b)) = b.
Proof.
  intros Hb. unfold PyStr.last_item.
  rewrite split_app_sep, (split_no_sep _ _ Hb). apply List.last_last.
Qed.

Lemma fill_temp_args_raises (toks : list string) (d : PyDict.dict string)
    (e : exn) :
  fill_temp_args toks d = Raise e -> e = ValueError unpack_got_1.
Proof.
  revert d. induction toks as [|tok toks IH]; intros d H; [discriminate|].
  cbn [fill_temp_args] in H.
  destruct (split_maxsplit1_shape "="%char tok)
    as [[_ Hs]|(p & v & _ & _ & _ & Hs)]; rewrite Hs in H; cbn [unpack2] in H.
  - congruence.
  - eapply IH. exact H.
Qed.

Section MoreLoading.

Variable import_class_or_module : string -> list string -> import_result.
Variable find_similar : string -> list string -> string.

Abbreviation import_transformer :=
  (import_transformer import_class_or_module find_similar).
Abbreviation import_selected :=
  (import_selected import_class_or_module find_similar).
Abbreviation import_default :=
  (import_default import_class_or_module find_similar).
Abbreviation load_selected :=
  (load_selected import_class_or_module find_similar).
Abbreviation load_default :=
  (load_default import_class_or_module find_similar).
Abbreviation load_transformers :=
  (load_transformers import_class_or_module find_similar).
Abbreviation attempts := (attempts import_class_or_module find_similar).

Lemma load_selected_config_ext (config config' : gmap string (list string))
    (allowed : list (string * list string)) :
  List.Forall (fun item => config !! fst item = config' !! fst item) allowed ->
  forall acc t,
    load_selected config allowed acc t = load_selected config' allowed acc t.
Proof.
  intros H. induction H as [|item allowed Hitem _ IH]; intros acc t.
  - reflexivity.
  - cbn [Transformers.load_selected]. unfold bind.
    assert (Hi : import_selected config item t
                 = import_selected config' item t).
    { unfold Transformers.import_selected, join_args, config_get.
      rewrite Hitem. reflexivity. }
    rewrite Hi. destruct (import_selected config' item t) as [[[c|]|e] t'];
      try reflexivity.
    apply IH.
Qed.

Lemma load_default_config_ext (config config' : gmap string (list string))
    (allow_disabled : bool) (names : list string) :
  List.Forall (fun name => config !! name = config' !! name) names ->
  forall acc t,
    load_default config allow_disabled names acc t
    = load_default config' allow_disabled names acc t.
Proof.
  intros H. induction H as [|name names Hname _ IH]; intros acc t.
  - reflexivity.
  - cbn [Transformers.load_default]. unfold bind.
    assert (Hi : import_default config name t
                 = import_default config' name t).
    { unfold Transformers.import_default, config_get.
      rewrite Hname. reflexivity. }
    rewrite Hi. destruct (import_default config' name t) as [[[c|]|e] t'];
      try reflexivity.
    destruct (allow_disabled || getattr_ENABLED c); apply IH.
Qed.

(** X4: [load_transformers] looks at the configuration of the names it
    goes through and at nothing else: the selected names, or the catalog
    names without a selection. What is configured under any other name,
    a misspelt one included, changes neither the result nor the importer
    calls, and raises nothing. *)
Theorem load_transformers_ignores_other_config
    (allowed : option (list (string * list string)))
    (config config' : gmap string (list string)) (allow_disabled : bool)
    (t : trace) :
  (forall name,
     In name (match allowed with
              | Some ((_ :: _) as selection) => map fst selection
              | _ => TRANSFORMERS
              end) ->
     config !! name = config' !! name) ->
  load_transformers allowed config allow_disabled t
  = load_transformers allowed config' allow_disabled t.
Proof.
  intros H. unfold Transformers.load_transformers.
  destruct allowed as [[|item rest]|].
  - apply load_default_config_ext, List.Forall_forall. exact H.
  - apply load_selected_config_ext, List.Forall_forall.
    intros x Hx. apply H. apply in_map. exact Hx.
  - apply load_default_config_ext, List.Forall_forall. exact H.
Qed.

Lemma run_attempts_stops (keep : Transformer -> bool)
    (m : M (option Transformer)) (post : list (M (option Transformer))) :
  steady m ->
  (forall c, ~ resolves m c) ->
  forall pre acc t,
    run_attempts keep (pre ++ m :: post) acc t
    = run_attempts keep (pre ++ [m]) acc t.
Proof.
  intros Hs Hm pre. induction pre as [|m' pre IH]; intros acc t; cbn [app].
  - rewrite !run_attempts_cons. specialize (Hs t).
    destruct (m t) as [[[c|]|e] t']; cbn [fst] in Hs; try reflexivity.
    exfalso. apply (Hm c). unfold resolves. congruence.
  - rewrite !run_attempts_cons.
    destruct (m' t) as [[[c|]|e] t']; try reflexivity.
    destruct (keep c); apply IH.
Qed.

(** X5: what follows a selected transformer that does not resolve is never
    touched. The result and the whole trace, importer calls included, are
    those of the selection cut after that transformer. *)
Theorem load_transformers_stops_at_failure
    (before rest : list (string * list string)) (item : string * list string)
    (config : gmap string (list string)) (allow_disabled : bool)
    (t : trace) :
  (forall c, ~ resolves (import_selected config item) c) ->
  load_transformers (Some (before ++ item :: rest)) config allow_disabled t
  = load_transformers (Some (before ++ [item])) config allow_disabled t.
Proof.
  intros H.
  assert (Hsel : forall l, l <> [] ->
            load_transformers (Some l) config allow_disabled t
            = run_attempts (fun _ => true) (map (import_selected config) l)
                           [] t).
  { intros [|x l] Hl; [contradiction|]. apply load_selected_run. }
  rewrite !Hsel by (destruct before; discriminate).
  rewrite !map_app. cbn [map].
  apply run_attempts_stops; [apply import_selected_steady|exact H].
Qed.

Lemma import_selected_call (config : gmap string (list string))
    (item : string * list string) (c : Transformer) :
  resolves (import_selected config item) c ->
  exists args,
    join_args (fst item) (snd item) config = Return args /\
    forall t,
      import_selected config item t
      = (Return (Some c),
         t ++ [ImportCall (import_name_of (fst item)) args]).
Proof.
  unfold resolves, outcome_of, Transformers.import_selected, bind, lift.
  destruct (join_args (fst item) (snd item) config) as [args|e];
    [|discriminate].
  intros H. exists args. split; [reflexivity|]. intros t.
  rewrite import_transformer_run in H. cbn [fst] in H.
  rewrite import_transformer_run. rewrite H. reflexivity.
Qed.

Lemma load_selected_imports (config : gmap string (list string))
    (allowed : list (string * list string)) (cs : list Transformer) :
  List.Forall2 (fun item c => resolves (import_selected config item) c)
               allowed cs ->
  exists calls,
    List.Forall2
      (fun item call =>
         exists args, join_args (fst item) (snd item) config = Return args /\
                      call = (import_name_of (fst item), args))
      allowed calls /\
    forall acc t,
      imports_of (snd (load_selected config allowed acc t))
      = imports_of t ++ calls.
Proof.
  intros H. induction H as [|item c allowed cs Hc _ (calls & Hcalls & IH)].
  - exists []. split; [constructor|]. intros acc t. cbn.
    rewrite app_nil_r. reflexivity.
  - destruct (import_selected_call _ _ _ Hc) as (args & Hjoin & Hrun).
    exists ((import_name_of (fst item), args) :: calls). split.
    + constructor; [|exact Hcalls]. exists args. split; [assumption|reflexivity].
    + intros acc t. cbn [Transformers.load_selected]. unfold bind.
      rewrite Hrun, IH, imports_of_app. cbn [imports_of flat_map app].
      rewrite <- app_assoc. reflexivity.
Qed.

(** X6: with a selection that resolves, the importer is called once for
    each selected item, in the order of the selection, under the catalog
    module for a catalog name and under the name as given otherwise, with
    the merged arguments of that item. *)
Theorem load_transformers_selected_imports
    (item : string * list string) (rest : list (string * list string))
    (config : gmap string (list string)) (allow_disabled : bool)
    (cs : list Transformer) (t : trace) :
  List.Forall2 (fun item c => resolves (import_selected config item) c)
               (item :: rest) cs ->
  exists calls,
    imports_of (snd (load_transformers (Some (item :: rest)) config
                       allow_disabled t))
    = imports_of t ++ calls /\
    List.Forall2
      (fun item call =>
         exists args,
           join_args (fst item) (snd item) config = Return args /\
           call = (if decide (fst item ∈ TRANSFORMERS)
                   then "robotidy.transformers." +:+ fst item
                   else fst item, args))
      (item :: rest) calls.
Proof.
  intros H. destruct (load_selected_imports _ _ _ H) as (calls & Hcalls & Hi).
  exists calls. split; [apply Hi|exact Hcalls].
Qed.

Lemma run_attempts_raises (keep : Transformer -> bool)
    (ms : list (M (option Transformer))) (e : exn) :
  forall acc t,
    fst (run_attempts keep ms acc t) = Raise e ->
    exists m t', In m ms /\ fst (m t') = Raise e.
Proof.
  induction ms as [|m ms IH]; intros acc t H; [discriminate|].
  rewrite run_attempts_cons in H.
  destruct (m t) as [[[c|]|e'] t'] eqn:E.
  - assert (exists acc', fst (run_attempts keep ms acc' t') = Raise e)
      as [acc' H'] by (destruct (keep c); eauto).
    destruct (IH _ _ H') as (m0 & t0 & Hin & Hm). exists m0, t0.
    split; [right; assumption|assumption].
  - discriminate.
  - cbn [fst] in H. injection H as <-. exists m, t.
    split; [left; reflexivity|]. rewrite E. reflexivity.
Qed.

Lemma import_transformer_raises (name : string) (args : list string)
    (t : trace) (e : exn) :
  fst (import_transformer name args t) = Raise e ->
  (exists msg, e = DataError msg /\
               PyStr.contains instance_failed_marker msg = true) \/
  (exists msg, e = ImportTransformerError msg).
Proof.
  rewrite import_transformer_run. cbn [fst].
  destruct (import_class_or_module name args) as [c|err]; [discriminate|].
  destruct (PyStr.contains instance_failed_marker err) eqn:E;
    intros [= <-]; eauto.
Qed.

(** X7: the exceptions that leave [load_transformers] are the importer's
    [DataError] of a failed instantiation, the [ImportTransformerError] of
    a failed import, and the [ValueError] of unpacking a token without
    ['=']; the last one only with a selection, the configured tokens of a
    run over the catalog being handed to the importer as they are. *)
Theorem load_transformers_exceptions
    (allowed : option (list (string * list string)))
    (config : gmap string (list string)) (allow_disabled : bool)
    (t : trace) (e : exn) :
  fst (load_transformers allowed config allow_disabled t) = Raise e ->
  (exists msg, e = DataError msg /\
               PyStr.contains instance_failed_marker msg = true) \/
  (exists msg, e = ImportTransformerError msg) \/
  (e = ValueError unpack_got_1 /\
   exists item rest, allowed = Some (item :: rest)).
Proof.
  rewrite load_transformers_run. intros H.
  destruct (run_attempts_raises _ _ _ _ _ H) as (m & t' & Hin & Hm).
  assert (Hdefault :
            In m (map (import_default config) TRANSFORMERS) ->
            (exists msg, e = DataError msg /\
                         PyStr.contains instance_failed_marker msg = true) \/
            (exists msg, e = ImportTransformerError msg)).
  { intros Hd. apply in_map_iff in Hd as (name & <- & _).
    eapply import_transformer_raises. exact Hm. }
  destruct allowed as [[|item rest]|].
  - destruct (Hdefault Hin) as [Hd|Hd]; auto.
  - apply in_map_iff in Hin as (x & <- & _).
    unfold Transformers.import_selected, bind, lift in Hm.
    destruct (join_args (fst x) (snd x) config) as [args|e'] eqn:Hj.
    + destruct (import_transformer_raises _ _ _ _ Hm) as [Hd|Hd]; auto.
    + cbn [fst] in Hm. injection Hm as <-. right. right. split; [|eauto].
      unfold join_args in Hj.
      destruct (fill_temp_args _ _) as [d|e0] eqn:Hf; [discriminate|].
      injection Hj as <-. eapply fill_temp_args_raises. exact Hf.
  - destruct (Hdefault Hin) as [Hd|Hd]; auto.
Qed.

(** X8: when the import of a dotted name fails (and not in instantiation),
    the [ImportTransformerError] names the last component of the name
    only, and the recommendation is sought for that component among the
    catalog names. *)
Theorem import_error_names_last_component
    (package short : string) (args : list string) (err : string)
    (t : trace) :
  PyStr.has_char "."%char short = false ->
  import_class_or_module (package +:+ "." +:+ short) args
  = ImportDataError err ->
  PyStr.contains instance_failed_marker err = false ->
  import_transformer (package +:+ "." +:+ short) args t
  = (Raise (ImportTransformerError
              ("Importing transformer '" +:+ short +:+ "' failed. "
               +:+ "Verify if correct name or configuration was provided."
               +:+ find_similar short TRANSFORMERS)),
     t ++ [ImportCall (package +:+ "." +:+ short) args]).
Proof.
  intros Hshort Himport Hmarker. rewrite import_transformer_run.
  rewrite Himport, Hmarker.
  change (package +:+ "." +:+ short)
    with (package +:+ String "."%char short).
  rewrite (last_item_split _ _ _ Hshort). reflexivity.
Qed.

End MoreLoading.

Lemma load_transformers_ignores_other_config_witness :
  load_transformers Demo.importer Demo.find_similar
    (Some [("OrderSettings", ["a=1"])])
    {[ "OrderSetings" := ["linelength80"] ]} false []
  = load_transformers Demo.importer Demo.find_similar
      (Some [("OrderSettings", ["a=1"])]) ∅ false [].
Proof.
  apply (load_transformers_ignores_other_config
           Demo.importer Demo.find_similar
           (Some [("OrderSettings", ["a=1"])])
           {[ "OrderSetings" := ["linelength80"] ]} ∅ false []).
  intros name [<-|[]]. reflexivity.
Defined.

Lemma load_transformers_stops_at_failure_witness :
  load_transformers Demo.importer Demo.find_similar
    (Some ([("OrderSettings", [])] ++ ("Foo", [])
           :: [("SplitTooLongLine", ["linelength80"])])) ∅ false []
  = load_transformers Demo.importer Demo.find_similar
      (Some ([("OrderSettings", [])] ++ [("Foo", [])])) ∅ false [].
Proof.
  apply (load_transformers_stops_at_failure
           Demo.importer Demo.find_similar
           [("OrderSettings", [])] [("SplitTooLongLine", ["linelength80"])]
           ("Foo", []) ∅ false []).
  intros c H. vm_compute in H. discriminate.
Defined.

Lemma load_transformers_selected_imports_witness :
  exists calls,
    imports_of (snd (load_transformers Demo.importer Demo.find_similar
                       (Some [("OrderSettings", ["a=1"; "a=2"]);
                              ("robotidy.transformers.Custom", [])])
                       {[ "OrderSettings" := ["b=3"] ]} false []))
    = imports_of [] ++ calls /\
    List.Forall2
      (fun item call =>
         exists args,
           join_args (fst item) (snd item) {[ "OrderSettings" := ["b=3"] ]}
           = Return args /\
           call = (if decide (fst item ∈ TRANSFORMERS)
                   then "robotidy.transformers." +:+ fst item
                   else fst item, args))
      [("OrderSettings", ["a=1"; "a=2"]);
       ("robotidy.transformers.Custom", [])] calls.
Proof.
  apply (load_transformers_selected_imports
           Demo.importer Demo.find_similar
           ("OrderSettings", ["a=1"; "a=2"])
           [("robotidy.transformers.Custom", [])]
           {[ "OrderSettings" := ["b=3"] ]} false
           [Demo.transformer_named "OrderSettings";
            Demo.transformer_named "Custom"] []).
  repeat constructor.
Defined.

Lemma load_transformers_exceptions_witness :
  (exists msg, ImportTransformerError (import_failed_message "Foo" "")
               = DataError msg /\
               PyStr.contains instance_failed_marker msg = true) \/
  (exists msg, ImportTransformerError (import_failed_message "Foo" "")
               = ImportTransformerError msg) \/
  (ImportTransformerError (import_failed_message "Foo" "")
   = ValueError unpack_got_1 /\
   exists item rest, Some [("Foo", @nil string)] = Some (item :: rest)).
Proof.
  apply (load_transformers_exceptions
           Demo.importer Demo.find_similar (Some [("Foo", [])]) ∅ false []).
  reflexivity.
Defined.

Lemma import_error_names_last_component_witness :
  import_transformer Demo.importer Demo.find_similar
    ("my.package" +:+ "." +:+ "Order") [] []
  = (Raise (ImportTransformerError
              ("Importing transformer '" +:+ "Order" +:+ "' failed. "
               +:+ "Verify if correct name or configuration was provided."
               +:+ Demo.find_similar "Order" TRANSFORMERS)),
     [] ++ [ImportCall ("my.package" +:+ "." +:+ "Order") []]).
Proof.
  apply (import_error_names_last_component
           Demo.importer Demo.find_similar "my.package" "Order" []
           "Importing 'my.package.Order' failed: ModuleNotFoundError: No module named 'my.package.Order'"
           []).
  - reflexivity.
  - reflexivity.
  - reflexivity.
Defined.

(** ** More on the command line (lines 177-203 and 362-399) *)

Section MoreCommandLine.

Variable import_class_or_module : string -> list string -> import_result.
Variable find_similar : string -> list string -> string.
Variable remove_rst_formatting : option string -> outcome string.
Variable transform_files : cli_args -> M Z.

Abbreviation load_transformers :=
  (load_transformers import_class_or_module find_similar).
Abbreviation print_description :=
  (print_description import_class_or_module find_similar
                     remove_rst_formatting).
Abbreviation print_transformers_list :=
  (print_transformers_list import_class_or_module find_similar).
Abbreviation cli :=
  (cli import_class_or_module find_similar remove_rst_formatting
       transform_files).

(** X9: every loaded transformer can be described by its class name, the
    ones that are not enabled by default included, since the catalog is
    loaded with [allow_disabled]: [print_description] prints the name and
    the documentation of a loaded transformer of that class name and
    returns 0. *)
Theorem print_description_of_loaded
    (transformers : list Transformer) (c : Transformer) (t t1 : trace) :
  load_transformers None ∅ true t = (Return transformers, t1) ->
  In c transformers ->
  class_name c <> "all" ->
  (forall c', In c' transformers ->
              exists text, remove_rst_formatting (doc c') = Return text) ->
  exists c' text,
    In c' transformers /\ class_name c' = class_name c /\
    remove_rst_formatting (doc c') = Return text /\
    print_description (class_name c) t =
    (Return 0%Z,
     t1 ++ [Echo ("Transformer " +:+ class_name c +:+ ":"); Echo text]).
Proof.
  intros Hload Hin Hname Hdocs.
  destruct (comprehension_get_In class_name (fun c => c) _ _ Hin)
    as (c' & Hc' & Hk & Hget).
  destruct (Hdocs c' Hc') as [text Htext].
  exists c', text. repeat split; try assumption.
  unfold Cli.print_description, bind. rewrite Hload.
  apply String.eqb_neq in Hname. rewrite Hname, Hget.
  unfold echo, emit, lift, ret. rewrite Htext, <- app_assoc. reflexivity.
Qed.

(** X10: when [print_description] returns, it returns 0 or 1, and 1 exactly
    for a name that is neither ['all'] nor the class name of a loaded
    transformer. *)
Theorem print_description_code
    (name : string) (transformers : list Transformer) (t t1 t' : trace)
    (code : Z) :
  load_transformers None ∅ true t = (Return transformers, t1) ->
  print_description name t = (Return code, t') ->
  (code = 0%Z /\ (name = "all" \/ In name (map class_name transformers))) \/
  (code = 1%Z /\ name <> "all" /\ ~ In name (map class_name transformers)).
Proof.
  intros Hload. unfold Cli.print_description, bind. rewrite Hload.
  destruct (String.eqb name "all") eqn:Hall.
  - apply String.eqb_eq in Hall.
    destruct (describe_each _ _ _) as [[[]|e] t2]; [|discriminate].
    intros [= <- _]. left. auto.
  - apply String.eqb_neq in Hall.
    destruct (PyDict.get _ name) as [c|] eqn:Hget.
    + unfold echo, emit, lift, ret.
      destruct (remove_rst_formatting (doc c)); [|discriminate].
      intros [= <- _]. left. split; [reflexivity|]. right.
      destruct (in_dec string_dec name (map class_name transformers))
        as [Hin|Hnin]; [assumption|].
      apply (comprehension_get_None class_name (fun c => c)) in Hnin.
      congruence.
    + intros [= <- _]. right. repeat split; [assumption|].
      apply comprehension_get_None in Hget. exact Hget.
Qed.

Lemma list_each_run (transformers : list Transformer) (t : trace) :
  list_each transformers t =
  (Return tt,
   t ++ map (fun c => Echo (class_name c
                            +:+ (if negb (getattr_ENABLED c)
                                 then " (disabled)" else "")))
            transformers).
Proof.
  revert t. induction transformers as [|c cs IH]; intros t.
  - cbn. rewrite app_nil_r. reflexivity.
  - cbn [list_each map]. unfold bind, echo, emit. rewrite IH.
    rewrite <- app_assoc. reflexivity.
Qed.

(** X11: with [--list] (and no deprecated flag), once the catalog is
    loaded, [cli] prints the header and then one line for each loaded
    transformer, in the order they were loaded, the class name followed
    by [ (disabled)] exactly when [ENABLED] is false, and exits with
    status 0, whatever else was passed. *)
Theorem cli_list
    (a : cli_args) (transformers : list Transformer) (t t1 : trace) :
  list_transformers a = false ->
  truthy (describe_transformer a) = false ->
  list_flag a = true ->
  load_transformers None ∅ true t = (Return transformers, t1) ->
  cli a t =
  (Raise (Exit 0),
   t1 ++ Echo list_header
      :: map (fun c => Echo (class_name c
                             +:+ (if negb (getattr_ENABLED c)
                                  then " (disabled)" else "")))
             transformers).
Proof.
  intros H1 H2 H3 Hload. unfold Cli.cli, when, bind. rewrite H1, H2, H3.
  unfold ret at 1 2. cbv beta iota.
  unfold Cli.print_transformers_list, bind. rewrite Hload.
  unfold echo, emit. rewrite list_each_run. cbv beta iota.
  unfold ctx_exit, raise. rewrite <- app_assoc. reflexivity.
Qed.

(** X12: [cli] never returns normally: every run ends in an exception,
    [ctx.exit] or one that came from below. *)
Theorem cli_always_raises (a : cli_args) (t : trace) :
  exists e t', cli a t = (Raise e, t').
Proof.
  unfold Cli.cli, when, bind, ctx_exit, raise, echo, emit, ret.
  destruct (list_transformers a); [eauto|].
  destruct (truthy (describe_transformer a)); [eauto|].
  destruct (list_flag a).
  { destruct (print_transformers_list t) as [[[]|e] t']; eauto. }
  destruct (desc a) as [name|].
  { destruct (print_description name t) as [[code|e] t']; eauto. }
  destruct (src a); [eauto|].
  destruct (truthy (config a) && verbose a);
    match goal with
    | |- context [transform_files a ?t0] =>
        destruct (transform_files a t0) as [[status|e] t']; eauto
    end.
Qed.

(** X13: a deprecated flag ends the run at once: [cli] prints the
    deprecation notice, [--list-transformers] going first, and exits with
    status 0, without listing, describing or transforming anything. *)
Theorem cli_deprecated_flags (a : cli_args) (t : trace) :
  list_transformers a = true \/ truthy (describe_transformer a) = true ->
  cli a t =
  (Raise (Exit 0),
   t ++ [Echo (if list_transformers a
               then "--list-transformers is deprecated in 1.3.0. "
                    +:+ "Use --list instead"
               else "--describe-transformer is deprecated in 1.3.0. "
                    +:+ "Use --desc NAME instead")]).
Proof.
  intros H. unfold Cli.cli, when, bind.
  destruct (list_transformers a); [reflexivity|].
  destruct H as [H|H]; [discriminate|]. rewrite H. reflexivity.
Qed.

(** X14: with source paths and none of the flags tested before, [cli]
    hands everything to the application and exits with the status
    [transform_files] returns; an exception of [transform_files] leaves
    [cli] unchanged. The line about the configuration file is printed
    first exactly when [config] and [verbose] are both set. *)
Theorem cli_exit_status
    (a : cli_args) (t t' : trace) (result : outcome Z) :
  list_transformers a = false ->
  truthy (describe_transformer a) = false ->
  list_flag a = false ->
  desc a = None ->
  src a <> [] ->
  transform_files a
    (if truthy (config a) && verbose a
     then t ++ [Echo ("Loaded " +:+ default "" (config a)
                      +:+ " configuration file")]
     else t) = (result, t') ->
  cli a t =
  (match result with
   | Return status => Raise (Exit status)
   | Raise e => Raise e
   end, t').
Proof.
  intros H1 H2 H3 H4 H5 Hrun. unfold Cli.cli, when, bind.
  rewrite H1, H2, H3, H4. destruct (src a); [contradiction|].
  unfold ret at 1 2 3 4 5. cbv beta iota.
  destruct (truthy (config a) && verbose a); unfold echo, emit, ret;
    cbv beta iota; rewrite Hrun; destruct result; reflexivity.
Qed.

End MoreCommandLine.

Lemma print_description_of_loaded_witness :
  exists c' text,
    In c' Demo.catalog /\
    class_name c' = class_name (Demo.transformer_named "SmartSortKeywords") /\
    Demo.remove_rst_formatting (doc c') = Return text /\
    print_description Demo.importer Demo.find_similar
      Demo.remove_rst_formatting
      (class_name (Demo.transformer_named "SmartSortKeywords")) []
    = (Return 0%Z,
       map (fun name => ImportCall ("robotidy.transformers." +:+ name) [])
           TRANSFORMERS
       ++ [Echo ("Transformer "
                 +:+ class_name (Demo.transformer_named "SmartSortKeywords")
                 +:+ ":"); Echo text]).
Proof.
  apply (print_description_of_loaded
           Demo.importer Demo.find_similar Demo.remove_rst_formatting
           Demo.catalog (Demo.transformer_named "SmartSortKeywords") []).
  - reflexivity.
  - vm_compute. tauto.
  - discriminate.
  - intros c' Hc'. apply in_map_iff in Hc' as (name & <- & _).
    eexists. reflexivity.
Defined.

Lemma print_description_code_witness :
  (1%Z = 0%Z /\
   ("Foo" = "all" \/ In "Foo" (map class_name Demo.catalog))) \/
  (1%Z = 1%Z /\ "Foo" <> "all" /\ ~ In "Foo" (map class_name Demo.catalog)).
Proof.
  apply (print_description_code
           Demo.importer Demo.find_similar Demo.remove_rst_formatting
           "Foo" Demo.catalog []
           (map (fun name => ImportCall ("robotidy.transformers." +:+ name) [])
                TRANSFORMERS)
           (map (fun name => ImportCall ("robotidy.transformers." +:+ name) [])
                TRANSFORMERS
            ++ [Echo "Transformer with the name 'Foo' does not exist."])).
  - reflexivity.
  - reflexivity.
Defined.

Lemma cli_list_witness :
  cli Demo.importer Demo.find_similar Demo.remove_rst_formatting
      Demo.transform_files Demo.list_args []
  = (Raise (Exit 0),
     map (fun name => ImportCall ("robotidy.transformers." +:+ name) [])
         TRANSFORMERS
     ++ Echo list_header
        :: map (fun c => Echo (class_name c
                               +:+ (if negb (getattr_ENABLED c)
                                    then " (disabled)" else "")))
               Demo.catalog).
Proof.
  apply (cli_list Demo.importer Demo.find_similar Demo.remove_rst_formatting
           Demo.transform_files Demo.list_args Demo.catalog []);
    reflexivity.
Defined.

Lemma cli_deprecated_flags_witness :
  cli Demo.importer Demo.find_similar Demo.remove_rst_formatting
      Demo.transform_files Demo.deprecated_args []
  = (Raise (Exit 0),
     [] ++ [Echo (if list_transformers Demo.deprecated_args
                  then "--list-transformers is deprecated in 1.3.0. "
                       +:+ "Use --list instead"
                  else "--describe-transformer is deprecated in 1.3.0. "
                       +:+ "Use --desc NAME instead")]).
Proof.
  apply (cli_deprecated_flags
           Demo.importer Demo.find_similar Demo.remove_rst_formatting
           Demo.transform_files Demo.deprecated_args []).
  right. reflexivity.
Defined.

Lemma cli_exit_status_witness :
  cli Demo.importer Demo.find_similar Demo.remove_rst_formatting
      Demo.transform_files Demo.check_args []
  = (Raise (Exit 1),
     [ImportCall "robotidy.transformers.OrderSettings" []]).
Proof.
  apply (cli_exit_status
           Demo.importer Demo.find_similar Demo.remove_rst_formatting
           Demo.transform_files Demo.check_args []
           [ImportCall "robotidy.transformers.OrderSettings" []]
           (Return 1%Z)); try reflexivity.
  discriminate.
Defined.

(** ** More on configuration files (lines 120-174) *)

(** X15: normalising a key twice is normalising it once. *)
Theorem normalize_key_idempotent (k : string) :
  normalize_key (normalize_key k) = normalize_key k.
Proof.
  pose proof (normalize_key_no_dash k) as H.
  rewrite normalize_key_single_dashes.
  - apply spec_dashes_to_underscores_fixed. exact H.
  - apply contains_needs_first_char. exact H.
Qed.

Lemma find_app_first {A} (p : A -> bool) (l1 l2 : list A) :
  find p (l1 ++ l2) =
  match find p l1 with
  | Some y => Some y
  | None => find p l2
  end.
Proof.
  induction l1 as [|y l1 IH]; cbn; [reflexivity|].
  destruct (p y); [reflexivity|exact IH].
Qed.

Lemma dict_set_nonempty {V} (d : PyDict.dict V) (k : string) (v : V) :
  PyDict.set d k v <> [].
Proof.
  destruct d as [|[k' v'] d]; cbn; [discriminate|].
  destruct (String.eqb k' k); discriminate.
Qed.

Lemma fold_set_nonempty {X V} (key : X -> string) (val : X -> V)
    (xs : list X) (d : PyDict.dict V) :
  d <> [] ->
  fold_left (fun d x => PyDict.set d (key x) (val x)) xs d <> [].
Proof.
  revert d. induction xs as [|x xs IH]; intros d Hd; [exact Hd|].
  cbn [fold_left]. apply IH, dict_set_nonempty.
Qed.

(** X16: when several keys of a file normalise to the same key, the
    entry written last gives the value, and the normalised mapping holds
    every key once. *)
Theorem normalize_keys_last_wins
    (before after : list (string * toml)) (k : string) (v : toml) :
  List.Forall (fun kv => normalize_key (fst kv) <> normalize_key k) after ->
  PyDict.get (normalize_keys (before ++ (k, v) :: after)) (normalize_key k)
  = Some v /\
  List.NoDup (PyDict.keys (normalize_keys (before ++ (k, v) :: after))).
Proof.
  intros Hafter. unfold normalize_keys, PyDict.comprehension. split.
  - rewrite fold_set_get, rev_app_distr. cbn [rev].
    rewrite <- app_assoc, find_app_first.
    destruct (find _ (rev after)) as [kv|] eqn:E.
    + apply find_some in E as [Hin Hk]. apply in_rev in Hin.
      apply String.eqb_eq in Hk.
      exfalso. exact (proj1 (List.Forall_forall _ _) Hafter kv Hin Hk).
    + cbn [app find fst snd]. rewrite String.eqb_refl. reflexivity.
  - apply fold_set_NoDup. constructor.
Qed.

Lemma normalize_keys_last_wins_witness :
  PyDict.get (normalize_keys ([("line-length", TInteger 120)]
                              ++ ("line_length", TInteger 80)
                              :: [("start-line", TInteger 1)]))
             (normalize_key "line_length")
  = Some (TInteger 80) /\
  List.NoDup
    (PyDict.keys (normalize_keys ([("line-length", TInteger 120)]
                                  ++ ("line_length", TInteger 80)
                                  :: [("start-line", TInteger 1)]))).
Proof.
  apply (normalize_keys_last_wins
           [("line-length", TInteger 120)] [("start-line", TInteger 1)]
           "line_length" (TInteger 80)).
  repeat constructor. vm_compute. discriminate.
Defined.

(** A dictionary that holds each key once is updated key by key. *)
Lemma update_get {V} (other d : PyDict.dict V) (k : string) :
  List.NoDup (PyDict.keys other) ->
  PyDict.get (CliConfig.update d other) k =
  match PyDict.get other k with
  | Some v => Some v
  | None => PyDict.get d k
  end.
Proof.
  unfold CliConfig.update. revert d.
  induction other as [|[k1 v1] other IH]; intros d Hnd; [reflexivity|].
  cbn [fold_left fst snd PyDict.get]. cbn in Hnd.
  apply List.NoDup_cons_iff in Hnd as [Hk1 Hnd]. rewrite (IH _ Hnd).
  destruct (String.eqb k1 k) eqn:E.
  - apply String.eqb_eq in E. subst k1.
    apply dict_get_None_keys in Hk1. rewrite Hk1. apply dict_get_set_eq.
  - apply String.eqb_neq in E. rewrite dict_get_set_ne by exact E.
    reflexivity.
Qed.

Lemma fold_set_fresh {V W} (f : V -> W) (d : PyDict.dict V)
    (acc : PyDict.dict W) :
  List.NoDup (PyDict.keys acc ++ PyDict.keys d) ->
  fold_left (fun acc kv => PyDict.set acc (fst kv) (f (snd kv))) d acc
  = acc ++ map (fun kv => (fst kv, f (snd kv))) d.
Proof.
  revert acc. induction d as [|[k v] d IH]; intros acc Hnd.
  - cbn. rewrite app_nil_r. reflexivity.
  - cbn [fold_left fst snd map]. cbn [PyDict.keys map fst] in Hnd.
    rewrite dict_set_fresh.
    + rewrite IH; [rewrite <- app_assoc; reflexivity|].
      unfold PyDict.keys. rewrite map_app, <- app_assoc. exact Hnd.
    + apply NoDup_ListNoDup, NoDup_app in Hnd as (_ & Hdisj & _).
      intros Hin. apply (Hdisj k); [apply list_elem_of_In; exact Hin|].
      apply list_elem_of_In. left. reflexivity.
Qed.

Lemma dict_get_map {V W} (f : V -> W) (d : PyDict.dict V) (k : string) :
  PyDict.get (map (fun kv => (fst kv, f (snd kv))) d) k
  = option_map f (PyDict.get d k).
Proof.
  induction d as [|[k' v'] d IH]; cbn; [reflexivity|].
  destruct (String.eqb k' k); [reflexivity|exact IH].
Qed.

Section MoreConfigFiles.

Variable resolve : string -> PyPath.path.
Variable is_dir : PyPath.path -> bool.
Variable exists_ : PyPath.path -> bool.
Variable is_file : PyPath.path -> bool.
Variable toml_load : string -> outcome toml.

Abbreviation read_pyproject_config := (read_pyproject_config toml_load).
Abbreviation read_robotidy_config := (read_robotidy_config toml_load).
Abbreviation find_project_root :=
  (CliConfig.find_project_root resolve is_dir exists_ is_file).
Abbreviation read_config :=
  (CliConfig.read_config resolve is_dir exists_ is_file toml_load).

(** X17: a [pyproject.toml] without a [tool] table, or whose [tool] table
    has no [robotidy] entry, gives the empty configuration, after the two
    lines about reading and loading the file. *)
Theorem read_pyproject_config_without_section
    (path : string) (top : list (string * toml)) (t : trace) :
  toml_load path = Return (TTable top) ->
  PyDict.get top "tool" = None \/
  (exists tool, PyDict.get top "tool" = Some (TTable tool) /\
                PyDict.get tool "robotidy" = None) ->
  read_pyproject_config path t =
  (Return [],
   t ++ [Echo "Reading pyproject.toml";
         Echo ("Loaded configuration from " +:+ path)]).
Proof.
  intros Hload [Htool|(tool & Htool & Hsection)].
  - apply (read_pyproject_config_run toml_load path (TTable top)
             (TTable []) []); [assumption| |reflexivity].
    cbn [get_or_empty]. rewrite Htool. reflexivity.
  - apply (read_pyproject_config_run toml_load path (TTable top)
             (TTable tool) []); [assumption| |].
    + cbn [get_or_empty]. rewrite Htool. reflexivity.
    + cbn [get_or_empty]. rewrite Hsection. reflexivity.
Qed.

(** X18: a [pyproject.toml] whose [tool] entry, or whose [tool.robotidy]
    entry, is not a table makes [read_pyproject_config] fail with the
    [AttributeError] of calling [get], respectively [items], on that
    value, after the two lines about reading and loading the file. *)
Theorem read_pyproject_config_not_a_table
    (path : string) (top : list (string * toml)) (v : toml) (attr : string)
    (t : trace) :
  toml_load path = Return (TTable top) ->
  (forall entries, v <> TTable entries) ->
  (PyDict.get top "tool" = Some v /\ attr = "get") \/
  (exists tool, PyDict.get top "tool" = Some (TTable tool) /\
                PyDict.get tool "robotidy" = Some v /\ attr = "items") ->
  read_pyproject_config path t =
  (Raise (AttributeError
            ("'" +:+ type_name v +:+ "' object has no attribute '"
             +:+ attr +:+ "'")),
   t ++ [Echo "Reading pyproject.toml";
         Echo ("Loaded configuration from " +:+ path)]).
Proof.
  intros Hload Hv H.
  unfold Cli.read_pyproject_config, load_toml_file, bind, echo, emit, lift,
    ret.
  rewrite Hload. cbn [get_or_empty].
  destruct H as [[Htool ->]|(tool & Htool & Hsection & ->)]; rewrite Htool;
    cbn [default from_option id get_or_empty].
  - rewrite <- app_assoc.
    destruct v; try reflexivity. exfalso. eapply Hv. reflexivity.
  - rewrite Hsection. cbn [default from_option id]. rewrite <- app_assoc.
    destruct v; try reflexivity. exfalso. eapply Hv. reflexivity.
Qed.

(** X19: a file that cannot be read or parsed makes both readers fail with
    a [FileError] that carries the path and the cause; the line
    [Loaded configuration from ...] is not printed. *)
Theorem config_file_error (path msg : string) (t : trace) :
  toml_load path = Raise (TomlDecodeError msg) \/
  toml_load path = Raise (OSError msg) ->
  read_robotidy_config path t =
  (Raise (FileError path ("Error reading configuration file: " +:+ msg)), t)
  /\
  read_pyproject_config path t =
  (Raise (FileError path ("Error reading configuration file: " +:+ msg)),
   t ++ [Echo "Reading pyproject.toml"]).
Proof.
  intros H.
  unfold Cli.read_robotidy_config, Cli.read_pyproject_config, load_toml_file,
    bind, echo, emit, raise.
  destruct H as [-> | ->]; split; reflexivity.
Qed.

(** X20: with [--config path] and a file that has entries, [read_config]
    installs a default map in which every normalised key of the file
    has the value of the file ([str(v)] unless [v] is a list or a table),
    overriding the default the context had for that key, and every other
    key keeps the default the context had. *)
Theorem read_config_overrides_defaults
    (ctx : CliConfig.context) (path : string)
    (entries : list (string * toml)) (t : trace) :
  path <> "" ->
  toml_load path = Return (TTable entries) ->
  entries <> [] ->
  List.NoDup (PyDict.keys (default [] (CliConfig.default_map ctx))) ->
  exists default_map,
    read_config ctx (Some path) t =
    (Return {| CliConfig.params_src := CliConfig.params_src ctx;
               CliConfig.default_map := Some default_map |},
     t ++ [Echo ("Loaded configuration from " +:+ path)]) /\
    forall k,
      PyDict.get default_map k =
      match PyDict.get (normalize_keys entries) k with
      | Some v => Some (CliConfig.sanitize v)
      | None => PyDict.get (default [] (CliConfig.default_map ctx)) k
      end.
Proof.
  intros Hpath Hload Hentries Hold.
  assert (Hnd : List.NoDup (PyDict.keys (normalize_keys entries))).
  { apply fold_set_NoDup. constructor. }
  assert (Hne : normalize_keys entries <> []).
  { unfold normalize_keys, PyDict.comprehension.
    destruct entries as [|kv entries]; [contradiction|].
    cbn [fold_left]. apply fold_set_nonempty, dict_set_nonempty. }
  unfold CliConfig.read_config, bind.
  assert (Htruthy : truthy (Some path) = true)
    by (destruct path; [contradiction|reflexivity]).
  rewrite Htruthy. cbn [default from_option id].
  rewrite (read_robotidy_config_run toml_load path entries t Hload).
  destruct (normalize_keys entries) as [|kv0 config0] eqn:Hconfig;
    [contradiction|].
  rewrite <- Hconfig in *. clear Hconfig kv0 config0.
  eexists. split; [reflexivity|]. intros k.
  assert (Hc : PyDict.comprehension fst
                 (fun kv => CliConfig.sanitize (snd kv))
                 (normalize_keys entries)
               = map (fun kv => (fst kv, CliConfig.sanitize (snd kv)))
                     (normalize_keys entries)).
  { unfold PyDict.comprehension.
    rewrite (fold_set_fresh CliConfig.sanitize _ []); [reflexivity|].
    exact Hnd. }
  rewrite Hc, update_get.
  2:{ unfold PyDict.keys. rewrite map_map. exact Hnd. }
  rewrite dict_get_map.
  destruct (PyDict.get (normalize_keys entries) k); [reflexivity|].
  cbn [option_map].
  destruct (CliConfig.default_map ctx) as [[|kv old]|]; try reflexivity.
  cbn [default from_option id] in *. rewrite (update_get _ [] k Hold).
  destruct (PyDict.get (kv :: old) k); reflexivity.
Qed.

(** X21: when the project root holds neither [robotidy.toml] nor
    [pyproject.toml] and no [--config] is given, [read_config] reads
    nothing, prints nothing and leaves the context as it was. *)
Theorem read_config_without_file
    (ctx : CliConfig.context) (project_root : PyPath.path) (t : trace) :
  find_project_root (default [] (CliConfig.params_src ctx))
  = Return project_root ->
  is_file (PyPath.child project_root "robotidy.toml") = false ->
  is_file (PyPath.child project_root "pyproject.toml") = false ->
  read_config ctx None t = (Return ctx, t).
Proof.
  intros Hroot H1 H2.
  unfold CliConfig.read_config, CliConfig.find_and_read_config, bind, lift.
  cbn [truthy]. rewrite Hroot, H1, H2. reflexivity.
Qed.

End MoreConfigFiles.

Lemma read_pyproject_config_without_section_witness :
  read_pyproject_config Demo.toml_load "pyproject.toml" []
  = (Return [],
     [] ++ [Echo "Reading pyproject.toml";
            Echo ("Loaded configuration from " +:+ "pyproject.toml")]).
Proof.
  apply (read_pyproject_config_without_section
           Demo.toml_load "pyproject.toml" [("build-system", TTable [])] []).
  - reflexivity.
  - left. reflexivity.
Defined.

Lemma read_pyproject_config_not_a_table_witness :
  read_pyproject_config Demo.toml_load "scalar.toml" []
  = (Raise (AttributeError
              ("'" +:+ type_name (TString "strict")
               +:+ "' object has no attribute '" +:+ "items" +:+ "'")),
     [] ++ [Echo "Reading pyproject.toml";
            Echo ("Loaded configuration from " +:+ "scalar.toml")]).
Proof.
  apply (read_pyproject_config_not_a_table
           Demo.toml_load "scalar.toml"
           [("tool", TTable [("robotidy", TString "strict")])]
           (TString "strict") "items" []).
  - reflexivity.
  - discriminate.
  - right. exists [("robotidy", TString "strict")].
    repeat split; reflexivity.
Defined.

Lemma config_file_error_witness :
  read_robotidy_config Demo.toml_load "broken.toml" []
  = (Raise (FileError "broken.toml"
              ("Error reading configuration file: "
               +:+ "Invalid statement (line 1 column 1 char 0)")), [])
  /\
  read_pyproject_config Demo.toml_load "broken.toml" []
  = (Raise (FileError "broken.toml"
              ("Error reading configuration file: "
               +:+ "Invalid statement (line 1 column 1 char 0)")),
     [] ++ [Echo "Reading pyproject.toml"]).
Proof.
  apply (config_file_error Demo.toml_load "broken.toml"
           "Invalid statement (line 1 column 1 char 0)" []).
  left. reflexivity.
Defined.

Lemma read_config_overrides_defaults_witness :
  exists default_map,
    CliConfig.read_config Demo.resolve Demo.is_dir Demo.exists_ Demo.is_file
      Demo.toml_load Demo.context (Some "robotidy.toml") []
    = (Return {| CliConfig.params_src := CliConfig.params_src Demo.context;
                 CliConfig.default_map := Some default_map |},
       [] ++ [Echo ("Loaded configuration from " +:+ "robotidy.toml")]) /\
    forall k,
      PyDict.get default_map k =
      match PyDict.get
              (normalize_keys
                 [("line-length", TInteger 120);
                  ("transform", TArray [TString "OrderSettings"]);
                  ("overwrite", TBoolean false)]) k with
      | Some v => Some (CliConfig.sanitize v)
      | None =>
          PyDict.get (default [] (CliConfig.default_map Demo.context)) k
      end.
Proof.
  apply (read_config_overrides_defaults
           Demo.resolve Demo.is_dir Demo.exists_ Demo.is_file Demo.toml_load
           Demo.context "robotidy.toml"
           [("line-length", TInteger 120);
            ("transform", TArray [TString "OrderSettings"]);
            ("overwrite", TBoolean false)] []).
  - discriminate.
  - reflexivity.
  - discriminate.
  - vm_compute. repeat constructor; cbn; intuition discriminate.
Defined.

(** What the sample run installs: the file's values as strings (or
    lists), the old default for [verbose] kept, [line_length] in its old
    place with the new value. *)
Example read_config_sample :
  fst (CliConfig.read_config Demo.resolve Demo.is_dir Demo.exists_
         Demo.is_file Demo.toml_load Demo.context (Some "robotidy.toml") [])
  = Return {| CliConfig.params_src := Some ["a.robot"; "tests"];
              CliConfig.default_map :=
                Some [("line_length", TString "120");
                      ("verbose", TString "True");
                      ("transform", TArray [TString "OrderSettings"]);
                      ("overwrite", TString "False")] |}.
Proof. reflexivity. Qed.

Lemma read_config_without_file_witness :
  CliConfig.read_config Demo.resolve Demo.is_dir Demo.exists_ Demo.is_file
    Demo.toml_load Demo.context None []
  = (Return Demo.context, []).
Proof.
  apply (read_config_without_file
           Demo.resolve Demo.is_dir Demo.exists_ Demo.is_file Demo.toml_load
           Demo.context ["proj"] []); reflexivity.
Defined.

(** ** The project root (lines 84-117) *)

Lemma prefixes_spec (p : PyPath.path) :
  exists l,
    PyPath.prefixes p = l ++ [p] /\
    (forall q, In q l <-> exists rest, p = q ++ rest /\ rest <> []) /\
    ((p = [] /\ l = []) \/ exists l', l = [] :: l').
Proof.
  induction p as [|x p (l & Hl & Hin & _)].
  - exists []. split; [reflexivity|]. split; [|left; auto].
    intros q. split; [intros []|].
    intros (rest & H & Hrest). symmetry in H.
    apply app_eq_nil in H as [_ H]. contradiction.
  - exists ([] :: map (cons x) l). cbn [PyPath.prefixes]. rewrite Hl.
    rewrite map_app. split; [reflexivity|]. split; [|right; eauto].
    intros q. split.
    + intros [<-|H].
      * exists (x :: p). split; [reflexivity|discriminate].
      * apply in_map_iff in H as (q' & <- & H). apply Hin in H.
        destruct H as (rest & -> & Hrest). exists rest. auto.
    + intros (rest & H & Hrest). destruct q as [|y q]; [left; reflexivity|].
      right. cbn in H. injection H as <- ->. apply in_map, Hin. eauto.
Qed.

Lemma parents_spec (p q : PyPath.path) :
  In q (PyPath.parents p) <-> exists rest, p = q ++ rest /\ rest <> [].
Proof.
  unfold PyPath.parents. destruct (prefixes_spec p) as (l & -> & Hin & _).
  rewrite removelast_last, <- in_rev. apply Hin.
Qed.

Lemma parents_last (p d : PyPath.path) :
  List.last (p :: PyPath.parents p) d = PyPath.root.
Proof.
  unfold PyPath.parents.
  destruct (prefixes_spec p) as (l & -> & _ & [[-> ->]|[l' ->]]);
    rewrite removelast_last; [reflexivity|].
  cbn [rev]. rewrite app_comm_cons. apply List.last_last.
Qed.

Lemma is_prefix_trans (a b c : PyPath.path) :
  PyPath.is_prefix a b -> PyPath.is_prefix b c -> PyPath.is_prefix a c.
Proof.
  intros [r1 ->] [r2 ->]. exists (r1 ++ r2). apply eq_sym, app_assoc.
Qed.

Lemma is_prefix_self_or_parent (q p : PyPath.path) :
  In q (p :: PyPath.parents p) <-> PyPath.is_prefix q p.
Proof.
  cbn [In]. rewrite parents_spec. split.
  - intros [<-|(rest & -> & _)].
    + exists []. rewrite app_nil_r. reflexivity.
    + exists rest. reflexivity.
  - intros [rest ->]. destruct rest as [|x rest].
    + left. rewrite app_nil_r. reflexivity.
    + right. exists (x :: rest). split; [reflexivity|discriminate].
Qed.

Lemma fold_choose_In {A} (better : A -> A -> bool) (others : list A)
    (first : A) :
  In (fold_left (fun best p => if better best p then p else best)
                others first)
     (first :: others).
Proof.
  revert first. induction others as [|x others IH]; intros first.
  - left. reflexivity.
  - cbn [fold_left]. destruct (better first x).
    + right. apply IH.
    + destruct (IH first) as [H|H]; [left; exact H|right; right; exact H].
Qed.

Lemma max_by_parts_In (paths : list PyPath.path) (x : PyPath.path) :
  PyPath.max_by_parts paths = Return x -> In x paths.
Proof.
  destruct paths as [|first others]; [discriminate|].
  intros [= <-]. apply fold_choose_In.
Qed.

Lemma intersection_spec (first : list PyPath.path)
    (others : list (list PyPath.path)) (q : PyPath.path) :
  In q (PyPath.intersection (first :: others)) <->
  forall s, In s (first :: others) -> In q s.
Proof.
  cbn [PyPath.intersection]. rewrite filter_In, forallb_forall. split.
  - intros [Hq H] s [<-|Hs]; [exact Hq|].
    apply list_elem_of_In. eapply bool_decide_eq_true_1. apply H. exact Hs.
  - intros H. split; [apply H; left; reflexivity|]. intros s Hs.
    apply bool_decide_eq_true_2, list_elem_of_In. apply H. right. exact Hs.
Qed.

Section ProjectRoot.

Variable resolve : string -> PyPath.path.
Variable is_dir : PyPath.path -> bool.
Variable exists_ : PyPath.path -> bool.
Variable is_file : PyPath.path -> bool.

Abbreviation first_marked := (CliConfig.first_marked exists_ is_file).
Abbreviation find_project_root :=
  (CliConfig.find_project_root resolve is_dir exists_ is_file).

Abbreviation marked := (CliConfig.marked exists_ is_file).
Abbreviation parents_of_src := (CliConfig.parents_of_src is_dir).

Lemma parents_of_src_prefix (p q : PyPath.path) :
  In q (parents_of_src p) -> PyPath.is_prefix q p.
Proof.
  unfold CliConfig.parents_of_src. intros H. apply in_app_iff in H as [H|H].
  - apply parents_spec in H as (rest & -> & _). exists rest. reflexivity.
  - destruct (is_dir p); [|destruct H].
    destruct H as [<-|[]]. exists []. rewrite app_nil_r. reflexivity.
Qed.

Lemma first_marked_spec (directories : list PyPath.path)
    (directory : PyPath.path) :
  (marked (first_marked directories directory) /\
   In (first_marked directories directory) directories) \/
  first_marked directories directory = List.last directories directory.
Proof.
  revert directory. induction directories as [|d rest IH]; intros d0.
  - right. reflexivity.
  - cbn [CliConfig.first_marked]. unfold CliConfig.marked.
    destruct (exists_ (PyPath.child d ".git")) eqn:E1;
      [left; split; [auto|left; reflexivity]|].
    destruct (is_file (PyPath.child d "robotidy.toml")) eqn:E2;
      [left; split; [auto|left; reflexivity]|].
    destruct (is_file (PyPath.child d "pyproject.toml")) eqn:E3;
      [left; split; [auto|left; reflexivity]|].
    destruct (IH d) as [[Hm Hin]|Hl].
    + left. split; [exact Hm|right; exact Hin].
    + right. rewrite Hl. destruct rest as [|p rest]; [reflexivity|].
      cbn [List.last]. clear. revert p.
      induction rest as [|p' rest IHr]; intros p; [reflexivity|].
      apply (IHr p').
Qed.

Lemma find_project_root_base (src : string) (srcs : list string)
    (r : PyPath.path) :
  find_project_root (src :: srcs) = Return r ->
  exists common_base,
    (forall s, In s (src :: srcs) ->
               In common_base (parents_of_src (resolve s))) /\
    PyPath.max_by_parts
      (PyPath.intersection
         (map parents_of_src (map resolve (src :: srcs))))
    = Return common_base /\
    r = first_marked (common_base :: PyPath.parents common_base) common_base.
Proof.
  unfold CliConfig.find_project_root.
  destruct (PyPath.max_by_parts _) as [cb|e] eqn:E; [|discriminate].
  intros [= <-]. exists cb. split; [|split; reflexivity].
  apply max_by_parts_In in E. cbn [map] in E.
  intros s Hs. apply (proj1 (intersection_spec _ _ _) E).
  change (parents_of_src (resolve src)
          :: map parents_of_src (map resolve srcs))
    with (map parents_of_src (map resolve (src :: srcs))).
  apply in_map, in_map. exact Hs.
Qed.

(** X22: the directory [find_project_root] returns is a common parent of
    all the sources: it is each resolved source itself or one of its
    parents. *)
Theorem find_project_root_common_parent
    (srcs : list string) (r : PyPath.path) :
  find_project_root srcs = Return r ->
  forall src, In src srcs -> PyPath.is_prefix r (resolve src).
Proof.
  destruct srcs as [|src0 srcs]; [intros _ src []|].
  intros H src Hsrc.
  destruct (find_project_root_base _ _ _ H) as (cb & Hcb & _ & ->).
  apply is_prefix_trans with cb; [|apply parents_of_src_prefix, Hcb, Hsrc].
  apply is_prefix_self_or_parent.
  destruct (first_marked_spec (cb :: PyPath.parents cb) cb) as [[_ Hin]|Hl];
    [exact Hin|].
  rewrite Hl, parents_last. apply is_prefix_self_or_parent.
  exists cb. reflexivity.
Qed.

(** X23: the directory [find_project_root] returns holds one of the three
    markers, or it is the root of the file system; without sources it is
    the root of the file system. *)
Theorem find_project_root_marked_or_root
    (srcs : list string) (r : PyPath.path) :
  find_project_root srcs = Return r ->
  (marked r \/ r = PyPath.root) /\ (srcs = [] -> r = PyPath.root).
Proof.
  destruct srcs as [|src0 srcs].
  - intros [= <-]. split; [right; reflexivity|reflexivity].
  - intros H. split; [|discriminate].
    destruct (find_project_root_base _ _ _ H) as (cb & _ & _ & ->).
    destruct (first_marked_spec (cb :: PyPath.parents cb) cb) as [[Hm _]|Hl];
      [left; exact Hm|].
    right. rewrite Hl. apply parents_last.
Qed.

(** X24: [find_project_root] returns a directory whenever no source
    resolves to the root of the file system without being a directory;
    [max] then never sees an empty set. *)
Theorem find_project_root_returns (srcs : list string) :
  (forall src, In src srcs ->
               resolve src <> PyPath.root \/ is_dir (resolve src) = true) ->
  exists r, find_project_root srcs = Return r.
Proof.
  intros H. destruct srcs as [|src0 srcs]; [eexists; reflexivity|].
  unfold CliConfig.find_project_root.
  assert (Hroot : In PyPath.root
                     (PyPath.intersection
                        (map parents_of_src (map resolve (src0 :: srcs))))).
  { cbn [map]. apply intersection_spec. intros s Hs.
    change (parents_of_src (resolve src0)
            :: map parents_of_src (map resolve srcs))
      with (map parents_of_src (map resolve (src0 :: srcs))) in Hs.
    apply in_map_iff in Hs as (p & <- & Hp).
    apply in_map_iff in Hp as (src & <- & Hsrc).
    unfold CliConfig.parents_of_src. apply in_app_iff.
    destruct (H src Hsrc) as [Hne|Hdir].
    - left. apply parents_spec. exists (resolve src).
      split; [reflexivity|exact Hne].
    - destruct (resolve src) as [|x p] eqn:E.
      + right. rewrite Hdir. left. reflexivity.
      + left. apply parents_spec. exists (x :: p).
        split; [reflexivity|discriminate]. }
  destruct (PyPath.intersection _) as [|first others]; [destruct Hroot|].
  eexists. reflexivity.
Qed.

End ProjectRoot.

Lemma find_project_root_common_parent_witness :
  PyPath.is_prefix ["proj"] (Demo.resolve "a.robot") /\
  PyPath.is_prefix ["proj"] (Demo.resolve "tests").
Proof.
  split;
    apply (find_project_root_common_parent
             Demo.resolve Demo.is_dir Demo.exists_ Demo.is_file
             ["a.robot"; "tests"] ["proj"] eq_refl);
    cbn; tauto.
Defined.

Lemma find_project_root_marked_or_root_witness :
  (CliConfig.marked Demo.exists_ Demo.is_file ["proj"]
   \/ ["proj"] = PyPath.root) /\
  (["a.robot"; "tests"] = [] -> ["proj"] = PyPath.root).
Proof.
  apply (find_project_root_marked_or_root
           Demo.resolve Demo.is_dir Demo.exists_ Demo.is_file
           ["a.robot"; "tests"] ["proj"]).
  reflexivity.
Defined.

Lemma find_project_root_returns_witness :
  exists r,
    CliConfig.find_project_root Demo.resolve Demo.is_dir Demo.exists_
      Demo.is_file ["a.robot"; "elsewhere"] = Return r.
Proof.
  apply (find_project_root_returns
           Demo.resolve Demo.is_dir Demo.exists_ Demo.is_file
           ["a.robot"; "elsewhere"]).
  intros src [<-|[<-|[]]]; left; discriminate.
Defined.

(** *** The nearest marker *)

Lemma string_ltb_irrefl (x : string) : String.ltb x x = false.
Proof.
  unfold String.ltb. pose proof (String.compare_antisym x x) as H.
  destruct (String.compare x x); [reflexivity|discriminate|reflexivity].
Qed.

(** Among the prefixes of one path, the order of the parts is the order of
    the lengths. *)
Lemma parts_ltb_prefixes (p a b : PyPath.path) :
  PyPath.is_prefix a p -> PyPath.is_prefix b p ->
  PyPath.parts_ltb a b = (length a <? length b)%nat.
Proof.
  revert a b. induction p as [|x p IH]; intros a b [ra Ha] [rb Hb].
  - symmetry in Ha, Hb. apply app_eq_nil in Ha as [-> _].
    apply app_eq_nil in Hb as [-> _]. reflexivity.
  - destruct a as [|y a]; [destruct b; reflexivity|].
    destruct b as [|z b]; [reflexivity|].
    cbn in Ha, Hb. injection Ha as <- ->. injection Hb as <- Hb.
    cbn [PyPath.parts_ltb length]. rewrite string_ltb_irrefl, String.eqb_refl.
    apply IH; [exists ra; reflexivity|exists rb; exact Hb].
Qed.

Lemma is_prefix_shorter (p a b : PyPath.path) :
  PyPath.is_prefix a p -> PyPath.is_prefix b p ->
  (length a <= length b)%nat -> PyPath.is_prefix a b.
Proof.
  revert a b. induction p as [|x p IH]; intros a b [ra Ha] [rb Hb] Hlen.
  - symmetry in Ha. apply app_eq_nil in Ha as [-> _]. exists b. reflexivity.
  - destruct a as [|y a]; [exists b; reflexivity|].
    destruct b as [|z b]; [cbn in Hlen; lia|].
    cbn in Ha, Hb. injection Ha as <- ->. injection Hb as <- Hb.
    destruct (IH a b) as [r ->];
      [exists ra; reflexivity|exists rb; exact Hb|cbn in Hlen; lia|].
    exists r. reflexivity.
Qed.

Lemma fold_choose_longest (p : PyPath.path) (others : list PyPath.path) :
  forall first,
    List.Forall (fun q => PyPath.is_prefix q p) (first :: others) ->
    forall q,
      In q (first :: others) ->
      (length q <= length
         (fold_left (fun best x => if PyPath.parts_ltb best x then x else best)
                    others first))%nat.
Proof.
  induction others as [|x others IH]; intros first Hall q Hq.
  - destruct Hq as [<-|[]]. cbn. lia.
  - apply List.Forall_cons_iff in Hall as [Hf Hall].
    pose proof Hall as Hall'.
    apply List.Forall_cons_iff in Hall' as [Hx Hothers].
    cbn [fold_left]. rewrite (parts_ltb_prefixes p first x Hf Hx).
    destruct (Nat.ltb_spec (length first) (length x)) as [Hlt|Hge].
    + destruct Hq as [Heq|Hq].
      * subst q.
        etransitivity; [|apply (IH x Hall x); left; reflexivity]. lia.
      * apply (IH x Hall q Hq).
    + assert (Hall2 : List.Forall (fun q => PyPath.is_prefix q p)
                                  (first :: others))
        by (constructor; assumption).
      destruct Hq as [Heq|[Heq|Hq]].
      * subst q. apply (IH first Hall2). left. reflexivity.
      * subst q. etransitivity; [exact Hge|].
        apply (IH first Hall2). left. reflexivity.
      * apply (IH first Hall2). right. exact Hq.
Qed.

Lemma prefixes_snoc (c : PyPath.path) (x : string) :
  PyPath.prefixes (c ++ [x]) = PyPath.prefixes c ++ [c ++ [x]].
Proof.
  induction c as [|y c IH]; [reflexivity|].
  cbn [app PyPath.prefixes]. rewrite IH, map_app. reflexivity.
Qed.

Lemma parents_snoc (c : PyPath.path) (x : string) :
  PyPath.parents (c ++ [x]) = c :: PyPath.parents c.
Proof.
  unfold PyPath.parents. rewrite prefixes_snoc, removelast_last.
  destruct (prefixes_spec c) as (l & -> & _).
  rewrite removelast_last, rev_app_distr. reflexivity.
Qed.

Section NearestMarker.

Variable resolve : string -> PyPath.path.
Variable is_dir : PyPath.path -> bool.
Variable exists_ : PyPath.path -> bool.
Variable is_file : PyPath.path -> bool.

Abbreviation first_marked := (CliConfig.first_marked exists_ is_file).
Abbreviation find_project_root :=
  (CliConfig.find_project_root resolve is_dir exists_ is_file).
Abbreviation marked := (CliConfig.marked exists_ is_file).
Abbreviation parents_of_src := (CliConfig.parents_of_src is_dir).

(** Going up from a directory, the walk stops at the first marked one:
    every directory on the way that is deeper than the result is
    unmarked. *)
Lemma first_marked_nearest (common_base : PyPath.path) :
  forall q,
    PyPath.is_prefix q common_base ->
    (length (first_marked (common_base :: PyPath.parents common_base)
                          common_base) < length q)%nat ->
    ~ marked q.
Proof.
  induction common_base as [|x c IH] using rev_ind; intros q Hq Hlen.
  - destruct Hq as [rest Hq]. symmetry in Hq.
    apply app_eq_nil in Hq as [-> _]. cbn in Hlen. lia.
  - rewrite parents_snoc in Hlen.
    assert (Hcases : q = c ++ [x] \/ PyPath.is_prefix q c).
    { apply is_prefix_self_or_parent in Hq. rewrite parents_snoc in Hq.
      destruct Hq as [<-|Hq]; [left; reflexivity|right].
      apply is_prefix_self_or_parent. exact Hq. }
    cbn [CliConfig.first_marked] in Hlen. unfold CliConfig.marked.
    destruct (exists_ (PyPath.child (c ++ [x]) ".git")) eqn:E1.
    { destruct Hcases as [->|[rest ->]]; [lia|].
      rewrite length_app in Hlen. cbn in Hlen.
      rewrite length_app in Hlen. lia. }
    destruct (is_file (PyPath.child (c ++ [x]) "robotidy.toml")) eqn:E2.
    { destruct Hcases as [->|[rest ->]]; [lia|].
      rewrite length_app in Hlen. cbn in Hlen.
      rewrite length_app in Hlen. lia. }
    destruct (is_file (PyPath.child (c ++ [x]) "pyproject.toml")) eqn:E3.
    { destruct Hcases as [->|[rest ->]]; [lia|].
      rewrite length_app in Hlen. cbn in Hlen.
      rewrite length_app in Hlen. lia. }
    destruct Hcases as [->|Hc].
    + rewrite E1, E2, E3. intros [H|[H|H]]; discriminate.
    + apply (IH q Hc). exact Hlen.
Qed.

(** X25: the returned directory is the nearest marked one: no common
    parent of the sources (a parent of each source, or the source itself
    when it is a directory) that lies deeper than the returned directory
    holds a marker. *)
Theorem find_project_root_nearest
    (srcs : list string) (r q : PyPath.path) :
  srcs <> [] ->
  find_project_root srcs = Return r ->
  (forall src, In src srcs -> In q (parents_of_src (resolve src))) ->
  (length r < length q)%nat ->
  ~ marked q.
Proof.
  intros Hne Hroot Hq Hlen. destruct srcs as [|src0 srcs]; [contradiction|].
  unfold CliConfig.find_project_root in Hroot.
  destruct (PyPath.max_by_parts _) as [cb|e] eqn:E; [|discriminate].
  injection Hroot as <-.
  assert (Hqin : In q (PyPath.intersection
                         (map parents_of_src (map resolve (src0 :: srcs))))).
  { cbn [map]. apply intersection_spec. intros s Hs.
    change (parents_of_src (resolve src0)
            :: map parents_of_src (map resolve srcs))
      with (map parents_of_src (map resolve (src0 :: srcs))) in Hs.
    apply in_map_iff in Hs as (p & <- & Hp).
    apply in_map_iff in Hp as (src & <- & Hsrc). apply Hq. exact Hsrc. }
  assert (Hall : List.Forall
                   (fun x => PyPath.is_prefix x (resolve src0))
                   (PyPath.intersection
                      (map parents_of_src (map resolve (src0 :: srcs))))).
  { apply List.Forall_forall. intros x Hx. cbn [map] in Hx.
    apply (parents_of_src_prefix is_dir).
    apply (proj1 (intersection_spec _ _ _) Hx). left. reflexivity. }
  assert (Hcb : In cb (PyPath.intersection
                         (map parents_of_src (map resolve (src0 :: srcs)))))
    by (apply max_by_parts_In; exact E).
  assert (Hlong : (length q <= length cb)%nat).
  { unfold PyPath.max_by_parts in E.
    destruct (PyPath.intersection _) as [|first others];
      [discriminate|].
    injection E as <-.
    apply (fold_choose_longest (resolve src0)); assumption. }
  apply (first_marked_nearest cb); [|exact Hlen].
  apply (is_prefix_shorter (resolve src0)); [| |exact Hlong].
  - exact (proj1 (List.Forall_forall _ _) Hall q Hqin).
  - exact (proj1 (List.Forall_forall _ _) Hall cb Hcb).
Qed.

End NearestMarker.

Lemma find_project_root_nearest_witness :
  ~ CliConfig.marked Demo.exists_ Demo.is_file ["proj"; "tests"].
Proof.
  apply (find_project_root_nearest
           Demo.resolve Demo.is_dir Demo.exists_ Demo.is_file
           ["a.robot"; "tests"] ["proj"] ["proj"; "tests"]).
  - discriminate.
  - reflexivity.
  - intros src [<-|[<-|[]]]; vm_compute; tauto.
  - cbn. lia.
Defined.

(** ** The raw help text (lines 56-67) *)

Lemma concat_split (sep : ascii) (s : string) :
  String.concat (String sep EmptyString) (PyStr.split sep s) = s.
Proof.
  induction s as [|c s IH]; [reflexivity|]. cbn [PyStr.split].
  pose proof (split_nonempty sep s) as Hne.
  destruct (Ascii.eqb c sep) eqn:E.
  - apply Ascii.eqb_eq in E. subst c.
    destruct (PyStr.split sep s) as [|hd tl]; [contradiction|].
    cbn [String.concat] in *. rewrite IH. reflexivity.
  - destruct (PyStr.split sep s) as [|hd tl]; [contradiction|].
    destruct tl as [|hd' tl]; cbn [String.concat] in *;
      rewrite <- IH; reflexivity.
Qed.

Lemma split_items_no_sep (sep : ascii) (s : string) :
  List.Forall (fun line => PyStr.has_char sep line = false)
              (PyStr.split sep s).
Proof.
  induction s as [|c s IH]; [repeat constructor|]. cbn [PyStr.split].
  pose proof (split_nonempty sep s) as Hne.
  destruct (Ascii.eqb c sep) eqn:E.
  - constructor; [reflexivity|exact IH].
  - destruct (PyStr.split sep s) as [|hd tl]; [contradiction|].
    apply List.Forall_cons_iff in IH as [Hhd Htl].
    constructor; [|exact Htl]. cbn [PyStr.has_char]. rewrite E, Hhd.
    reflexivity.
Qed.

Lemma written_lines_map (lines : list string) :
  CliHelp.written_lines (map CliHelp.write_text lines) = lines.
Proof.
  unfold CliHelp.written_lines.
  induction lines as [|l lines IH]; [reflexivity|].
  cbn [map flat_map app]. rewrite IH. reflexivity.
Qed.

(** X26: [RawHelp] writes a help text (and an epilog) as it is: after one
    paragraph break, the lines handed to the formatter, none of which has
    a line break, joined by line breaks give the text back. *)
Theorem format_help_text_verbatim (text : string) :
  text <> "" ->
  exists lines,
    CliHelp.format_help_text (Some text)
    = CliHelp.write_paragraph :: map CliHelp.write_text lines /\
    CliHelp.format_epilog (Some text)
    = CliHelp.write_paragraph :: map CliHelp.write_text lines /\
    CliHelp.written_lines (CliHelp.format_help_text (Some text)) = lines /\
    String.concat (String "010"%char "") lines = text /\
    List.Forall (fun line => PyStr.has_char "010"%char line = false) lines.
Proof.
  intros Hne. exists (PyStr.split "010"%char text).
  unfold CliHelp.format_help_text, CliHelp.format_epilog, CliHelp.write_raw.
  assert (Ht : truthy (Some text) = true)
    by (destruct text; [contradiction|reflexivity]).
  rewrite Ht. cbn [default from_option id].
  repeat split.
  - cbn [CliHelp.written_lines flat_map app].
    apply written_lines_map.
  - apply concat_split.
  - apply split_items_no_sep.
Qed.

Lemma format_help_text_verbatim_witness :
  exists lines,
    CliHelp.format_help_text (Some "Version: 1.3.0
Robotidy formats code.
")
    = CliHelp.write_paragraph :: map CliHelp.write_text lines /\
    CliHelp.format_epilog (Some "Version: 1.3.0
Robotidy formats code.
")
    = CliHelp.write_paragraph :: map CliHelp.write_text lines /\
    CliHelp.written_lines (CliHelp.format_help_text (Some "Version: 1.3.0
Robotidy formats code.
")) = lines /\
    String.concat (String "010"%char "") lines = "Version: 1.3.0
Robotidy formats code.
" /\
    List.Forall (fun line => PyStr.has_char "010"%char line = false) lines.
Proof.
  apply (format_help_text_verbatim "Version: 1.3.0
Robotidy formats code.
").
  discriminate.
Defined.
